(** * TripBuilder: the CRM custom-field synchronisation layer

    A shallow embedding of the Python sources
    - [tripbuilder/field_mapping.py]          (custom-field codec),
    - [tripbuilder/ghl_api.py]                (CRM client, [_make_request]),
    - [tripbuilder/services/ghl_sync.py]      (bulk pulls and the full sync),
    - [tripbuilder/services/two_way_sync.py]  (push of a trip),
    - [.scripts/link_passengers_to_trips.py]  (the linker's match function),
    - [.scripts/link_passengers_from_raw_json.py] (typed value keys),
    - [.scripts/build_field_maps.py]          (field-map rebuild),
    followed by the properties proved about them.

    Conventions.  Python values are the inductive [pyval]; a [dict] that the
    code builds or reads by key is a [gmap]; a dict literal whose iteration
    order the code relies on is the list of its items in source order.
    Strings are ASCII text: [lower], [upper] and [strip] act on the 7-bit
    range and leave other bytes alone. *)

From Stdlib Require Import ZArith String Ascii List Lia Bool.
From stdpp Require Import base option list gmap strings pretty.

#[local] Set Warnings "-register-all".
#[local] Open Scope Z_scope.

(** ** Python values *)

Module Py.

(** A float is kept as the dyadic number [m * 2^e] it denotes (or an
    infinity, or a NaN); only conversions from and to [int] are computed
    here, everything else about floats is left to [PyRuntime] below. *)
Inductive pyfloat :=
| FFinite (m e : Z)
| FInf (neg : bool)
| FNaN.

(** [datetime.date]: the three fields as the class stores them. *)
Record date := mkdate { year : Z; month : Z; day : Z }.

(** Hashable values, up to the equality that dict keys are compared with:
    [True == 1 == 1.0] are one key, so a number is kept in the normal form
    [m * 2^e] with [m] odd (or [0 * 2^0]).  NaN keys are identified. *)
Inductive pykey :=
| KNone
| KNum (m e : Z)
| KInf (neg : bool)
| KNaN
| KStr (s : string)
| KDate (y m d : Z).

#[global] Instance pykey_eq_dec : EqDecision pykey.
Proof. solve_decision. Defined.

#[global] Instance pykey_countable : Countable pykey.
Proof.
  refine (inj_countable'
    (fun k => match k with
              | KNone => inl (inl tt)
              | KNaN => inl (inr tt)
              | KNum m e => inr (inl (m, e))
              | KInf b => inr (inr (inl b))
              | KStr s => inr (inr (inr (inl s)))
              | KDate y m d => inr (inr (inr (inr (y, m, d))))
              end)
    (fun x => match x with
              | inl (inl _) => KNone
              | inl (inr _) => KNaN
              | inr (inl (m, e)) => KNum m e
              | inr (inr (inl b)) => KInf b
              | inr (inr (inr (inl s))) => KStr s
              | inr (inr (inr (inr (y, m, d)))) => KDate y m d
              end) _).
  by intros [].
Defined.

Inductive pyval :=
| PNone
| PBool (b : bool)
| PInt (n : Z)
| PFloat (f : pyfloat)
| PStr (s : string)
| PDate (d : date)
| PList (l : list pyval)
| PDict (d : gmap pykey pyval).

(** Every dict of the program is a finite map from keys to values. *)
Abbreviation pydict := (gmap pykey pyval).

(** Exceptions that the modelled code raises or lets through. *)
Inductive pyexn :=
| GoHighLevelAPIError (message : pyval) (status_code : option Z)
                      (response_data : option pyval)
| RequestException (msg : string)
| JSONDecodeError (msg : string)
| TypeError (msg : string)
| ValueError (msg : string)
| AttributeError (msg : string)
| OverflowError (msg : string)
| PyException (msg : string).

Inductive result (A : Type) :=
| Ok (a : A)
| Raise (e : pyexn).
Arguments Ok {A} a.
Arguments Raise {A} e.

(** *** Characters and strings *)

Definition code (c : ascii) : Z := Z.of_N (N_of_ascii c).
Definition chr (n : Z) : ascii := ascii_of_N (Z.to_N n).

Definition is_upper_char (c : ascii) : bool := (65 <=? code c) && (code c <=? 90).
Definition is_lower_char (c : ascii) : bool := (97 <=? code c) && (code c <=? 122).

Definition lower_char (c : ascii) : ascii :=
  if is_upper_char c then chr (code c + 32) else c.
Definition upper_char (c : ascii) : ascii :=
  if is_lower_char c then chr (code c - 32) else c.

(** [str.isspace] on the ASCII range: TAB..CR, FS..US and the space. *)
Definition is_space_char (c : ascii) : bool :=
  ((9 <=? code c) && (code c <=? 13)) || ((28 <=? code c) && (code c <=? 32)).

Fixpoint str_map (f : ascii -> ascii) (s : string) : string :=
  match s with
  | EmptyString => EmptyString
  | String c s' => String (f c) (str_map f s')
  end.

Definition lower (s : string) : string := str_map lower_char s.
Definition upper (s : string) : string := str_map upper_char s.

(** [s.capitalize()]: first character upper-cased, the rest lower-cased. *)
Definition capitalize (s : string) : string :=
  match s with
  | EmptyString => EmptyString
  | String c s' => String (upper_char c) (lower s')
  end.

Fixpoint lstrip (s : string) : string :=
  match s with
  | String c s' => if is_space_char c then lstrip s' else s
  | EmptyString => EmptyString
  end.

(** Removes trailing white space: a character is kept when something
    that is kept follows it, or when it is not white space itself. *)
Fixpoint rstrip (s : string) : string :=
  match s with
  | EmptyString => EmptyString
  | String c s' =>
      match rstrip s' with
      | EmptyString => if is_space_char c then EmptyString else String c EmptyString
      | r => String c r
      end
  end.

Definition strip (s : string) : string := rstrip (lstrip s).

Definition len (s : string) : Z := Z.of_nat (String.length s).

Fixpoint startswith (p s : string) : bool :=
  match p, s with
  | EmptyString, _ => true
  | String a p', String b s' => if Ascii.eqb a b then startswith p' s' else false
  | String _ _, EmptyString => false
  end.

(** [needle in hay] for two strings. *)
Fixpoint str_in (needle hay : string) : bool :=
  startswith needle hay ||
  match hay with
  | EmptyString => false
  | String _ hay' => str_in needle hay'
  end.

(** [s.replace(c, r)] for a one-character pattern [c]. *)
Fixpoint replace_char (c : ascii) (r : string) (s : string) : string :=
  match s with
  | EmptyString => EmptyString
  | String a s' =>
      if Ascii.eqb a c then (r ++ replace_char c r s')%string
      else String a (replace_char c r s')
  end.

(** *** Numbers *)

(** Nearest integer to [p / q] for [q > 0], ties to even. *)
Definition round_half_even (p q : Z) : Z :=
  let d := p / q in
  let r := p mod q in
  if 2 * r <? q then d
  else if q <? 2 * r then d + 1
  else if Z.even d then d else d + 1.

(** [float(n)] for an [int]: exact below [2^53], otherwise rounded to 53
    significant bits; [None] is [OverflowError]. *)
Definition float_of_int (n : Z) : option pyfloat :=
  let a := Z.abs n in
  if a <? 2 ^ 53 then Some (FFinite n 0)
  else
    let sh := Z.log2 a - 52 in
    let m := round_half_even a (2 ^ sh) in
    if 2 ^ 1024 <=? m * 2 ^ sh then None
    else Some (FFinite (Z.sgn n * m) sh).

(** [int(x)] for a float: truncation towards zero; [None] is the
    [OverflowError] for an infinity or the [ValueError] for a NaN. *)
Definition int_of_float (x : pyfloat) : option Z :=
  match x with
  | FFinite m e => Some (if 0 <=? e then m * 2 ^ e else Z.quot m (2 ^ (- e)))
  | FInf _ | FNaN => None
  end.

Definition float_truthy (x : pyfloat) : bool :=
  match x with
  | FFinite m _ => negb (m =? 0)
  | FInf _ | FNaN => true
  end.

(** [bool(v)]: the truth value that [if v], [not v] and [v or w] test. *)
Definition truthy (v : pyval) : bool :=
  match v with
  | PNone => false
  | PBool b => b
  | PInt n => negb (n =? 0)
  | PFloat x => float_truthy x
  | PStr s => negb (String.eqb s "")
  | PDate _ => true
  | PList l => match l with [] => false | _ => true end
  | PDict d => negb (bool_decide (d = ∅))
  end.

Definition is_None (v : pyval) : bool :=
  match v with PNone => true | _ => false end.

(** [d.get(k)] for a string [k]: [None] when the key is missing. *)
Definition dict_get (d : pydict) (k : string) : pyval :=
  default PNone (d !! KStr k).

(** ['k' in d]. *)
Definition dict_has (d : pydict) (k : string) : bool :=
  bool_decide (is_Some (d !! KStr k)).

Fixpoint pos_strip (p : positive) (e : Z) : positive * Z :=
  match p with
  | xO p' => pos_strip p' (e + 1)
  | _ => (p, e)
  end.

Definition num_key (m e : Z) : pykey :=
  match m with
  | Z0 => KNum 0 0
  | Zpos p => let '(q, e') := pos_strip p e in KNum (Zpos q) e'
  | Zneg p => let '(q, e') := pos_strip p e in KNum (Zneg q) e'
  end.

(** The key a value is stored under; [None] for the unhashable ones. *)
Definition key_of (v : pyval) : option pykey :=
  match v with
  | PNone => Some KNone
  | PBool b => Some (num_key (if b then 1 else 0) 0)
  | PInt n => Some (num_key n 0)
  | PFloat (FFinite m e) => Some (num_key m e)
  | PFloat (FInf b) => Some (KInf b)
  | PFloat FNaN => Some KNaN
  | PStr s => Some (KStr s)
  | PDate d => Some (KDate (year d) (month d) (day d))
  | PList _ | PDict _ => None
  end.

(** [d[k] = v]. *)
Definition dict_setitem (d : pydict) (k v : pyval) : result pydict :=
  match key_of k with
  | Some key => Ok (<[key := v]> d)
  | None => Raise (TypeError "unhashable type")
  end.

(** *** Dates *)

Definition is_leap (y : Z) : bool :=
  (y mod 4 =? 0) && (negb (y mod 100 =? 0) || (y mod 400 =? 0)).

Definition days_in_month (y m : Z) : Z :=
  if m =? 2 then (if is_leap y then 29 else 28)
  else if (m =? 4) || (m =? 6) || (m =? 9) || (m =? 11) then 30
  else 31.

(** The check the [date] constructor makes. *)
Definition valid_date (d : date) : bool :=
  (1 <=? year d) && (year d <=? 9999) &&
  (1 <=? month d) && (month d <=? 12) &&
  (1 <=? day d) && (day d <=? days_in_month (year d) (month d)).

Definition digit_char (d : Z) : ascii := chr (48 + d).

Definition two_digits (n : Z) : string :=
  String (digit_char (n / 10)) (String (digit_char (n mod 10)) EmptyString).

Definition four_digits (n : Z) : string :=
  String (digit_char (n / 1000))
    (String (digit_char (n / 100 mod 10)) (two_digits (n mod 100))).

(** [d.isoformat()]: ["%04d-%02d-%02d"]. *)
Definition isoformat (d : date) : string :=
  (four_digits (year d) ++ "-" ++ two_digits (month d) ++ "-" ++ two_digits (day d))%string.

Definition digit_val (c : ascii) : option Z :=
  if (48 <=? code c) && (code c <=? 57) then Some (code c - 48) else None.

(** Reads exactly [n] decimal digits, returns their value and the rest. *)
Fixpoint parse_digits (n : nat) (acc : Z) (s : string) : option (Z * string) :=
  match n with
  | O => Some (acc, s)
  | S n' =>
      match s with
      | String c s' =>
          match digit_val c with
          | Some d => parse_digits n' (10 * acc + d) s'
          | None => None
          end
      | EmptyString => None
      end
  end.

Definition expect_char (c : ascii) (s : string) : option string :=
  match s with
  | String a s' => if Ascii.eqb a c then Some s' else None
  | EmptyString => None
  end.

(** The date part ["YYYY-MM-DD"] of an ISO string and what follows it. *)
Definition parse_isoformat_date (s : string) : option (date * string) :=
  '(y, s1) ← parse_digits 4 0 s;
  s2 ← expect_char "-" s1;
  '(m, s3) ← parse_digits 2 0 s2;
  s4 ← expect_char "-" s3;
  '(d, s5) ← parse_digits 2 0 s4;
  Some (mkdate y m d, s5).

(** The time part, after the documented grammar of
    [datetime.fromisoformat] (Python 3.7 to 3.10):
    [HH[:MM[:SS[.fff[fff]]]][+HH:MM[:SS[.ffffff]]]].  Only its validity
    matters here, since [.date()] drops the time of day. *)
Fixpoint split_tz (s : string) : string * option string :=
  match s with
  | EmptyString => (EmptyString, None)
  | String c s' =>
      if Ascii.eqb c "+" || Ascii.eqb c "-" then (EmptyString, Some s')
      else let '(t, z) := split_tz s' in (String c t, z)
  end.

(** [HH[:MM[:SS]]]: the fields read, how many there were, and the rest. *)
Definition parse_hh_mm_ss (s : string) : option (Z * Z * Z * nat * string) :=
  '(h, s1) ← parse_digits 2 0 s;
  match expect_char ":" s1 with
  | None => Some (h, 0, 0, 1%nat, s1)
  | Some s2 =>
      '(m, s3) ← parse_digits 2 0 s2;
      match expect_char ":" s3 with
      | None => Some (h, m, 0, 2%nat, s3)
      | Some s4 =>
          '(sec, s5) ← parse_digits 2 0 s4;
          Some (h, m, sec, 3%nat, s5)
      end
  end.

(** What may follow the fields: nothing, or after the seconds a point and
    [digits] many digits, for each allowed count. *)
Definition parse_fraction (allowed : list nat) (fields : nat) (s : string) : option Z :=
  match s with
  | EmptyString => Some 0
  | String c s' =>
      if Ascii.eqb c "." && (fields =? 3)%nat
         && bool_decide (String.length s' ∈ allowed)
      then fst <$> parse_digits (String.length s') 0 s'
      else None
  end.

Definition valid_time_of_day (s : string) : bool :=
  match parse_hh_mm_ss s with
  | Some (h, m, sec, n, rest) =>
      match parse_fraction [3%nat; 6%nat] n rest with
      | Some _ => (h <? 24) && (m <? 60) && (sec <? 60)
      | None => false
      end
  | None => false
  end.

(** The UTC offset must have minutes, and stay within a day. *)
Definition valid_tz (s : string) : bool :=
  match parse_hh_mm_ss s with
  | Some (h, m, sec, n, rest) =>
      match parse_fraction [6%nat] n rest with
      | Some _ => (2 <=? n)%nat && (m <? 60) && (sec <? 60) && (h <? 24)
      | None => false
      end
  | None => false
  end.

Definition valid_time_part (s : string) : bool :=
  let '(t, z) := split_tz s in
  valid_time_of_day t && match z with None => true | Some tz => valid_tz tz end.

(** [datetime.fromisoformat(s).date()]; [None] is [ValueError].  After the
    ten characters of the date, one separator of any kind and a time part
    may follow. *)
Definition fromisoformat_date (s : string) : option date :=
  '(d, rest) ← parse_isoformat_date s;
  if valid_date d then
    match rest with
    | EmptyString => Some d
    | String _ t => if valid_time_part t then Some d else None
    end
  else None.

(** Proleptic Gregorian ordinals, as in [datetime.py]. *)
Definition days_before_year (y : Z) : Z :=
  let y := y - 1 in y * 365 + y / 4 - y / 100 + y / 400.

Definition days_before_month_table (m : Z) : Z :=
  nth (Z.to_nat m) [-1; 0; 31; 59; 90; 120; 151; 181; 212; 243; 273; 304; 334] 0.

Definition days_in_month_table (m : Z) : Z :=
  nth (Z.to_nat m) [-1; 31; 28; 31; 30; 31; 30; 31; 31; 30; 31; 30; 31] 0.

Definition days_before_month (y m : Z) : Z :=
  days_before_month_table m + (if (2 <? m) && is_leap y then 1 else 0).

Definition ymd2ord (d : date) : Z :=
  days_before_year (year d) + days_before_month (year d) (month d) + day d.

Definition MAXORDINAL : Z := 3652059.

Definition ord2ymd (n : Z) : date :=
  let n := n - 1 in
  let n400 := n / 146097 in let n := n mod 146097 in
  let y := n400 * 400 + 1 in
  let n100 := n / 36524 in let n := n mod 36524 in
  let n4 := n / 1461 in let n := n mod 1461 in
  let n1 := n / 365 in let n := n mod 365 in
  let y := y + n100 * 100 + n4 * 4 + n1 in
  if (n1 =? 4) || (n100 =? 4) then mkdate (y - 1) 12 31
  else
    let leapyear := (n1 =? 3) && (negb (n4 =? 24) || (n100 =? 3)) in
    let m := Z.shiftr (n + 50) 5 in
    let preceding := days_before_month_table m + (if (2 <? m) && leapyear then 1 else 0) in
    if n <? preceding then
      let m := m - 1 in
      let preceding :=
        preceding - (days_in_month_table m + (if (m =? 2) && leapyear then 1 else 0)) in
      mkdate y m (n - preceding + 1)
    else mkdate y m (n - preceding + 1).

(** [d + timedelta(days=k)]; [None] is the [OverflowError] raised when
    the result leaves the years 1 to 9999. *)
Definition date_add_days (d : date) (k : Z) : option date :=
  let o := ymd2ord d + k in
  if (0 <? o) && (o <=? MAXORDINAL) then Some (ord2ymd o) else None.

(** *** What is left to the interpreter

    Three library functions are not computed here: parsing a numeric
    literal into a float, printing a float or a container, and converting
    an epoch time to a local calendar date (which depends on the time zone
    of the host).  The code is embedded over any implementation of them. *)
Class PyRuntime := {
  (** [float(s)] for a string; [None] is [ValueError]. *)
  float_of_str : string -> option pyfloat;
  (** [str(v)] for a float, a list or a dict. *)
  str_of_other : pyval -> string;
  (** [datetime.fromtimestamp(v / 1000).date()] for a number [v];
      [None] when it raises. *)
  local_date_of_epoch_ms : pyval -> option date;
}.

Section Conversions.
Context `{PyRuntime}.

(** [str(v)]. *)
Definition py_str (v : pyval) : string :=
  match v with
  | PNone => "None"
  | PBool true => "True"
  | PBool false => "False"
  | PInt n => pretty n
  | PStr s => s
  | PDate d => isoformat d
  | PFloat _ | PList _ | PDict _ => str_of_other v
  end.

(** [float(v)]; [None] when it raises ([TypeError], [ValueError] or
    [OverflowError]). *)
Definition py_float (v : pyval) : option pyfloat :=
  match v with
  | PFloat x => Some x
  | PInt n => float_of_int n
  | PBool b => Some (FFinite (if b then 1 else 0) 0)
  | PStr s => float_of_str s
  | PNone | PDate _ | PList _ | PDict _ => None
  end.

(** [str(e)] for an exception: the message it was built with. *)
Definition exn_str (e : pyexn) : string :=
  match e with
  | GoHighLevelAPIError m _ _ => py_str m
  | RequestException m | JSONDecodeError m | TypeError m | ValueError m
  | AttributeError m | OverflowError m | PyException m => m
  end.

End Conversions.

End Py.

(** ** [tripbuilder/field_mapping.py] *)

Module FieldMapping.
Import Py.

(** The two dict literals, as their items in source order
    (GHL field key, then column name). *)
Definition TRIP_FIELD_MAP : list (string * string) := [
  ("opportunity.tripname", "name");
  ("opportunity.destination", "destination");
  ("opportunity.tripdescription", "trip_description");
  ("opportunity.arrivaldate", "arrival_date");
  ("opportunity.returndate", "return_date");
  ("opportunity.depositdate", "deposit_date");
  ("opportunity.finalpayment", "final_payment");
  ("opportunity.maxpassengers", "max_passengers");
  ("opportunity.passengercount", "passenger_count");
  ("opportunity.tripstandardlevelpricing", "trip_standard_level_pricing");
  ("opportunity.tripvendor", "trip_vendor");
  ("opportunity.vendorterms", "vendor_terms");
  ("opportunity.travelbusinessused", "travel_business_used");
  ("opportunity.travelcategory", "travel_category");
  ("opportunity.nights", "nights_total");
  ("opportunity.lodging", "lodging");
  ("opportunity.lodgingnotes", "lodging_notes");
  ("opportunity.internaltripdetails", "internal_trip_details");
  ("opportunity.birthcountry", "birth_country");
  ("opportunity.passengerid", "passenger_id");
  ("opportunity.passengername", "passenger_first_name");
  ("opportunity.passengernumber", "passenger_number");
  ("opportunity.tripid", "trip_id_custom");
  ("opportunity.ischild", "is_child")
]%string.

Definition PASSENGER_FIELD_MAP : list (string * string) := [
  ("opportunity.tripname", "trip_name");
  ("contact.firstname", "firstname");
  ("contact.lastname", "lastname");
  ("contact.email", "email");
  ("contact.phone", "phone");
  ("opportunity.userroomate", "user_roomate");
  ("opportunity.roomoccupancy", "room_occupancy");
  ("opportunity.passportnumber", "passport_number");
  ("opportunity.passportexpire", "passport_expire");
  ("opportunity.passportfile", "passport_file");
  ("opportunity.passportcountry", "passport_country");
  ("opportunity.healthstate", "health_state");
  ("opportunity.healthmedicalinfo", "health_medical_info");
  ("opportunity.primaryphy", "primary_phy");
  ("opportunity.physicianphone", "physician_phone");
  ("opportunity.medicationlist", "medication_list");
  ("opportunity.contact1ulastname", "contact1_ulast_name");
  ("opportunity.contact1ufirstname", "contact1_ufirst_name");
  ("opportunity.contact1urelationship", "contact1_urelationship");
  ("opportunity.contact1umailingaddress", "contact1_umailing_address");
  ("opportunity.contact1ucity", "contact1_ucity");
  ("opportunity.contact1uzip", "contact1_uzip");
  ("opportunity.contact1uemail", "contact1_uemail");
  ("opportunity.contact1uphone", "contact1_uphone");
  ("opportunity.contact1umobnumber", "contact1_umob_number");
  ("opportunity.contact1ustate", "contact1_ustate");
  ("opportunity.formsubmitteddate", "form_submitted_date");
  ("opportunity.travelcategorylicense", "travel_category_license");
  ("opportunity.passengersignature", "passenger_signature");
  ("opportunity.reservation", "reservation");
  ("opportunity.mou", "mou");
  ("opportunity.affidavit", "affidavit")
]%string.

Definition in_columns (c : string) (l : list string) : bool := bool_decide (c ∈ l).

Definition TRIP_DATE_COLUMNS : list string :=
  ["arrival_date"; "return_date"; "deposit_date"; "final_payment"; "start_date"; "end_date"]%string.
Definition TRIP_INTEGER_COLUMNS : list string :=
  ["max_passengers"; "passenger_number"; "passenger_count"; "nights_total";
   "trip_id_custom"; "current_passengers"]%string.
Definition TRIP_DECIMAL_COLUMNS : list string :=
  ["trip_standard_level_pricing"; "base_price"]%string.
Definition PASSENGER_DATE_COLUMNS : list string :=
  ["passport_expire"; "form_submitted_date"; "date_of_birth"]%string.
Definition PASSENGER_BOOLEAN_COLUMNS : list string :=
  ["registration_completed"; "documents_completed"]%string.

Section Codec.
Context `{PyRuntime}.

(** [parse_ghl_custom_fields]: the loop body.  An entry that is not a dict
    is skipped; otherwise its ['id'] and ['fieldValue'] are read with
    [.get], and stored when the id is truthy.  Storing under an id that
    cannot be hashed raises [TypeError]. *)
Definition parse_step (result : pydict) (field : pyval) : Py.result pydict :=
  match field with
  | PDict d =>
      let field_id := dict_get d "id" in
      let field_value := dict_get d "fieldValue" in
      if truthy field_id then dict_setitem result field_id field_value
      else Ok result
  | _ => Ok result
  end.

Fixpoint parse_loop (result : pydict) (fields : list pyval) : Py.result pydict :=
  match fields with
  | [] => Ok result
  | field :: rest =>
      match parse_step result field with
      | Ok result' => parse_loop result' rest
      | Raise e => Raise e
      end
  end.

Definition parse_ghl_custom_fields (custom_fields_list : pyval) : Py.result pydict :=
  match custom_fields_list with
  | PList l => parse_loop ∅ l
  | _ => Ok ∅
  end.

(** The branches of the [if]/[elif] chain on [column_name]. *)
Inductive kind := Date | Integer | Decimal | Boolean | Text.

Definition trip_column_kind (column_name : string) : kind :=
  if in_columns column_name TRIP_DATE_COLUMNS then Date
  else if in_columns column_name TRIP_INTEGER_COLUMNS then Integer
  else if in_columns column_name TRIP_DECIMAL_COLUMNS then Decimal
  else if String.eqb column_name "is_child" then Boolean
  else Text.

Definition passenger_column_kind (column_name : string) : kind :=
  if in_columns column_name PASSENGER_DATE_COLUMNS then Date
  else if in_columns column_name PASSENGER_BOOLEAN_COLUMNS then Boolean
  else Text.

(** The conversions of the [map_*] functions.  [None] means that nothing
    is assigned to [mapped[column_name]]: either no branch of the
    [isinstance] chain applies, or the bare [except: pass] swallowed an
    exception. *)
Definition convert_date (value : pyval) : option pyval :=
  match value with
  | PStr s => PDate <$> fromisoformat_date (replace_char "Z" "+00:00" s)
  | PBool _ | PInt _ | PFloat _ => PDate <$> local_date_of_epoch_ms value
  | _ => None
  end.

Definition convert_integer (value : pyval) : option pyval :=
  if truthy value then
    x ← py_float value; n ← int_of_float x; Some (PInt n)
  else Some PNone.

Definition convert_decimal (value : pyval) : option pyval :=
  if truthy value then PFloat <$> py_float value else Some PNone.

Definition convert_boolean (value : pyval) : option pyval :=
  match value with
  | PBool b => Some (PBool b)
  | PStr s => Some (PBool (bool_decide (lower s ∈ ["true"; "yes"; "1"]%string)))
  | _ => None
  end.

Definition convert_string (value : pyval) : option pyval :=
  Some (if truthy value then PStr (py_str value) else PNone).

Definition convert (k : kind) (value : pyval) : option pyval :=
  match k with
  | Date => convert_date value
  | Integer => convert_integer value
  | Decimal => convert_decimal value
  | Boolean => convert_boolean value
  | Text => convert_string value
  end.

Definition convert_trip_column (column_name : string) (value : pyval) : option pyval :=
  convert (trip_column_kind column_name) value.

Definition convert_passenger_column (column_name : string) (value : pyval) : option pyval :=
  convert (passenger_column_kind column_name) value.

(** One round of [for field_key, column_name in FIELD_MAP.items()]. *)
Definition map_step (convert_column : string -> pyval -> option pyval)
    (custom_fields : pydict) (mapped : pydict) (item : string * string) : pydict :=
  let '(field_key, column_name) := item in
  let value := dict_get custom_fields field_key in
  if is_None value then mapped
  else match convert_column column_name value with
       | Some v => <[KStr column_name := v]> mapped
       | None => mapped
       end.

Definition map_trip_custom_fields (custom_fields : pydict) : pydict :=
  fold_left (map_step convert_trip_column custom_fields) TRIP_FIELD_MAP ∅.

Definition map_passenger_custom_fields (custom_fields : pydict) : pydict :=
  fold_left (map_step convert_passenger_column custom_fields) PASSENGER_FIELD_MAP ∅.

(** [{v: k for k, v in field_map.items()}]: a later item wins. *)
Definition reverse_map (field_map : list (string * string)) : gmap string string :=
  fold_left (fun acc '(k, v) => <[v := k]> acc) field_map ∅.

(** The value written to the outbound payload: a date becomes its ISO
    string, a boolean its lower-cased [str], anything else is passed on as
    it is. *)
Definition encode_value (value : pyval) : pyval :=
  match value with
  | PDate d => PStr (isoformat d)
  | PBool _ => PStr (lower (py_str value))
  | _ => value
  end.

(** One round of [for column_name, value in model_data.items()]. *)
Definition encode_step (rev : gmap string string)
    (column_name : pykey) (value : pyval) (custom_fields_dict : pydict) : pydict :=
  match column_name with
  | KStr c =>
      match rev !! c with
      | Some field_key =>
          if negb (String.eqb field_key "") && negb (is_None value)
          then <[KStr field_key := encode_value value]> custom_fields_dict
          else custom_fields_dict
      | None => custom_fields_dict
      end
  | _ => custom_fields_dict
  end.

Definition create_ghl_custom_fields_dict
    (model_data : pydict) (field_map : list (string * string)) : pydict :=
  map_fold (encode_step (reverse_map field_map)) ∅ model_data.

End Codec.

End FieldMapping.

(** ** [tripbuilder/services/two_way_sync.py]: the payload of a pushed trip *)

Module TwoWaySync.
Import Py FieldMapping.

Section Push.
Context `{PyRuntime}.

(** Lines 73 to 90 of [push_trip_to_ghl].  The trip is given by its
    attribute values; [getattr(trip, column_name, None)] reads one. *)
Definition push_step (trip : pydict)
    (column_name field_key : string) (custom_fields_data : pydict) : pydict :=
  let value := dict_get trip column_name in
  if is_None value then custom_fields_data
  else <[KStr field_key := encode_value value]> custom_fields_data.

Definition push_trip_custom_fields (trip : pydict) : pydict :=
  map_fold (push_step trip) ∅ (reverse_map TRIP_FIELD_MAP).

End Push.
End TwoWaySync.

(** ** [.scripts/link_passengers_from_raw_json.py]: typed value keys *)

Module RawJson.
Import Py.

Definition get_field_value_by_type (field_data : pydict) : result pyval :=
  match default (PStr "") (field_data !! KStr "type") with
  | PStr t =>
      let field_type := upper t in
      let typed_key := ("fieldValue" ++ capitalize field_type)%string in
      if dict_has field_data typed_key then Ok (dict_get field_data typed_key)
      else if dict_has field_data "fieldValue" then Ok (dict_get field_data "fieldValue")
      else Ok PNone
  | _ => Raise (AttributeError "object has no attribute 'upper'")
  end.

End RawJson.

(** ** [tripbuilder/ghl_api.py]: [_make_request] *)

Module GhlApi.
Import Py.

(** What [response.json()] does: returns the decoded body, or raises the
    decode error with the given message. *)
Inductive json_body :=
| JsonValue (v : pyval)
| NotJson (msg : string).

Record response := {
  status_code : Z;
  text : string;
  json : json_body;
}.

(** What [self.session.request(...)] does: returns a response, or raises
    a [requests.RequestException] (connection failure, timeout). *)
Inductive transport :=
| Responded (r : response)
| Failed (msg : string).

Section Client.
Context `{PyRuntime}.

(** Whether the decode error of [response.json()] is a
    [requests.RequestException]: it is one from requests 2.27 on, and a
    plain [ValueError] before. *)
Variable json_error_is_request_exception : bool.

Definition success_sentinel : pydict := {[ KStr "success" := PBool true ]}.

(** ["k" in error_data] followed by [error_data["k"]]; [None] when either
    raises, which the bare [except] around them catches. *)
Definition contains (error_data : pyval) (k : string) : option bool :=
  match error_data with
  | PDict d => Some (dict_has d k)
  | PStr s => Some (str_in k s)
  | PList l => Some (bool_decide (Exists (fun v => key_of v = Some (KStr k)) l))
  | _ => None
  end.

Definition getitem (error_data : pyval) (k : string) : option pyval :=
  match error_data with
  | PDict d => d !! KStr k
  | _ => None
  end.

(** The message of the typed error: lines 100 to 108. *)
Definition error_message (r : response) : pyval :=
  let error_msg := ("API request failed with status " ++ pretty (status_code r))%string in
  let fallback := PStr (error_msg ++ ": " ++ text r)%string in
  match json r with
  | NotJson _ => fallback
  | JsonValue error_data =>
      match contains error_data "message" with
      | None => fallback
      | Some true => default fallback (getitem error_data "message")
      | Some false =>
          match contains error_data "error" with
          | None => fallback
          | Some true => default fallback (getitem error_data "error")
          | Some false => PStr error_msg
          end
      end
  end.

(** The handler [except requests.RequestException as e]. *)
Definition network_error (msg : string) : pyexn :=
  GoHighLevelAPIError (PStr ("Network error: " ++ msg)%string) None None.

Definition _make_request (t : transport) : result pyval :=
  match t with
  | Failed msg => Raise (network_error msg)
  | Responded r =>
      if bool_decide (status_code r ∈ [200; 201; 202; 204]) then
        if negb (String.eqb (text r) "") then
          match json r with
          | JsonValue v => Ok v
          | NotJson _ =>
              Ok (PDict (<[KStr "content" := PStr (text r)]> success_sentinel))
          end
        else Ok (PDict success_sentinel)
      else
        let error_msg := error_message r in
        (* the arguments of the raised error are evaluated first:
           [response.json() if response.text else None] *)
        if negb (String.eqb (text r) "") then
          match json r with
          | JsonValue v =>
              Raise (GoHighLevelAPIError error_msg (Some (status_code r)) (Some v))
          | NotJson msg =>
              if json_error_is_request_exception
              then Raise (network_error msg)
              else Raise (JSONDecodeError msg)
          end
        else Raise (GoHighLevelAPIError error_msg (Some (status_code r)) None)
  end.

End Client.
End GhlApi.

(** ** [.scripts/link_passengers_to_trips.py]: [find_matching_trip] *)

Module Linker.
Import Py.

Section Match.
Context `{PyRuntime}.

(** The function only reads [trip.name], which is a string or [None];
    [T] is whatever carries it. *)
Context {T : Type} (name : T -> option string).

(** [trip.name and trip.name.lower() == trip_name.lower()] *)
Definition exact_match (trip_name : string) (trip : T) : bool :=
  match name trip with
  | Some n => negb (String.eqb n "") && String.eqb (lower n) (lower trip_name)
  | None => false
  end.

(** [trip.name and trip_name.lower() in trip.name.lower()] *)
Definition partial_match (trip_name : string) (trip : T) : bool :=
  match name trip with
  | Some n => negb (String.eqb n "") && str_in (lower trip_name) (lower n)
  | None => false
  end.

(** [trip.name and trip.name.lower() in trip_name.lower()] *)
Definition reverse_partial_match (trip_name : string) (trip : T) : bool :=
  match name trip with
  | Some n => negb (String.eqb n "") && str_in (lower n) (lower trip_name)
  | None => false
  end.

Definition find_matching_trip (trip_name : pyval) (all_trips : list T) : option T :=
  if negb (truthy trip_name) then None
  else
    let trip_name := strip (py_str trip_name) in
    if len trip_name <? 3 then None
    else
      match find (exact_match trip_name) all_trips with
      | Some trip => Some trip
      | None =>
          match find (partial_match trip_name) all_trips with
          | Some trip => Some trip
          | None => find (reverse_partial_match trip_name) all_trips
          end
      end.

End Match.
End Linker.

(** ** [.scripts/build_field_maps.py]: rebuilding the [field_maps] table *)

Module BuildFieldMaps.
Import Py.

(** GHL field key, then (table, column, data type), in source order. *)
Definition FIELD_KEY_TO_TABLE : list (string * (string * string * string)) := [
  ("opportunity.birth_country", ("trips", "birth_country", "string"));
  ("opportunity.passenger_id", ("trips", "passenger_id", "string"));
  ("opportunity.passenger_name", ("trips", "passenger_first_name", "string"));
  ("opportunity.passenger_number", ("trips", "passenger_number", "integer"));
  ("opportunity.trip_id", ("trips", "trip_id_custom", "integer"));
  ("opportunity.trip_name", ("trips", "trip_name", "string"));
  ("opportunity.nights", ("trips", "nights_total", "integer"));
  ("opportunity.arrival_date", ("trips", "arrival_date", "date"));
  ("opportunity.return_date", ("trips", "return_date", "date"));
  ("opportunity.max_passengers", ("trips", "max_passengers", "integer"));
  ("opportunity.travel_category", ("trips", "travel_category", "string"));
  ("opportunity.trip_standard_level_pricing", ("trips", "trip_standard_level_pricing", "decimal"));
  ("opportunity.passenger_count", ("trips", "passenger_count", "integer"));
  ("opportunity.lodging", ("trips", "lodging", "string"));
  ("opportunity.lodging_notes", ("trips", "lodging_notes", "string"));
  ("opportunity.deposit_date", ("trips", "deposit_date", "date"));
  ("opportunity.final_payment", ("trips", "final_payment", "date"));
  ("opportunity.trip_description", ("trips", "trip_description", "string"));
  ("opportunity.trip_vendor", ("trips", "trip_vendor", "string"));
  ("opportunity.vendor_terms", ("trips", "vendor_terms", "string"));
  ("opportunity.travel_business_used", ("trips", "travel_business_used", "string"));
  ("opportunity.internal_trip_details", ("trips", "internal_trip_details", "string"));
  ("opportunity.is_child", ("trips", "is_child", "boolean"));
  ("opportunity.user_roomate", ("passengers", "user_roomate", "string"));
  ("opportunity.room_occupancy", ("passengers", "room_occupancy", "string"));
  ("opportunity.passport_number", ("passengers", "passport_number", "string"));
  ("opportunity.passport_expire", ("passengers", "passport_expire", "date"));
  ("opportunity.passport_file", ("passengers", "passport_file", "string"));
  ("opportunity.passport_country", ("passengers", "passport_country", "string"));
  ("opportunity.health_state", ("passengers", "health_state", "string"));
  ("opportunity.health_medical_info", ("passengers", "health_medical_info", "string"));
  ("opportunity.primary_phy", ("passengers", "primary_phy", "string"));
  ("opportunity.physician_phone", ("passengers", "physician_phone", "string"));
  ("opportunity.medication_list", ("passengers", "medication_list", "string"));
  ("opportunity.contact1_ulast_name", ("passengers", "contact1_ulast_name", "string"));
  ("opportunity.contact1_ufirst_name", ("passengers", "contact1_ufirst_name", "string"));
  ("opportunity.contact1_urelationship", ("passengers", "contact1_urelationship", "string"));
  ("opportunity.contact1_umailing_address", ("passengers", "contact1_umailing_address", "string"));
  ("opportunity.contact1_ucity", ("passengers", "contact1_ucity", "string"));
  ("opportunity.contact1_uzip", ("passengers", "contact1_uzip", "string"));
  ("opportunity.contact1_uemail", ("passengers", "contact1_uemail", "string"));
  ("opportunity.contact1_uphone", ("passengers", "contact1_uphone", "string"));
  ("opportunity.contact1_umob_number", ("passengers", "contact1_umob_number", "string"));
  ("opportunity.contact1_ustate", ("passengers", "contact1_ustate", "string"));
  ("opportunity.form_submitted_date", ("passengers", "form_submitted_date", "date"));
  ("opportunity.travel_category_license", ("passengers", "travel_category_license", "string"));
  ("opportunity.passenger_signature", ("passengers", "passenger_signature", "string"));
  ("opportunity.reservation", ("passengers", "reservation", "string"));
  ("opportunity.mou", ("passengers", "mou", "string"));
  ("opportunity.affidavit", ("passengers", "affidavit", "string"))
]%string.

(** ['k' in FIELD_KEY_TO_TABLE] and [FIELD_KEY_TO_TABLE['k']]. *)
Definition table_lookup (field_key : string) : option (string * string * string) :=
  snd <$> find (fun e => String.eqb (fst e) field_key) FIELD_KEY_TO_TABLE.


(** A row of [field_maps] ([models.FieldMap]) without the surrogate [id]
    that the database assigns. *)
Record FieldMap := {
  ghl_key : string;
  field_key : string;
  table_column : string;
  tablename : string;
  data_type : string;
}.

#[global] Instance FieldMap_eq_dec : EqDecision FieldMap.
Proof. solve_decision. Defined.

(** An entry of [missing_mappings]. *)
Record missing_mapping := {
  mm_field_key : string;
  mm_name : option string;
  mm_id : string;
  mm_data_type : option string;
}.

(** [not x] for an optional string. *)
Definition falsy (x : option string) : bool :=
  match x with
  | Some s => String.eqb s ""
  | None => true
  end.



Inductive outcome :=
| Completed (table : list FieldMap) (created_count : Z) (missing : list missing_mapping)
| Exited (table : list FieldMap).



End BuildFieldMaps.

(** ** [tripbuilder/services/ghl_sync.py]: [GHLSyncService] *)

Module GhlSync.
Import Py.

(** *** The local database and the SQLAlchemy session *)

(** [models.Trip]: the attributes that the synchroniser and the linker
    read or write by name; [trip_attrs] holds the other columns. *)
Record Trip := {
  trip_name : option string;
  trip_ghl_opportunity_id : option string;
  trip_start_date : option date;
  trip_end_date : option date;
  trip_max_passengers : option Z;
  trip_attrs : pydict;
}.

(** [models.Passenger]; its primary key is the GHL opportunity id. *)
Record Passenger := {
  passenger_id : string;
  passenger_contact_id : string;
  passenger_trip_id : option Z;
  passenger_attrs : pydict;
}.

(** [models.SyncLog]. *)
Record SyncLog := {
  sync_type : string;
  status : string;
  records_synced : Z;
  errors : list string;
  started_at : Z;
  completed_at : option Z;
}.

(** The tables.  Those that are read and written by primary key only
    ([pipelines], [pipeline_stages], [custom_field_groups], [contacts],
    and [custom_fields] by its unique [ghl_field_id]) are kept together,
    by table name and key, each row being its column values. *)
Record Db := {
  keyed : gmap string (gmap string pydict);
  trips : list Trip;
  passengers : gmap string Passenger;
  trip_vendors : list string;
  sync_logs : list SyncLog;
}.

Definition empty_db : Db :=
  {| keyed := ∅; trips := []; passengers := ∅; trip_vendors := []; sync_logs := [] |}.

Definition set_keyed (f : gmap string (gmap string pydict) -> gmap string (gmap string pydict))
    (db : Db) : Db :=
  {| keyed := f (keyed db); trips := trips db; passengers := passengers db;
     trip_vendors := trip_vendors db; sync_logs := sync_logs db |}.
Definition set_trips (f : list Trip -> list Trip) (db : Db) : Db :=
  {| keyed := keyed db; trips := f (trips db); passengers := passengers db;
     trip_vendors := trip_vendors db; sync_logs := sync_logs db |}.
Definition set_passengers (f : gmap string Passenger -> gmap string Passenger) (db : Db) : Db :=
  {| keyed := keyed db; trips := trips db; passengers := f (passengers db);
     trip_vendors := trip_vendors db; sync_logs := sync_logs db |}.
Definition set_trip_vendors (f : list string -> list string) (db : Db) : Db :=
  {| keyed := keyed db; trips := trips db; passengers := passengers db;
     trip_vendors := f (trip_vendors db); sync_logs := sync_logs db |}.
Definition set_sync_logs (f : list SyncLog -> list SyncLog) (db : Db) : Db :=
  {| keyed := keyed db; trips := trips db; passengers := passengers db;
     trip_vendors := trip_vendors db; sync_logs := f (sync_logs db) |}.

(** [Model.query.get(pk)] on a keyed table. *)
Definition query_get (table pk : string) (db : Db) : option pydict :=
  keyed db !! table ≫= fun rows => rows !! pk.

(** [db.session.add(row)] for a row of a keyed table. *)
Definition add_row (table pk : string) (row : pydict) (db : Db) : Db :=
  set_keyed (fun k => <[table := <[pk := row]> (default ∅ (k !! table))]> k) db.

(** The session: what has been committed, and the view that queries see,
    which also holds the objects added or changed since the last commit. *)
Record session := {
  committed : Db;
  pending : Db;
}.

(** *** The CRM as seen by the synchroniser *)

Record stage_data := { sd_id : string; sd_json : pydict }.
Record pipeline_data := { pd_id : string; pd_json : pydict; pd_stages : list stage_data }.
Record field_data := { fd_id : option string; fd_groupId : option string; fd_json : pydict }.
Record contact_data := { cd_id : option string; cd_json : pydict }.
Record contacts_response := {
  cr_contacts : list contact_data;
  cr_total : Z;                 (* meta.get('total', 0) *)
  cr_startAfterId : pyval;      (* meta.get('startAfterId') *)
  cr_startAfter : pyval;        (* meta.get('startAfter') *)
}.
Record opportunity := {
  opp_id : option string;
  opp_contactId : option string;
  opp_json : pydict;
}.
Record opportunities_response := {
  or_opportunities : list opportunity;
  or_total : Z;                 (* response.get('total', 0) *)
}.

(** What a run depends on and does not compute: the answers of the CRM
    (one per request; they do not change during a run), whether
    [VendorSyncService(self.api)] can be built and what the vendor
    dropdown holds, whether the database accepts a commit, the clock, and
    the two pairs of model methods [from_ghl_opportunity] /
    [update_from_ghl], which the synchroniser calls on [Trip] and
    [Passenger].  [update_from_ghl] changes the object in place: it yields
    the object as it leaves it, and the exception if it raised. *)
Class SyncEnv := {
  api_get_pipelines : result (list pipeline_data);
  api_get_custom_fields : result (list field_data);
  api_get_contacts : Z -> option (pyval * pyval) -> result contacts_response;
  api_search_opportunities : string -> Z -> Z -> result opportunities_response;
  vendor_service_init : result unit;
  api_vendor_options : result (list string);
  db_accepts : Db -> bool;
  today : date;
  utcnow : Z;
  Trip_from_ghl_opportunity : opportunity -> result Trip;
  Trip_update_from_ghl : Trip -> opportunity -> Trip * option pyexn;
  Passenger_from_ghl_opportunity : opportunity -> result Passenger;
  Passenger_update_from_ghl : Passenger -> opportunity -> Passenger * option pyexn;
}.

(** *** Computations on the session that may raise *)

Inductive outcome (A : Type) :=
| Returned (a : A)
| Raised (e : pyexn)
| OutOfFuel.
Arguments Returned {A} a.
Arguments Raised {A} e.
Arguments OutOfFuel {A}.

Definition M (A : Type) : Type := session -> outcome A * session.

#[global] Instance M_ret : MRet M := fun A a s => (Returned a, s).
#[global] Instance M_bind : MBind M := fun A B k m s =>
  match m s with
  | (Returned a, s') => k a s'
  | (Raised e, s') => (Raised e, s')
  | (OutOfFuel, s') => (OutOfFuel, s')
  end.

Definition raise {A} (e : pyexn) : M A := fun s => (Raised e, s).
Definition out_of_fuel {A} : M A := fun s => (OutOfFuel, s).

(** [try: m  except Exception as e: h e] *)
Definition try_except {A} (m : M A) (h : pyexn -> M A) : M A := fun s =>
  match m s with
  | (Raised e, s') => h e s'
  | r => r
  end.

Definition call {A} (r : result A) : M A :=
  match r with
  | Ok a => mret a
  | Raise e => raise e
  end.

Definition read : M Db := fun s => (Returned (pending s), s).
Definition update (f : Db -> Db) : M unit := fun s =>
  (Returned tt, {| committed := committed s; pending := f (pending s) |}).

Section Service.
Context `{PyRuntime} `{SyncEnv}.

(** [db.session.commit()]: a refused commit raises and leaves the pending
    objects in the session. *)
Definition commit : M unit := fun s =>
  if db_accepts (pending s)
  then (Returned tt, {| committed := pending s; pending := pending s |})
  else (Raised (PyException "commit failed"), s).

(** [db.session.rollback()] *)
Definition rollback : M unit := fun s =>
  (Returned tt, {| committed := committed s; pending := committed s |}).

(** [d.get(k, dflt)] *)
Definition get_or (d : pydict) (k : string) (dflt : pyval) : pyval :=
  default dflt (d !! KStr k).

(** [Model.query.get(pk) or Model(id=pk)] *)
Definition get_or_new (table pk : string) (db : Db) : pydict :=
  default {[ KStr "id" := PStr pk ]} (query_get table pk db).

Definition set_attrs (attrs : list (string * pyval)) (row : pydict) : pydict :=
  fold_left (fun r '(k, v) => <[KStr k := v]> r) attrs row.

(** *** [sync_pipelines] *)

Definition upsert_stage (pipeline_id : string) (db : Db) (stage_data : stage_data) : Db :=
  let stage := get_or_new "pipeline_stages" (sd_id stage_data) db in
  let stage := set_attrs
    [("name", get_or (sd_json stage_data) "name" (PStr "Unnamed Stage"));
     ("pipeline_id", PStr pipeline_id);
     ("position", get_or (sd_json stage_data) "position" (PInt 0))]%string stage in
  add_row "pipeline_stages" (sd_id stage_data) stage db.

Definition upsert_pipeline (db : Db) (pipeline_data : pipeline_data) : Db :=
  let pipeline := get_or_new "pipelines" (pd_id pipeline_data) db in
  let pipeline := set_attrs
    [("name", get_or (pd_json pipeline_data) "name" (PStr "Unnamed Pipeline"))]%string pipeline in
  let db := add_row "pipelines" (pd_id pipeline_data) pipeline db in
  fold_left (upsert_stage (pd_id pipeline_data)) (pd_stages pipeline_data) db.

(** Returns [(pipeline_count, stage_count)]. *)
Definition sync_pipelines : M (Z * Z) :=
  pipelines_data ← call api_get_pipelines;
  update (fun db => fold_left upsert_pipeline pipelines_data db);;
  commit;;
  mret (Z.of_nat (length pipelines_data),
        Z.of_nat (length (pipelines_data ≫= pd_stages))).

(** *** [sync_custom_fields] *)

Record fields_acc := {
  fa_db : Db;
  fa_groups_seen : gset string;
  fa_group_count : Z;
  fa_field_count : Z;
}.

Definition truthy_id (x : option string) : option string :=
  match x with
  | Some s => if String.eqb s "" then None else Some s
  | None => None
  end.

Definition upsert_field (acc : fields_acc) (field_data : field_data) : fields_acc :=
  let group_name := get_or (fd_json field_data) "groupName" (PStr "Ungrouped") in
  let acc :=
    match truthy_id (fd_groupId field_data) with
    | Some group_id =>
        if bool_decide (group_id ∈ fa_groups_seen acc) then acc
        else
          let group := get_or_new "custom_field_groups" group_id (fa_db acc) in
          let group := set_attrs [("name", group_name)]%string group in
          {| fa_db := add_row "custom_field_groups" group_id group (fa_db acc);
             fa_groups_seen := {[ group_id ]} ∪ fa_groups_seen acc;
             fa_group_count := fa_group_count acc + 1;
             fa_field_count := fa_field_count acc |}
    | None => acc
    end in
  match truthy_id (fd_id field_data) with
  | Some field_id =>
      let j := fd_json field_data in
      let field := default ∅ (query_get "custom_fields" field_id (fa_db acc)) in
      let field := set_attrs
        [("ghl_field_id", PStr field_id);
         ("field_key", get_or j "fieldKey" (PStr ""));
         ("name", get_or j "name" (PStr ""));
         ("data_type", get_or j "dataType" (PStr "TEXT"));
         ("model", get_or j "model" (PStr "opportunity"));
         ("placeholder", get_or j "placeholder" (PStr ""));
         ("position", get_or j "position" (PInt 0));
         ("custom_field_group_id",
            match fd_groupId field_data with Some g => PStr g | None => PNone end)]%string
        field in
      let field :=
        if dict_has j "options" then <[KStr "options" := dict_get j "options"]> field
        else field in
      {| fa_db := add_row "custom_fields" field_id field (fa_db acc);
         fa_groups_seen := fa_groups_seen acc;
         fa_group_count := fa_group_count acc;
         fa_field_count := fa_field_count acc + 1 |}
  | None => acc
  end.

(** Returns [(group_count, field_count)]. *)
Definition sync_custom_fields : M (Z * Z) :=
  fields_data ← call api_get_custom_fields;
  db ← read;
  let acc := fold_left upsert_field fields_data
    {| fa_db := db; fa_groups_seen := ∅; fa_group_count := 0; fa_field_count := 0 |} in
  update (fun _ => fa_db acc);;
  commit;;
  mret (fa_group_count acc, fa_field_count acc).

(** *** [sync_contacts] *)

Definition CONTACT_ATTRS : list (string * string) :=
  [("firstname", "firstName"); ("lastname", "lastName"); ("email", "email");
   ("phone", "phone"); ("address", "address1"); ("city", "city"); ("state", "state");
   ("postal_code", "postalCode"); ("country", "country");
   ("company_name", "companyName"); ("website", "website")]%string.

(** One round of [for contact_data in contacts_data], on the database
    view and [contact_count]. *)
Definition upsert_contact (acc : Db * Z) (contact_data : contact_data) : Db * Z :=
  let '(db, contact_count) := acc in
  match truthy_id (cd_id contact_data) with
  | None => acc
  | Some contact_id =>
      let j := cd_json contact_data in
      let contact := get_or_new "contacts" contact_id db in
      let contact := set_attrs ((fun '(attr, k) => (attr, dict_get j k)) <$> CONTACT_ATTRS) contact in
      let contact := set_attrs
        [("tags", get_or j "tags" (PList []));
         ("source", dict_get j "source");
         ("custom_fields", get_or j "customFields" (PDict ∅));
         ("last_synced_at", PInt utcnow)]%string contact in
      (add_row "contacts" contact_id contact db, contact_count + 1)
  end.

(** [try: db.session.commit()  except Exception: db.session.rollback()] *)
Definition commit_or_rollback : M unit :=
  try_except commit (fun _ => rollback).

(** The [while True] loop.  The whole body is inside [try], and its
    handler prints the error and leaves the loop, as [break] does. *)
Fixpoint sync_contacts_loop (fuel : nat) (limit contact_count : Z)
    (start_after_id start_after : pyval) : M Z :=
  match fuel with
  | O => out_of_fuel
  | S fuel' =>
      let cursor :=
        if truthy start_after_id && truthy start_after
        then Some (start_after_id, start_after) else None in
      match api_get_contacts limit cursor with
      | Raise _ => mret contact_count
      | Ok response =>
          match cr_contacts response with
          | [] => mret contact_count
          | contacts_data =>
              db ← read;
              let '(db', contact_count) := fold_left upsert_contact contacts_data (db, contact_count) in
              update (fun _ => db');;
              commit_or_rollback;;
              let start_after_id := cr_startAfterId response in
              let start_after := cr_startAfter response in
              if negb (truthy start_after_id) || negb (truthy start_after)
              then mret contact_count
              else if cr_total response <=? contact_count
              then mret contact_count
              else sync_contacts_loop fuel' limit contact_count start_after_id start_after
          end
      end
  end.

Definition sync_contacts (fuel : nat) (limit : Z) : M Z :=
  sync_contacts_loop fuel limit 0 PNone PNone.

(** *** [sync_trip_opportunities] *)

Definition TRIPBOOKING_PIPELINE_ID : string := "IlWdPtOpcczLpgsde2KF".
Definition PASSENGER_PIPELINE_ID : string := "fnsdpRtY9o83Vr4z15bE".

Definition with_start_date (d : date) (t : Trip) : Trip :=
  {| trip_name := trip_name t; trip_ghl_opportunity_id := trip_ghl_opportunity_id t;
     trip_start_date := Some d; trip_end_date := trip_end_date t;
     trip_max_passengers := trip_max_passengers t; trip_attrs := trip_attrs t |}.
Definition with_end_date (d : date) (t : Trip) : Trip :=
  {| trip_name := trip_name t; trip_ghl_opportunity_id := trip_ghl_opportunity_id t;
     trip_start_date := trip_start_date t; trip_end_date := Some d;
     trip_max_passengers := trip_max_passengers t; trip_attrs := trip_attrs t |}.
Definition with_max_passengers (n : Z) (t : Trip) : Trip :=
  {| trip_name := trip_name t; trip_ghl_opportunity_id := trip_ghl_opportunity_id t;
     trip_start_date := trip_start_date t; trip_end_date := trip_end_date t;
     trip_max_passengers := Some n; trip_attrs := trip_attrs t |}.

(** "Ensure required fields have defaults": the three [if not ...]
    assignments, in order.  A date is always truthy, an integer is falsy
    when it is 0.  The sum [start_date + timedelta(days=7)] raises
    [OverflowError] past the year 9999; the trip is then left with its
    start date already set. *)
Definition ensure_required_defaults (trip : Trip) : Trip * option pyexn :=
  let trip :=
    match trip_start_date trip with
    | Some _ => trip
    | None => with_start_date today trip
    end in
  let with_end :=
    match trip_end_date trip with
    | Some _ => Some trip
    | None =>
        start_date ← trip_start_date trip;
        end_date ← date_add_days start_date 7;
        Some (with_end_date end_date trip)
    end in
  match with_end with
  | None => (trip, Some (OverflowError "date value out of range"))
  | Some trip =>
      let trip :=
        match trip_max_passengers trip with
        | Some n => if n =? 0 then with_max_passengers 10 trip else trip
        | None => with_max_passengers 10 trip
        end in
      (trip, None)
  end.

(** [Trip.query.filter_by(ghl_opportunity_id=opp_id).first()] *)
Definition find_trip (opp_id : string) (db : Db) : option (nat * Trip) :=
  list_find (fun t => trip_ghl_opportunity_id t = Some opp_id) (trips db).

(** The object found by the query is in the session: a change made to it
    is seen at its row, also when an exception follows. *)
Definition store_trip (i : nat) (trip : Trip) : M unit :=
  update (set_trips (fun l => <[i := trip]> l)).

Definition finish (r : option pyexn) : M unit :=
  match r with
  | Some e => raise e
  | None => mret tt
  end.

(** The body of [for opp_data in opportunities_data]; it returns whether
    the record was counted. *)
Definition upsert_trip (opp_data : opportunity) : M bool :=
  match truthy_id (opp_id opp_data) with
  | None => mret false
  | Some opp_id =>
      db ← read;
      match find_trip opp_id db with
      | Some (i, trip) =>
          let '(trip, r) := Trip_update_from_ghl trip opp_data in
          store_trip i trip;; finish r;;
          let '(trip, r) := ensure_required_defaults trip in
          store_trip i trip;; finish r;;
          mret true
      | None =>
          trip ← call (Trip_from_ghl_opportunity opp_data);
          let '(trip, r) := ensure_required_defaults trip in
          finish r;;
          update (set_trips (fun l => l ++ [trip]));;
          mret true
      end
  end.

(** A [for] loop with a counter, inside a [try] whose handler needs the
    counter as the loop left it: returns the counter, and the exception
    that ended the loop if one did. *)
Fixpoint for_counting {A} (body : A -> M bool) (l : list A) (count : Z)
    (s : session) : (Z * option pyexn) * session :=
  match l with
  | [] => ((count, None), s)
  | x :: rest =>
      match body x s with
      | (Returned counted, s') =>
          for_counting body rest (if counted then count + 1 else count) s'
      | (Raised e, s') => ((count, Some e), s')
      | (OutOfFuel, s') => ((count, None), s')   (* not met: a body uses no fuel *)
      end
  end.

(** One page: the [for] loop, then "Commit this page". *)
Definition sync_trips_page (opportunities_data : list opportunity) (trip_count : Z)
    (s : session) : (Z * option pyexn) * session :=
  match for_counting upsert_trip opportunities_data trip_count s with
  | ((trip_count, None), s') => ((trip_count, None), snd (commit_or_rollback s'))
  | r => r
  end.

Fixpoint sync_trips_loop (fuel : nat) (limit page trip_count : Z) : M Z :=
  match fuel with
  | O => out_of_fuel
  | S fuel' =>
      match api_search_opportunities TRIPBOOKING_PIPELINE_ID limit page with
      | Raise _ => mret trip_count
      | Ok response =>
          match or_opportunities response with
          | [] => mret trip_count
          | opportunities_data => fun s =>
              match sync_trips_page opportunities_data trip_count s with
              | ((trip_count, Some _), s') => (Returned trip_count, s')
              | ((trip_count, None), s') =>
                  if (or_total response <=? trip_count)
                     || (Z.of_nat (length opportunities_data) <? limit)
                  then (Returned trip_count, s')
                  else sync_trips_loop fuel' limit (page + 1) trip_count s'
              end
          end
      end
  end.

Definition sync_trip_opportunities (fuel : nat) (limit : Z) : M Z :=
  sync_trips_loop fuel limit 1 0.

(** *** [sync_passenger_opportunities] *)

(** The body of the [for] loop.  The counters [skipped_no_trip] and
    [skipped_no_contact] are only printed and are left out. *)
Definition upsert_passenger (opp_data : opportunity) : M bool :=
  match truthy_id (opp_id opp_data), truthy_id (opp_contactId opp_data) with
  | Some opp_id, Some contact_id =>
      db ← read;
      match query_get "contacts" contact_id db with
      | None => mret false
      | Some _ =>
          match passengers db !! opp_id with
          | Some passenger =>
              let '(passenger, r) := Passenger_update_from_ghl passenger opp_data in
              update (set_passengers (fun m => <[opp_id := passenger]> m));;
              finish r;;
              mret true
          | None =>
              passenger ← call (Passenger_from_ghl_opportunity opp_data);
              update (set_passengers (fun m => <[passenger_id passenger := passenger]> m));;
              mret true
          end
      end
  | _, _ => mret false
  end.

Fixpoint sync_passengers_loop (fuel : nat) (limit page passenger_count : Z) : M Z :=
  match fuel with
  | O => out_of_fuel
  | S fuel' =>
      match api_search_opportunities PASSENGER_PIPELINE_ID limit page with
      | Raise _ => mret passenger_count
      | Ok response =>
          match or_opportunities response with
          | [] => mret passenger_count
          | opportunities_data => fun s =>
              match for_counting upsert_passenger opportunities_data passenger_count s with
              | ((passenger_count, Some _), s') => (Returned passenger_count, s')
              | ((passenger_count, None), s') =>
                  let s' := snd (commit_or_rollback s') in
                  if Z.of_nat (length opportunities_data) <? limit
                  then (Returned passenger_count, s')
                  else sync_passengers_loop fuel' limit (page + 1) passenger_count s'
              end
          end
      end
  end.

Definition sync_passenger_opportunities (fuel : nat) (limit : Z) : M Z :=
  sync_passengers_loop fuel limit 1 0.

(** *** [VendorSyncService.sync_vendors_from_ghl]
    ([tripbuilder/services/vendor_sync.py]) *)

Definition import_vendor (acc : Db * Z) (option_value : string) : Db * Z :=
  let '(db, new_vendors_count) := acc in
  if String.eqb option_value "" || String.eqb (strip option_value) "" then acc
  else if bool_decide (option_value ∈ trip_vendors db) then acc
  else (set_trip_vendors (fun l => l ++ [strip option_value]) db, new_vendors_count + 1).

Definition sync_vendors_from_ghl : M Z :=
  try_except
    (field_options ← call api_vendor_options;
     match field_options with
     | [] => mret 0
     | _ =>
         db ← read;
         let '(db', new_vendors_count) := fold_left import_vendor field_options (db, 0) in
         update (fun _ => db');;
         commit;;
         mret new_vendors_count
     end)
    (fun e => rollback;; raise e).

(** *** [perform_full_sync] *)

Record results := {
  r_pipelines : Z; r_stages : Z; r_groups : Z; r_fields : Z;
  r_contacts : Z; r_trips : Z; r_passengers : Z; r_vendors : Z;
}.

(** [sum(results.values())] *)
Definition results_sum (r : results) : Z :=
  r_pipelines r + r_stages r + r_groups r + r_fields r
  + r_contacts r + r_trips r + r_passengers r + r_vendors r.

Definition new_sync_log : SyncLog :=
  {| sync_type := "full"; status := "in_progress"; records_synced := 0;
     errors := []; started_at := utcnow; completed_at := None |}.

Definition log_success (n : Z) (l : SyncLog) : SyncLog :=
  {| sync_type := sync_type l; status := "success"; records_synced := n;
     errors := errors l; started_at := started_at l; completed_at := Some utcnow |}.

Definition log_failed (e : pyexn) (l : SyncLog) : SyncLog :=
  {| sync_type := sync_type l; status := "failed"; records_synced := records_synced l;
     errors := [exn_str e]; started_at := started_at l; completed_at := Some utcnow |}.

(** An assignment to an attribute of the log object, seen at its row. *)
Definition update_log (i : nat) (f : SyncLog -> SyncLog) : M unit :=
  update (set_sync_logs (alter f i)).

(** [fuel] bounds each of the three [while True] loops; the page size is
    the default [limit=100] of the three pulls. *)
Definition perform_full_sync (fuel : nat) : M results :=
  db ← read;
  let log := length (sync_logs db) in
  update (set_sync_logs (fun l => l ++ [new_sync_log]));;
  commit;;
  try_except
    ('(pipelines, stages) ← sync_pipelines;
     '(groups, fields) ← sync_custom_fields;
     contacts ← sync_contacts fuel 100;
     trips ← sync_trip_opportunities fuel 100;
     vendors ← try_except (call vendor_service_init;; sync_vendors_from_ghl)
                          (fun _ => mret 0);
     passengers ← sync_passenger_opportunities fuel 100;
     let results :=
       {| r_pipelines := pipelines; r_stages := stages; r_groups := groups;
          r_fields := fields; r_contacts := contacts; r_trips := trips;
          r_passengers := passengers; r_vendors := vendors |} in
     update_log log (log_success (results_sum results));;
     commit;;
     mret results)
    (fun e =>
       update_log log (log_failed e);;
       commit;;
       raise e).

End Service.
End GhlSync.

(** ** Decoding a pulled record

    [pull_trip_from_ghl] and [pull_passenger_from_ghl]
    ([two_way_sync.py]) decode the ['customFields'] of an opportunity by
    [parse_ghl_custom_fields] followed by the [map_*] function. *)

Module Pull.
Import Py FieldMapping.

Section Decode.
Context `{PyRuntime}.

Definition decode_trip_fields (custom_fields_list : pyval) : result pydict :=
  match parse_ghl_custom_fields custom_fields_list with
  | Ok custom_fields_dict => Ok (map_trip_custom_fields custom_fields_dict)
  | Raise e => Raise e
  end.

Definition decode_passenger_fields (custom_fields_list : pyval) : result pydict :=
  match parse_ghl_custom_fields custom_fields_list with
  | Ok custom_fields_dict => Ok (map_passenger_custom_fields custom_fields_dict)
  | Raise e => Raise e
  end.

End Decode.
End Pull.

(** ** Dicts whose order matters *)

Module OrderedDict.

Section Ops.
Context {V : Type}.

(** A dict with string keys, as the list of its items in insertion order:
    [d[k] = v] replaces the value of a key that is there, in place, and
    appends a new key. *)
Fixpoint od_set (k : string) (v : V) (d : list (string * V)) : list (string * V) :=
  match d with
  | [] => [(k, v)]
  | (k', v') :: rest =>
      if String.eqb k' k then (k', v) :: rest else (k', v') :: od_set k v rest
  end.

(** [d.get(k)] *)
Definition od_get (k : string) (d : list (string * V)) : option V :=
  snd <$> find (fun item => String.eqb (fst item) k) d.

End Ops.
End OrderedDict.

(** ** [.scripts/link_passengers_from_raw_json.py]: step 5, the match by
    lookup tables *)

Module RawLinker.
Import Py OrderedDict.

Section Link.
(** As in [find_matching_trip], a trip is whatever carries [trip.name]. *)
Context {T : Type} (name : T -> option string).

(** One round of [for trip in all_trips], on [(trip_exact, trip_lower)]. *)
Definition index_trip (tables : list (string * T) * list (string * T)) (trip : T)
    : list (string * T) * list (string * T) :=
  let '(trip_exact, trip_lower) := tables in
  match name trip with
  | Some n =>
      if String.eqb n "" then tables
      else (od_set n trip trip_exact, od_set (lower n) trip trip_lower)
  | None => tables
  end.

Definition build_lookup_tables (all_trips : list T) : list (string * T) * list (string * T) :=
  fold_left index_trip all_trips ([], []).

(** The test of the partial-match loop. *)
Definition overlaps (name_lower : string) (item : string * T) : bool :=
  str_in name_lower (fst item) || str_in (fst item) name_lower.

(** The body of [for i, passenger in enumerate(passengers, 1)] up to
    [if trip:], for the [trip_name] of the passenger: exact match, then
    case-insensitive match, then the first stored name that contains the
    name or is contained in it. *)
Definition lookup_trip (tables : list (string * T) * list (string * T))
    (passenger_trip_name : string) : option T :=
  let '(trip_exact, trip_lower) := tables in
  let trip_name := strip passenger_trip_name in
  match od_get trip_name trip_exact with
  | Some trip => Some trip
  | None =>
      match od_get (lower trip_name) trip_lower with
      | Some trip => Some trip
      | None => snd <$> find (overlaps (lower trip_name)) trip_lower
      end
  end.

End Link.
End RawLinker.

(** ** [tripbuilder/raw_ghl_sync.py]: [fetch_all_paginated] *)

Module RawSync.
Import Py GhlSync.

Section Paginate.
Context {A : Type}.

(** [fetch_function(limit=limit, offset=offset, **kwargs)] followed by
    [response.get(result_key, [])]: the items of the page, or the
    exception of the request, which nothing catches. *)
Variable fetch_items : Z -> Z -> result (list A).

(** The [while True] loop, with [limit = 100]. *)
Fixpoint fetch_loop (fuel : nat) (all_results : list A) (offset : Z) : outcome (list A) :=
  match fuel with
  | O => OutOfFuel
  | S fuel' =>
      match fetch_items 100 offset with
      | Raise e => Raised e
      | Ok [] => Returned all_results
      | Ok items =>
          let all_results := all_results ++ items in
          if Z.of_nat (length items) <? 100 then Returned all_results
          else fetch_loop fuel' all_results (offset + Z.of_nat (length items))
      end
  end.

Definition fetch_all_paginated (fuel : nat) : outcome (list A) :=
  fetch_loop fuel [] 0.

End Paginate.
End RawSync.

(** ** [tripbuilder/services/vendor_sync.py]: [verify_sync] *)

Module VendorSync.
Import Py.

(** The [status] dict. *)
Record sync_status := {
  in_sync : bool;
  total_db : Z;
  total_ghl : Z;
  in_both : Z;
  only_in_db : list string;
  only_in_ghl : list string;
}.

(** [db_names] are the names of the vendor rows, [ghl_options] the options
    of the dropdown; both are made sets.  [list(s)] of a set lists its
    elements in some order, here the one of [elements]. *)
Definition verify_sync (db_names ghl_options : list string) : sync_status :=
  let db_vendors : gset string := list_to_set db_names in
  let ghl_vendors : gset string := list_to_set ghl_options in
  let only_in_db := db_vendors ∖ ghl_vendors in
  let only_in_ghl := ghl_vendors ∖ db_vendors in
  let in_both := db_vendors ∩ ghl_vendors in
  {| in_sync := bool_decide (size only_in_db = 0%nat) && bool_decide (size only_in_ghl = 0%nat);
     total_db := Z.of_nat (size db_vendors);
     total_ghl := Z.of_nat (size ghl_vendors);
     in_both := Z.of_nat (size in_both);
     only_in_db := elements only_in_db;
     only_in_ghl := elements only_in_ghl |}.

End VendorSync.

(** ** [tripbuilder/ghl_api.py]: [format_phone_e164] *)

Module Phone.
Import Py.




End Phone.

(** ** [tripbuilder/services/two_way_sync.py]: the push methods *)

Module TwoWayPush.
Import Py FieldMapping.

(** The requests that a push makes through the client, with their
    arguments. *)
Inductive request :=
| UpdateOpportunity (opportunity_id : pyval) (data : pydict)
| UpsertOpportunityCustomField (opportunity_id : pyval) (field_key : string) (value : pyval)
| GetPipelines
| CreateOpportunity (data : pydict).

(** What a push depends on and does not compute: the location of the
    client, the answers of the CRM to the four requests (the pipelines
    come as in [GhlSync]), whether the database accepts the commit, and
    the clock. *)
Class Crm := {
  crm_location_id : pyval;
  crm_update_opportunity : pyval -> pydict -> result pyval;
  crm_upsert_opportunity_custom_field : pyval -> string -> pyval -> result pyval;
  crm_get_pipelines : result (list GhlSync.pipeline_data);
  crm_create_opportunity : pydict -> result pyval;
  session_commit : result unit;
  crm_utcnow : Z;
}.

Section Push.
Context `{PyRuntime} `{Crm}.

(** [a or b] *)
Definition py_or (a b : pyval) : pyval := if truthy a then a else b.

(** The loop that fills [custom_fields_data], as the list of the items it
    inserts, in order.  The reversed map is iterated in the order of the
    field map, whose columns are distinct; the object is given by its
    attribute values. *)
Definition push_items (field_map : list (string * string)) (obj : pydict)
    : list (string * pyval) :=
  omap (fun '(field_key, column_name) =>
          let value := dict_get obj column_name in
          if is_None value then None else Some (field_key, encode_value value))
       field_map.

(** The dict that a list of items makes: a later item wins. *)
Definition items_dict (items : list (string * pyval)) : pydict :=
  fold_left (fun d '(k, v) => <[KStr k := v]> d) items ∅.

(** [opp_data] of [push_trip_to_ghl].  An f-string formats a value as
    [str] does. *)
Definition trip_opportunity_data (trip : pydict) : pydict :=
  {[ KStr "name" :=
       py_or (dict_get trip "name")
             (PStr (py_str (dict_get trip "destination") ++ " - "
                    ++ py_str (dict_get trip "start_date")));
     KStr "pipelineId" := PStr GhlSync.TRIPBOOKING_PIPELINE_ID;
     KStr "locationId" := crm_location_id ]}.

(** The stage that the loop over the pipelines picks: the first stage of
    the first pipeline that has the id, if it has a stage. *)
Definition default_stage (pipeline_id : string) (pipelines : list GhlSync.pipeline_data)
    : option string :=
  pipeline ← find (fun p => String.eqb (GhlSync.pd_id p) pipeline_id) pipelines;
  GhlSync.sd_id <$> head (GhlSync.pd_stages pipeline).

(** "Update custom fields one by one": a failure of one of them is
    printed and the loop goes on, so all of them are requested. *)
Definition upsert_custom_fields (opportunity_id : pyval) (items : list (string * pyval))
    : list request :=
  (fun '(field_key, value) => UpsertOpportunityCustomField opportunity_id field_key value)
    <$> items.

(** The outcome of a push: what it returns or raises, the object as it
    leaves it, and the requests it made, in order. *)
Definition pushed : Type := result pyval * pydict * list request.

(** "Update existing opportunity" *)
Definition update_existing (opportunity_id : pyval) (opp_data : pydict)
    (items : list (string * pyval)) (obj : pydict) : pushed :=
  match crm_update_opportunity opportunity_id opp_data with
  | Ok response =>
      (Ok response, obj,
       UpdateOpportunity opportunity_id opp_data
         :: upsert_custom_fields opportunity_id items)
  | Raise e => (Raise e, obj, [UpdateOpportunity opportunity_id opp_data])
  end.

(** "Create new opportunity"; the id of the answer is stored in the
    attribute [id_attr] of the object. *)
Definition create_new (pipeline_id pipeline_name id_attr : string) (opp_data : pydict)
    (items : list (string * pyval)) (obj : pydict) : pushed :=
  match crm_get_pipelines with
  | Raise e => (Raise e, obj, [GetPipelines])
  | Ok pipelines =>
      match default_stage pipeline_id pipelines with
      | None =>
          (Raise (PyException ("Could not find default stage for " ++ pipeline_name
                               ++ " pipeline")), obj, [GetPipelines])
      | Some stage_id =>
          let opp_data := <[KStr "stageId" := PStr stage_id]> opp_data in
          let opp_data :=
            match items with
            | [] => opp_data
            | _ => <[KStr "customFields" := PDict (items_dict items)]> opp_data
            end in
          let requests := [GetPipelines; CreateOpportunity opp_data] in
          match crm_create_opportunity opp_data with
          | Raise e => (Raise e, obj, requests)
          | Ok (PDict response) =>
              let obj := <[KStr id_attr := dict_get response "id"]> obj in
              let obj := <[KStr "updated_at" := PInt crm_utcnow]> obj in
              match session_commit with
              | Ok _ => (Ok (PDict response), obj, requests)
              | Raise e => (Raise e, obj, requests)
              end
          | Ok _ => (Raise (AttributeError "object has no attribute 'get'"), obj, requests)
          end
      end
  end.

Definition push_trip_to_ghl (trip : pydict) (force_create : bool) : pushed :=
  let custom_fields_data := push_items TRIP_FIELD_MAP trip in
  let opp_data := trip_opportunity_data trip in
  let opportunity_id := dict_get trip "ghl_opportunity_id" in
  if truthy opportunity_id && negb force_create
  then update_existing opportunity_id opp_data custom_fields_data trip
  else create_new GhlSync.TRIPBOOKING_PIPELINE_ID "TripBooking" "ghl_opportunity_id"
         opp_data custom_fields_data trip.

(** The helpers return nothing; what the push returns is dropped. *)
Definition returning_None (p : pushed) : pushed :=
  let '(r, obj, requests) := p in
  (match r with Ok _ => Ok PNone | Raise e => Raise e end, obj, requests).

Definition auto_sync_on_trip_create (trip : pydict) : pushed :=
  if negb (truthy (dict_get trip "ghl_opportunity_id"))
  then returning_None (push_trip_to_ghl trip true)
  else (Ok PNone, trip, []).

Definition auto_sync_on_trip_update (trip : pydict) : pushed :=
  if truthy (dict_get trip "ghl_opportunity_id")
  then returning_None (push_trip_to_ghl trip false)
  else (Ok PNone, trip, []).

End Push.
End TwoWayPush.

Module PassengerPush.
Import Py FieldMapping OrderedDict TwoWayPush.

Section Push.
Context `{PyRuntime} `{Crm}.

(** [custom_fields_data] of [push_passenger_to_ghl]: the loop over the
    reversed field map, then "Add trip_name if we have a trip linked". *)
Definition passenger_items (passenger : pydict) : list (string * pyval) :=
  let custom_fields_data := push_items PASSENGER_FIELD_MAP passenger in
  let trip_name := dict_get passenger "trip_name" in
  if truthy trip_name
  then od_set "opportunity.tripname" trip_name custom_fields_data
  else custom_fields_data.

Definition passenger_opportunity_data (passenger contact : pydict) : pydict :=
  {[ KStr "name" :=
       PStr (py_str (dict_get contact "firstname") ++ " "
             ++ py_str (dict_get contact "lastname") ++ " - "
             ++ py_str (py_or (dict_get passenger "trip_name") (PStr "Passenger")));
     KStr "pipelineId" := PStr GhlSync.PASSENGER_PIPELINE_ID;
     KStr "contactId" := dict_get passenger "contact_id";
     KStr "locationId" := crm_location_id ]}.

(** [contact] is [passenger.contact], the related row if there is one. *)
Definition push_passenger_to_ghl (passenger : pydict) (contact : option pydict)
    (force_create : bool) : pushed :=
  if negb (truthy (dict_get passenger "contact_id"))
  then (Raise (PyException "Passenger must have a contact_id"), passenger, [])
  else
    match contact with
    | None =>
        (Raise (PyException ("Contact " ++ py_str (dict_get passenger "contact_id")
                             ++ " not found")), passenger, [])
    | Some contact =>
        let custom_fields_data := passenger_items passenger in
        let opp_data := passenger_opportunity_data passenger contact in
        let opportunity_id := dict_get passenger "id" in
        if truthy opportunity_id && negb force_create
        then update_existing opportunity_id opp_data custom_fields_data passenger
        else create_new GhlSync.PASSENGER_PIPELINE_ID "Passenger" "id"
               opp_data custom_fields_data passenger
    end.

End Push.
End PassengerPush.

(** ** [tripbuilder/ghl_api.py]: [create_contact] *)

Module Contacts.
Import Py.

(** The dict [field_mapping] of [create_contact]. *)
Definition CONTACT_KEY_MAPPING : list (string * string) :=
  [("firstname", "firstName"); ("lastname", "lastName"); ("address", "address1");
   ("postal_code", "postalCode"); ("company_name", "companyName")]%string.

(** [field_mapping.get(key, key)] *)
Definition ghl_key_of (key : string) : string :=
  default key (snd <$> find (fun item => String.eqb (fst item) key) CONTACT_KEY_MAPPING).

(** [','.join(value)]: every item has to be a string; [None] is the
    [TypeError] that another item raises. *)
Fixpoint join_commas (items : list pyval) : option string :=
  match items with
  | [] => Some ""%string
  | PStr s :: rest =>
      match rest with
      | [] => Some s
      | _ => r ← join_commas rest; Some (s ++ "," ++ r)%string
      end
  | _ => None
  end.

(** One round of [for key, value in kwargs.items()]. *)
Definition create_contact_step (data : pydict) (item : string * pyval) : result pydict :=
  let '(key, value) := item in
  if is_None value then Ok data
  else
    let ghl_key := ghl_key_of key in
    match value with
    | PList items =>
        if String.eqb key "tags" then
          match join_commas items with
          | Some joined => Ok (<[KStr ghl_key := PStr joined]> data)
          | None => Raise (TypeError "sequence item: expected str instance")
          end
        else Ok (<[KStr ghl_key := value]> data)
    | _ => Ok (<[KStr ghl_key := value]> data)
    end.

Fixpoint create_contact_loop (data : pydict) (kwargs : list (string * pyval))
    : result pydict :=
  match kwargs with
  | [] => Ok data
  | item :: rest =>
      match create_contact_step data item with
      | Ok data' => create_contact_loop data' rest
      | Raise e => Raise e
      end
  end.

(** The body that [create_contact] posts to ["contacts/"]; [kwargs] are
    its keyword arguments in the order they were given. *)
Definition create_contact_data (location_id : pyval) (kwargs : list (string * pyval))
    : result pydict :=
  create_contact_loop {[ KStr "locationId" := location_id ]} kwargs.

(** The body that [update_contact] puts: [data = kwargs]. *)
Definition update_contact_data (kwargs : list (string * pyval)) : pydict :=
  fold_left (fun d '(k, v) => <[KStr k := v]> d) kwargs ∅.

(** [contact_data] of [push_contact_to_ghl], as the items of the dict in
    order, for a contact given by its attribute values. *)
Definition contact_data (contact : pydict) : list (string * pyval) :=
  let contact_data :=
    [("firstName", dict_get contact "firstname");
     ("lastName", dict_get contact "lastname");
     ("email", dict_get contact "email");
     ("phone", dict_get contact "phone");
     ("address1", dict_get contact "address");
     ("city", dict_get contact "city");
     ("state", dict_get contact "state");
     ("postalCode", dict_get contact "postal_code");
     ("country", TwoWayPush.py_or (dict_get contact "country") (PStr "United States"));
     ("companyName", dict_get contact "company_name");
     ("website", dict_get contact "website")]%string in
  let contact_data :=
    if truthy (dict_get contact "tags")
    then contact_data
         ++ [("tags"%string,
              match dict_get contact "tags" with
              | PList items => PList items
              | _ => PList []
              end)]
    else contact_data in
  List.filter (fun item => negb (is_None (snd item))) contact_data.

(** What [push_contact_to_ghl] sends: an update of the contact when it
    has an id, a creation otherwise. *)
Inductive contact_request :=
| PutContact (contact_id : pyval) (data : pydict)
| PostContact (data : pydict).

Definition contact_request_of (location_id : pyval) (contact : pydict)
    : result contact_request :=
  let kwargs := contact_data contact in
  if truthy (dict_get contact "id")
  then Ok (PutContact (dict_get contact "id") (update_contact_data kwargs))
  else match create_contact_data location_id kwargs with
       | Ok data => Ok (PostContact data)
       | Raise e => Raise e
       end.

End Contacts.

(** ** A host to run the code on

    One implementation of [PyRuntime], used where the code is evaluated
    on concrete inputs: numeric literals are plain decimals
    ([[+-]digits[.digits]], white space around them allowed), the time
    zone is UTC, and floats and containers print as an opaque token. *)

Module Host.
Import Py.

(** The double nearest to [p / q], for [q > 0]. *)
Definition float_of_ratio (p q : Z) : pyfloat :=
  if p =? 0 then FFinite 0 0
  else
    let a := Z.abs p in
    let scaled (e : Z) : Z * Z :=
      if 0 <=? e then (a, q * 2 ^ e) else (a * 2 ^ (- e), q) in
    let e0 := Z.log2 a - Z.log2 q - 53 in
    let e := (let '(n, d) := scaled (e0 + 1) in if 2 ^ 52 * d <=? n then e0 + 1 else e0) in
    let e := Z.max e (-1074) in
    let '(n, d) := scaled e in
    let m := round_half_even n d in
    if 2 ^ 1024 <=? m * 2 ^ e then FInf (p <? 0)
    else FFinite (Z.sgn p * m) e.

Fixpoint read_digits (s : string) (acc : Z) (count : Z) : Z * Z * string :=
  match s with
  | String c s' =>
      match digit_val c with
      | Some d => read_digits s' (10 * acc + d) (count + 1)
      | None => (acc, count, s)
      end
  | EmptyString => (acc, count, s)
  end.

Definition decimal_literal (s : string) : option pyfloat :=
  let s := strip s in
  let '(neg, s) :=
    match s with
    | String "-" s' => (true, s')
    | String "+" s' => (false, s')
    | _ => (false, s)
    end in
  let '(int_part, n1, rest) := read_digits s 0 0 in
  let '(num, n2, scale, rest) :=
    match rest with
    | String "." r => let '(v, n2, rest') := read_digits r int_part 0 in (v, n2, n2, rest')
    | _ => (int_part, 0, 0, rest)
    end in
  if (0 <? n1 + n2) && String.eqb rest ""
  then Some (float_of_ratio (if neg then - num else num) (10 ^ scale))
  else None.

(** Days from 0001-01-01 to 1970-01-01, plus one. *)
Definition EPOCH_ORDINAL : Z := 719163.

Definition utc_date_of_epoch_ms (v : pyval) : option date :=
  let day (ms_num ms_den : Z) : option date :=
    let o := EPOCH_ORDINAL + ms_num / (ms_den * 86400000) in
    if (0 <? o) && (o <=? MAXORDINAL) then Some (ord2ymd o) else None in
  match v with
  | PInt n => day n 1
  | PBool b => day (if b then 1 else 0) 1
  | PFloat (FFinite m e) => if 0 <=? e then day (m * 2 ^ e) 1 else day m (2 ^ (- e))
  | _ => None
  end.

#[global] Instance host : PyRuntime := {|
  float_of_str := decimal_literal;
  str_of_other := fun _ => "<repr>"%string;
  local_date_of_epoch_ms := utc_date_of_epoch_ms;
|}.

End Host.

(** * Properties *)

(** ** Dates: parsing what [isoformat] prints *)

Module DateFacts.
Import Py.


(** Appending to a string that starts with known characters. *)
#[local] Ltac push_append :=
  repeat change (String.append (String ?c ?s) ?t) with (String c (String.append s t));
  repeat change (String.append EmptyString ?t) with t.









End DateFacts.

(** ** The codec: what the two folds compute, key by key *)

Module CodecFacts.
Import Py FieldMapping.

Lemma trip_columns_distinct : NoDup TRIP_FIELD_MAP.*2.
Proof. apply (bool_decide_unpack _). by vm_compute. Qed.

Lemma trip_keys_distinct : NoDup TRIP_FIELD_MAP.*1.
Proof. apply (bool_decide_unpack _). by vm_compute. Qed.

Lemma passenger_columns_distinct : NoDup PASSENGER_FIELD_MAP.*2.
Proof. apply (bool_decide_unpack _). by vm_compute. Qed.

Lemma passenger_keys_distinct : NoDup PASSENGER_FIELD_MAP.*1.
Proof. apply (bool_decide_unpack _). by vm_compute. Qed.

(** In a list of items without repeated keys, a key has one value. *)
Lemma items_functional {A B} (l : list (A * B)) k v1 v2 :
  NoDup l.*1 -> (k, v1) ∈ l -> (k, v2) ∈ l -> v1 = v2.
Proof.
  induction l as [| [k' v'] l IH]; simpl; intros Hnd H1 H2.
  { by apply elem_of_nil in H1. }
  apply NoDup_cons in Hnd as [Hk Hnd].
  assert (forall v, (k', v) ∈ l -> False) as Hfresh.
  { intros v Hv. apply Hk. by apply (list_elem_of_fmap_2' fst l (k', v)). }
  apply elem_of_cons in H1 as [H1 | H1]; apply elem_of_cons in H2 as [H2 | H2];
    simplify_eq; try done.
  - exfalso; eauto.
  - exfalso; eauto.
  - by apply IH.
Qed.

Section Decode.
Context `{PyRuntime}.
Context (convert_column : string -> pyval -> option pyval) (custom_fields : pydict).

(** What one item of the field map contributes to [mapped]. *)
Definition column_value (field_key column_name : string) : option pyval :=
  let value := dict_get custom_fields field_key in
  if is_None value then None else convert_column column_name value.

Lemma map_step_lookup mapped field_key column_name key :
  map_step convert_column custom_fields mapped (field_key, column_name) !! key
  = match column_value field_key column_name with
    | Some v => if decide (key = KStr column_name) then Some v else mapped !! key
    | None => mapped !! key
    end.
Proof.
  unfold map_step, column_value.
  destruct (is_None _); [done |].
  destruct (convert_column _ _); [| done].
  rewrite lookup_insert. repeat case_decide; congruence.
Qed.

Lemma fold_map_step_absent l mapped column_name :
  column_name ∉ l.*2 ->
  fold_left (map_step convert_column custom_fields) l mapped !! KStr column_name
  = mapped !! KStr column_name.
Proof.
  revert mapped. induction l as [| [k c] l IH]; intros mapped Hc; [done |].
  rewrite fmap_cons in Hc. cbn [fold_left snd] in *.
  apply not_elem_of_cons in Hc as [Hne Hc].
  rewrite IH by done. rewrite map_step_lookup.
  destruct (column_value k c); [| done].
  case_decide; congruence.
Qed.

Lemma fold_map_step_lookup l mapped field_key column_name :
  NoDup l.*2 -> (field_key, column_name) ∈ l ->
  fold_left (map_step convert_column custom_fields) l mapped !! KStr column_name
  = match column_value field_key column_name with
    | Some v => Some v
    | None => mapped !! KStr column_name
    end.
Proof.
  revert mapped. induction l as [| [k c] l IH]; intros mapped Hnd Hin.
  { by apply elem_of_nil in Hin. }
  rewrite fmap_cons in Hnd. cbn [fold_left snd] in *.
  apply NoDup_cons in Hnd as [Hc Hnd].
  apply elem_of_cons in Hin as [Heq | Hin].
  - inversion Heq; subst. rewrite fold_map_step_absent by done.
    rewrite map_step_lookup. destruct (column_value k c); [| done].
    by rewrite decide_True.
  - rewrite IH by done. destruct (column_value field_key column_name); [done |].
    rewrite map_step_lookup. destruct (column_value k c); [| done].
    rewrite decide_False; [done |]. intros [= ->]. apply Hc.
    by apply (list_elem_of_fmap_2' snd l (field_key, c)).
Qed.

Lemma fold_map_step_keys l mapped key v :
  fold_left (map_step convert_column custom_fields) l mapped !! key = Some v ->
  mapped !! key = Some v
  \/ exists field_key column_name,
       (field_key, column_name) ∈ l /\ key = KStr column_name
       /\ column_value field_key column_name = Some v.
Proof.
  revert mapped. induction l as [| [k c] l IH]; intros mapped Hl; [by left |].
  cbn [fold_left] in Hl. apply IH in Hl as [Hl | (k' & c' & Hin & -> & Hv)].
  - rewrite map_step_lookup in Hl.
    destruct (column_value k c) eqn:Hkc; [| by left].
    case_decide; [| by left]. right. exists k, c.
    split; [apply elem_of_cons; by left |]. split; congruence.
  - right. exists k', c'. split; [apply elem_of_cons; by right | done].
Qed.

End Decode.

(** The reversed field map. *)
Lemma reverse_fold_lookup (l : list (string * string)) (acc : gmap string string)
    column field_key :
  fold_left (fun acc '(k, v) => <[v := k]> acc) l acc !! column = Some field_key ->
  acc !! column = Some field_key \/ (field_key, column) ∈ l.
Proof.
  revert acc. induction l as [| [k c] l IH]; intros acc Hl; [by left |].
  cbn [fold_left] in Hl. apply IH in Hl as [Hl | Hl].
  - rewrite lookup_insert in Hl. case_decide.
    + right. apply elem_of_cons. left. congruence.
    + by left.
  - right. apply elem_of_cons. by right.
Qed.

Lemma reverse_map_elem field_map column field_key :
  reverse_map field_map !! column = Some field_key -> (field_key, column) ∈ field_map.
Proof.
  intros Hl. apply reverse_fold_lookup in Hl as [Hl | Hl]; [| done].
  by rewrite lookup_empty in Hl.
Qed.

Lemma reverse_fold_absent (l : list (string * string)) (acc : gmap string string)
    (column : string) :
  column ∉ l.*2 ->
  fold_left (fun acc '(k, v) => <[v := k]> acc) l acc !! column = acc !! column.
Proof.
  revert acc. induction l as [| [k c] l IH]; intros acc Hc; [done |].
  rewrite fmap_cons in Hc. cbn [fold_left snd] in *.
  apply not_elem_of_cons in Hc as [Hne Hc].
  rewrite IH by done. by rewrite lookup_insert_ne.
Qed.

Lemma reverse_map_lookup field_map column field_key :
  NoDup field_map.*2 -> (field_key, column) ∈ field_map ->
  reverse_map field_map !! column = Some field_key.
Proof.
  unfold reverse_map. generalize (∅ : gmap string string).
  induction field_map as [| [k c] l IH]; intros acc Hnd Hin.
  { by apply elem_of_nil in Hin. }
  rewrite fmap_cons in Hnd. cbn [fold_left snd] in *.
  apply NoDup_cons in Hnd as [Hc Hnd].
  apply elem_of_cons in Hin as [Heq | Hin].
  - inversion Heq; subst. rewrite reverse_fold_absent by done.
    by rewrite lookup_insert_eq.
  - by apply IH.
Qed.

(** Two columns are never pushed under one field key. *)
Lemma reverse_map_inj field_map c1 c2 field_key :
  NoDup field_map.*1 ->
  reverse_map field_map !! c1 = Some field_key ->
  reverse_map field_map !! c2 = Some field_key -> c1 = c2.
Proof.
  intros Hnd H1 H2. apply reverse_map_elem in H1, H2.
  eapply items_functional; eauto.
Qed.

Section Encode.
Context `{PyRuntime}.

(** What a column contributes to the outbound payload. *)
Definition pushed_value (value : option pyval) : option pyval :=
  v ← value; if is_None v then None else Some (encode_value v).

Lemma encode_step_lookup rev column_name value acc key :
  encode_step rev column_name value acc !! key
  = match column_name with
    | KStr c =>
        match rev !! c with
        | Some field_key =>
            if negb (String.eqb field_key "") && negb (is_None value)
            then if decide (key = KStr field_key)
                 then Some (encode_value value) else acc !! key
            else acc !! key
        | None => acc !! key
        end
    | _ => acc !! key
    end.
Proof.
  unfold encode_step. destruct column_name; try done.
  destruct (rev !! s); [| done].
  destruct (_ && _); [| done].
  rewrite lookup_insert. repeat case_decide; congruence.
Qed.

(** The payload of [create_ghl_custom_fields_dict], at the field key of a
    mapped column. *)
Lemma create_lookup model_data field_map column field_key :
  NoDup field_map.*1 ->
  reverse_map field_map !! column = Some field_key -> field_key <> ""%string ->
  create_ghl_custom_fields_dict model_data field_map !! KStr field_key
  = pushed_value (model_data !! KStr column).
Proof.
  intros Hnd Hrev Hne. unfold create_ghl_custom_fields_dict.
  apply (map_fold_weak_ind (fun acc (m : pydict) =>
    acc !! KStr field_key = pushed_value (m !! KStr column))).
  { by rewrite !lookup_empty. }
  intros i x m acc Hi IH. rewrite encode_step_lookup.
  assert (String.eqb field_key "" = false) as Hne' by by apply String.eqb_neq.
  destruct (decide (i = KStr column)) as [-> | Hic].
  - rewrite Hrev, Hne', lookup_insert_eq. simpl.
    rewrite decide_True by done.
    destruct (is_None x) eqn:Hx; simpl; [| done].
    by rewrite IH, Hi.
  - rewrite lookup_insert_ne by done.
    destruct i as [| | | | c |]; try done.
    destruct (reverse_map field_map !! c) as [fk |] eqn:Hc; [| done].
    destruct (_ && _); [| done].
    rewrite decide_False; [done |].
    intros [= ->]. apply Hic. f_equal.
    eapply reverse_map_inj; eauto.
Qed.

(** Every entry of the payload comes from a mapped column whose value is
    not [None]. *)
Lemma create_keys model_data field_map key v :
  create_ghl_custom_fields_dict model_data field_map !! key = Some v ->
  exists column field_key x,
    key = KStr field_key /\ reverse_map field_map !! column = Some field_key
    /\ model_data !! KStr column = Some x /\ is_None x = false
    /\ v = encode_value x.
Proof.
  unfold create_ghl_custom_fields_dict. revert key v.
  apply (map_fold_weak_ind (fun acc (m : pydict) => forall key v,
    acc !! key = Some v ->
    exists column field_key x,
      key = KStr field_key /\ reverse_map field_map !! column = Some field_key
      /\ m !! KStr column = Some x /\ is_None x = false /\ v = encode_value x)).
  { intros key v. by rewrite lookup_empty. }
  intros i x m acc Hi IH key v. rewrite encode_step_lookup.
  assert (acc !! key = Some v ->
    exists column field_key x0,
      key = KStr field_key /\ reverse_map field_map !! column = Some field_key
      /\ <[i:=x]> m !! KStr column = Some x0 /\ is_None x0 = false
      /\ v = encode_value x0) as Hold.
  { intros (c & fk & x0 & -> & ? & Hm & ? & ->)%IH.
    exists c, fk, x0. repeat split; try done.
    rewrite lookup_insert_ne; [done |]. intros ->. congruence. }
  destruct i as [| | | | c |]; try done.
  destruct (reverse_map field_map !! c) as [fk |] eqn:Hc; [| done].
  destruct (negb (String.eqb fk "") && negb (is_None x)) eqn:Hg; [| done].
  case_decide; [| done]. intros [= <-].
  apply andb_prop in Hg as [_ Hx]. apply negb_true_iff in Hx.
  exists c, fk, x. by rewrite lookup_insert_eq.
Qed.

(** The payload built by [push_trip_to_ghl]. *)
Lemma push_fold_lookup (trip : pydict) (rev : gmap string string) column field_key :
  (forall c1 c2 k, rev !! c1 = Some k -> rev !! c2 = Some k -> c1 = c2) ->
  rev !! column = Some field_key ->
  map_fold (TwoWaySync.push_step trip) ∅ rev !! KStr field_key
  = pushed_value (Some (dict_get trip column)).
Proof.
  intros Hinj Hrev.
  cut ((forall c, rev !! c = Some field_key ->
          map_fold (TwoWaySync.push_step trip) ∅ rev !! KStr field_key
          = pushed_value (Some (dict_get trip c)))
       /\ ((forall c, rev !! c <> Some field_key) ->
           map_fold (TwoWaySync.push_step trip) ∅ rev !! KStr field_key = None)).
  { intros [Hc _]. by apply Hc. }
  clear Hrev. revert Hinj.
  apply (map_fold_weak_ind (fun acc (m : gmap string string) =>
    (forall c1 c2 k, m !! c1 = Some k -> m !! c2 = Some k -> c1 = c2) ->
    (forall c, m !! c = Some field_key ->
       acc !! KStr field_key = pushed_value (Some (dict_get trip c)))
    /\ ((forall c, m !! c <> Some field_key) -> acc !! KStr field_key = None))).
  { intros _. split; [intros c; by rewrite lookup_empty | by rewrite lookup_empty]. }
  intros i x m acc Hi IH Hinj.
  assert (forall c k, m !! c = Some k -> <[i:=x]> m !! c = Some k) as Hsub.
  { intros c k Hc. rewrite lookup_insert_ne; [done |]. intros ->. congruence. }
  destruct IH as [IH1 IH2]; [by eauto |].
  assert (forall c, m !! c = Some field_key -> x <> field_key) as Hx.
  { intros c Hc ->. assert (i = c); [| congruence].
    apply (Hinj i c field_key); [by rewrite lookup_insert_eq | by apply Hsub]. }
  assert (forall key, TwoWaySync.push_step trip i x acc !! key
    = if is_None (dict_get trip i) then acc !! key
      else if decide (key = KStr x) then Some (encode_value (dict_get trip i))
      else acc !! key) as Hstep.
  { intros key. unfold TwoWaySync.push_step. destruct (is_None _); [done |].
    rewrite lookup_insert. repeat case_decide; congruence. }
  split.
  - intros c Hc. rewrite Hstep. rewrite lookup_insert in Hc.
    case_decide as Hic.
    + simplify_eq. unfold pushed_value. simpl.
      destruct (is_None (dict_get trip c)); [| by rewrite decide_True].
      apply IH2. intros c' Hc'. by apply (Hx c' Hc').
    + rewrite (IH1 c Hc).
      destruct (is_None (dict_get trip i)); [done |].
      rewrite decide_False; [done |]. intros [= Heq]. by apply (Hx c Hc).
  - intros Hno. rewrite Hstep.
    assert (x <> field_key).
    { intros ->. apply (Hno i). by rewrite lookup_insert_eq. }
    rewrite IH2.
    + destruct (is_None _); [done |]. rewrite decide_False; [done | congruence].
    + intros c Hc. apply (Hno c). by apply Hsub.
Qed.

Lemma push_lookup (trip : pydict) column field_key :
  (field_key, column) ∈ TRIP_FIELD_MAP ->
  TwoWaySync.push_trip_custom_fields trip !! KStr field_key
  = pushed_value (Some (dict_get trip column)).
Proof.
  intros Hin. unfold TwoWaySync.push_trip_custom_fields.
  apply push_fold_lookup.
  - intros c1 c2 k H1 H2.
    exact (reverse_map_inj TRIP_FIELD_MAP c1 c2 k trip_keys_distinct H1 H2).
  - exact (reverse_map_lookup TRIP_FIELD_MAP column field_key trip_columns_distinct Hin).
Qed.

End Encode.

End CodecFacts.

(** ** The codec: decoding *)

Module DecodeClaims.
Import Py FieldMapping CodecFacts.

(** A custom-field entry of a string-typed field, as the CRM sends it. *)
Definition typed_entry : pydict :=
  {[ KStr "id" := PStr "fld_1"; KStr "type" := PStr "string";
     KStr "fieldValueString" := PStr "Paris" ]}.

(** [get_field_value_by_type] tries the typed key, then ['fieldValue'],
    and answers [None] when the entry has neither. *)
Lemma get_field_value_by_type_order (field_data : pydict) (t : string) :
  default (PStr "") (field_data !! KStr "type") = PStr t ->
  let typed_key := ("fieldValue" ++ capitalize (upper t))%string in
  RawJson.get_field_value_by_type field_data
  = Ok (match field_data !! KStr typed_key with
        | Some v => v
        | None => default PNone (field_data !! KStr "fieldValue")
        end).
Proof.
  intros Ht typed_key. unfold RawJson.get_field_value_by_type. rewrite Ht.
  fold typed_key. unfold dict_has, dict_get.
  destruct (field_data !! KStr typed_key) as [v |] eqn:Htyped.
  - rewrite bool_decide_eq_true_2 by (by exists v). done.
  - rewrite bool_decide_eq_false_2 by (by intros [? ?]).
    destruct (field_data !! KStr "fieldValue") as [v |] eqn:Hgen.
    + rewrite bool_decide_eq_true_2 by (by exists v). done.
    + rewrite bool_decide_eq_false_2 by (by intros [? ?]). done.
Qed.

(** C2.  On an entry that carries its value under the type-specific key
    ["fieldValueString"], [parse_ghl_custom_fields] reads only the generic
    ["fieldValue"] and so decodes the value as [None], whereas
    [get_field_value_by_type] finds ["Paris"] under the typed key. *)
Theorem parse_reads_only_generic_key :
  match parse_ghl_custom_fields (PList [PDict typed_entry]) with
  | Ok custom_fields => map_to_list custom_fields = [(KStr "fld_1", PNone)]
  | Raise _ => False
  end
  /\ RawJson.get_field_value_by_type typed_entry = Ok (PStr "Paris").
Proof. split; vm_compute; reflexivity. Qed.

Section Decoding.
Context `{PyRuntime}.

(** What [map_trip_custom_fields] stores for an item of [TRIP_FIELD_MAP]. *)
Lemma map_trip_lookup (custom_fields : pydict) field_key column :
  (field_key, column) ∈ TRIP_FIELD_MAP ->
  map_trip_custom_fields custom_fields !! KStr column
  = column_value convert_trip_column custom_fields field_key column.
Proof.
  intros Hin. unfold map_trip_custom_fields.
  rewrite (fold_map_step_lookup _ _ _ _ field_key column trip_columns_distinct Hin).
  by destruct (column_value _ _ _ _).
Qed.

Lemma map_passenger_lookup (custom_fields : pydict) field_key column :
  (field_key, column) ∈ PASSENGER_FIELD_MAP ->
  map_passenger_custom_fields custom_fields !! KStr column
  = column_value convert_passenger_column custom_fields field_key column.
Proof.
  intros Hin. unfold map_passenger_custom_fields.
  rewrite (fold_map_step_lookup _ _ _ _ field_key column passenger_columns_distinct Hin).
  by destruct (column_value _ _ _ _).
Qed.

(** What a string column receives, by the value found under its key. *)
Definition string_column_result (value : pyval) : option pyval :=
  if is_None value then None
  else if truthy value then Some (PStr (py_str value))
  else Some PNone.

(** C3, as amended.  For a string column of either field map, the output
    has no key for the column exactly when the value found is [None]
    (missing or null); a value that is falsy without being [None], such as
    the empty string, puts the key in the output with the value [None];
    a truthy value is stringified. *)
Theorem string_column_decoding (custom_fields : pydict) field_key column :
  ((field_key, column) ∈ TRIP_FIELD_MAP -> trip_column_kind column = Text ->
   map_trip_custom_fields custom_fields !! KStr column
   = string_column_result (dict_get custom_fields field_key))
  /\ ((field_key, column) ∈ PASSENGER_FIELD_MAP -> passenger_column_kind column = Text ->
      map_passenger_custom_fields custom_fields !! KStr column
      = string_column_result (dict_get custom_fields field_key)).
Proof.
  split; intros Hin Hkind.
  - rewrite (map_trip_lookup _ _ _ Hin).
    unfold column_value, convert_trip_column, string_column_result.
    rewrite Hkind. simpl. unfold convert_string.
    by repeat case_match.
  - rewrite (map_passenger_lookup _ _ _ Hin).
    unfold column_value, convert_passenger_column, string_column_result.
    rewrite Hkind. simpl. unfold convert_string.
    by repeat case_match.
Qed.

End Decoding.

(** C3 as stated fails: an empty string under the key of the string
    column [destination] leaves the key in the output, bound to [None]. *)
Lemma empty_string_sets_column_to_None :
  map_to_list (map_trip_custom_fields {[ KStr "opportunity.destination" := PStr "" ]})
  = [(KStr "destination", PNone)].
Proof. vm_compute. reflexivity. Qed.

Lemma string_column_decoding_witness :
  map_trip_custom_fields {[ KStr "opportunity.tripvendor" := PInt 0 ]} !! KStr "trip_vendor"
  = Some PNone
  /\ map_passenger_custom_fields {[ KStr "opportunity.mou" := PStr "signed" ]} !! KStr "mou"
     = Some (PStr "signed").
Proof.
  split.
  - rewrite (proj1 (string_column_decoding
      {[ KStr "opportunity.tripvendor" := PInt 0 ]} "opportunity.tripvendor" "trip_vendor")).
    + by vm_compute.
    + apply (bool_decide_unpack _). by vm_compute.
    + by vm_compute.
  - rewrite (proj2 (string_column_decoding
      {[ KStr "opportunity.mou" := PStr "signed" ]} "opportunity.mou" "mou")).
    + by vm_compute.
    + apply (bool_decide_unpack _). by vm_compute.
    + by vm_compute.
Defined.

(** *** Decoding never raises on hashable ids, and writes mapped keys only *)

Lemma key_of_KStr v k : key_of v = Some (KStr k) -> v = PStr k.
Proof.
  destruct v as [| b | n | f | s | d | l | d]; simpl; try done.
  - destruct b; simpl; done.
  - destruct n; simpl; try done; by destruct (pos_strip _ _).
  - destruct f as [m e | |]; try done.
    destruct m; simpl; try done; by destruct (pos_strip _ _).
  - congruence.
Qed.

(** Every truthy ['id'] of an entry can be a dict key. *)
Definition hashable_ids (l : list pyval) : Prop :=
  forall d, PDict d ∈ l -> truthy (dict_get d "id") = true ->
            is_Some (key_of (dict_get d "id")).

Lemma parse_loop_ok l (acc : pydict) :
  hashable_ids l ->
  exists custom_fields,
    parse_loop acc l = Ok custom_fields
    /\ forall k v, custom_fields !! KStr k = Some v ->
         acc !! KStr k = Some v
         \/ exists d, PDict d ∈ l /\ dict_get d "id" = PStr k.
Proof.
  revert acc. induction l as [| field l IH]; intros acc Hh.
  { exists acc. split; [done | by left]. }
  assert (hashable_ids l) as Hl.
  { intros d Hd. apply Hh. apply elem_of_cons. by right. }
  assert (forall acc',
    (forall k v, acc' !! KStr k = Some v ->
       acc !! KStr k = Some v \/ exists d, PDict d ∈ field :: l /\ dict_get d "id" = PStr k) ->
    exists custom_fields,
      parse_loop acc' l = Ok custom_fields
      /\ forall k v, custom_fields !! KStr k = Some v ->
           acc !! KStr k = Some v
           \/ exists d, PDict d ∈ field :: l /\ dict_get d "id" = PStr k) as Hrest.
  { intros acc' Hacc'. destruct (IH acc' Hl) as (res & Hres & Hkeys).
    exists res. split; [done |]. intros k v Hk.
    apply Hkeys in Hk as [Hk | (d & Hd & Hid)]; [by apply Hacc' |].
    right. exists d. split; [apply elem_of_cons; by right | done]. }
  cbn [parse_loop]. unfold parse_step.
  destruct field as [| | | | | | | d]; try (apply Hrest; by left).
  destruct (truthy (dict_get d "id")) eqn:Ht; [| apply Hrest; by left].
  destruct (Hh d) as [key Hkey]; [apply elem_of_cons; by left | done |].
  unfold dict_setitem. rewrite Hkey. apply Hrest.
  intros k v. rewrite lookup_insert. case_decide as Hk; [| by left].
  intros _. right. exists d. split; [apply elem_of_cons; by left |].
  apply key_of_KStr. congruence.
Qed.

Section NeverRaises.
Context `{PyRuntime}.

(** The entries that an output key can come from. *)
Definition from_mapped_entry (field_map : list (string * string))
    (custom_fields_list : pyval) (key : pykey) : Prop :=
  exists field_key column l d,
    key = KStr column /\ (field_key, column) ∈ field_map
    /\ custom_fields_list = PList l /\ PDict d ∈ l
    /\ dict_get d "id" = PStr field_key.

Lemma decode_ok convert_column field_map (custom_fields_list : pyval) :
  (forall l, custom_fields_list = PList l -> hashable_ids l) ->
  exists custom_fields,
    parse_ghl_custom_fields custom_fields_list = Ok custom_fields
    /\ forall key v,
         fold_left (map_step convert_column custom_fields) field_map ∅ !! key = Some v ->
         from_mapped_entry field_map custom_fields_list key.
Proof.
  intros Hh. unfold parse_ghl_custom_fields.
  assert (forall key v,
    fold_left (map_step convert_column ∅) field_map ∅ !! key = Some v -> False) as Hempty.
  { intros key v [Hk | (k & c & _ & _ & Hv)]%fold_map_step_keys.
    - by rewrite lookup_empty in Hk.
    - unfold column_value, dict_get in Hv. by rewrite lookup_empty in Hv. }
  destruct custom_fields_list as [| | | | | | l |];
    try (exists ∅; split; [done |]; intros key v Hk; by destruct (Hempty key v Hk)).
  destruct (parse_loop_ok l ∅ (Hh l eq_refl)) as (cf & Hcf & Hkeys).
  exists cf. split; [done |].
  intros key v [Hk | (k & c & Hin & -> & Hv)]%fold_map_step_keys.
  { by rewrite lookup_empty in Hk. }
  unfold column_value, dict_get in Hv.
  destruct (cf !! KStr k) as [value |] eqn:Hvalue; [| done].
  apply Hkeys in Hvalue as [Hvalue | (d & Hd & Hid)].
  { by rewrite lookup_empty in Hvalue. }
  by exists k, c, l, d.
Qed.

(** C9, as amended.  Whatever the shape of the custom-field list (not a
    list, entries that are not dicts, entries without an id, ids without a
    mapping), decoding returns a map, provided no entry has a non-empty
    list or dict as its id; and every key of that map is the column of a
    field-map item whose field key is the id of an entry of the list. *)
Theorem decoding_returns_mapped_keys_only (custom_fields_list : pyval) :
  (forall l, custom_fields_list = PList l -> hashable_ids l) ->
  (exists mapped,
     Pull.decode_trip_fields custom_fields_list = Ok mapped
     /\ forall key v, mapped !! key = Some v ->
          from_mapped_entry TRIP_FIELD_MAP custom_fields_list key)
  /\ (exists mapped,
       Pull.decode_passenger_fields custom_fields_list = Ok mapped
       /\ forall key v, mapped !! key = Some v ->
            from_mapped_entry PASSENGER_FIELD_MAP custom_fields_list key).
Proof.
  intros Hh. split.
  - destruct (decode_ok convert_trip_column TRIP_FIELD_MAP _ Hh) as (cf & Hcf & Hkeys).
    exists (map_trip_custom_fields cf). unfold Pull.decode_trip_fields.
    rewrite Hcf. split; [done | apply Hkeys].
  - destruct (decode_ok convert_passenger_column PASSENGER_FIELD_MAP _ Hh)
      as (cf & Hcf & Hkeys).
    exists (map_passenger_custom_fields cf). unfold Pull.decode_passenger_fields.
    rewrite Hcf. split; [done | apply Hkeys].
Qed.

End NeverRaises.

(** A list with an entry that is not a dict, an entry without an id, an
    entry whose id has no mapping, and a mapped entry. *)
Definition mixed_entries : list pyval :=
  [ PInt 3;
    PDict {[ KStr "fieldValue" := PStr "orphan" ]};
    PDict {[ KStr "id" := PStr "fld_unknown"; KStr "fieldValue" := PStr "x" ]};
    PDict {[ KStr "id" := PStr "opportunity.lodging"; KStr "fieldValue" := PStr "Hotel" ]} ].

Lemma mixed_entries_hashable : hashable_ids mixed_entries.
Proof.
  intros d Hd _. unfold mixed_entries in Hd.
  repeat (apply elem_of_cons in Hd as [Hd | Hd]; [simplify_eq; vm_compute; eauto |]).
  by apply elem_of_nil in Hd.
Qed.

Lemma decoding_returns_mapped_keys_only_witness :
  exists mapped,
    Pull.decode_trip_fields (PList mixed_entries) = Ok mapped
    /\ forall key v, mapped !! key = Some v ->
         from_mapped_entry TRIP_FIELD_MAP (PList mixed_entries) key.
Proof.
  refine (proj1 (decoding_returns_mapped_keys_only (PList mixed_entries) _)).
  intros l [= <-]. apply mixed_entries_hashable.
Defined.

(** C9 as stated fails: an entry whose id is a non-empty list cannot be
    stored under that id, and decoding raises [TypeError]. *)
Lemma decoding_raises_on_unhashable_id :
  Pull.decode_trip_fields
    (PList [PDict {[ KStr "id" := PList [PStr "a"]; KStr "fieldValue" := PStr "x" ]}])
  = Raise (TypeError "unhashable type").
Proof. vm_compute. reflexivity. Qed.

End DecodeClaims.

(** ** The codec: encoding, and encoding followed by decoding *)

Module EncodeClaims.
Import Py FieldMapping CodecFacts.

Lemma trip_keys_nonempty field_key column :
  (field_key, column) ∈ TRIP_FIELD_MAP -> field_key <> ""%string.
Proof.
  intros Hin ->.
  assert (""%string ∉ TRIP_FIELD_MAP.*1) as Hno
    by (apply (bool_decide_unpack _); by vm_compute).
  apply Hno. by apply (list_elem_of_fmap_2' fst TRIP_FIELD_MAP (""%string, column)).
Qed.

Section Encoding.
Context `{PyRuntime}.

Definition is_date (v : pyval) : bool := match v with PDate _ => true | _ => false end.
Definition is_bool (v : pyval) : bool := match v with PBool _ => true | _ => false end.

(** C4, as amended.  In the payload of [create_ghl_custom_fields_dict]
    and in the one built by [push_trip_to_ghl], the entry at the field key
    of a mapped column is absent when the column has no value or the value
    [None], and is the encoded value otherwise; a date is encoded as its
    ISO string, a boolean as ["true"] or ["false"], and every other value
    is passed on unchanged (a number stays a number). *)
Theorem outbound_payload :
  (forall (model_data : pydict) field_map column field_key,
     NoDup field_map.*1 ->
     reverse_map field_map !! column = Some field_key -> field_key <> ""%string ->
     create_ghl_custom_fields_dict model_data field_map !! KStr field_key
     = pushed_value (model_data !! KStr column))
  /\ (forall (trip : pydict) field_key column,
        (field_key, column) ∈ TRIP_FIELD_MAP ->
        TwoWaySync.push_trip_custom_fields trip !! KStr field_key
        = pushed_value (Some (dict_get trip column)))
  /\ pushed_value None = None
  /\ pushed_value (Some PNone) = None
  /\ (forall d, pushed_value (Some (PDate d)) = Some (PStr (isoformat d)))
  /\ (forall b : bool,
        pushed_value (Some (PBool b)) = Some (PStr (if b then "true" else "false")))
  /\ (forall v, is_None v = false -> is_date v = false -> is_bool v = false ->
                pushed_value (Some v) = Some v).
Proof.
  split; [intros; by apply create_lookup |].
  split; [intros; by apply push_lookup |].
  repeat split; try done.
  - by intros [].
  - intros v Hn Hd Hb. unfold pushed_value. simpl. rewrite Hn.
    by destruct v.
Qed.







End Encoding.

(** C4 as stated fails: an integer column is pushed as an integer, not as
    its string. *)
Lemma integer_is_pushed_unchanged :
  map_to_list
    (create_ghl_custom_fields_dict {[ KStr "max_passengers" := PInt 10 ]} TRIP_FIELD_MAP)
  = [(KStr "opportunity.maxpassengers", PInt 10)].
Proof. vm_compute. reflexivity. Qed.

Definition sample_trip : pydict :=
  {[ KStr "arrival_date" := PDate (mkdate 2025 6 1);
     KStr "is_child" := PBool false;
     KStr "max_passengers" := PInt 12;
     KStr "lodging" := PNone ]}.

Lemma outbound_payload_witness :
  create_ghl_custom_fields_dict sample_trip TRIP_FIELD_MAP !! KStr "opportunity.arrivaldate"
  = Some (PStr "2025-06-01").
Proof.
  rewrite (proj1 outbound_payload sample_trip TRIP_FIELD_MAP
             "arrival_date" "opportunity.arrivaldate").
  - vm_compute. reflexivity.
  - apply (bool_decide_unpack _). by vm_compute.
  - vm_compute. reflexivity.
  - discriminate.
Defined.



End EncodeClaims.

(** ** The CRM client: what [_make_request] raises *)

Module ClientClaims.
Import Py GhlApi.

(** A response on an error status raises the typed error with that status
    and the decoded body when the body is empty or is JSON; a transport
    failure raises the typed error without a status. *)
Lemma typed_error_on_json_or_empty_body (flag : bool) (r : response) :
  status_code r ∉ [200; 201; 202; 204] ->
  (text r = ""%string ->
   _make_request flag (Responded r)
   = Raise (GoHighLevelAPIError (error_message r) (Some (status_code r)) None))
  /\ (forall v, text r <> ""%string -> json r = JsonValue v ->
      _make_request flag (Responded r)
      = Raise (GoHighLevelAPIError (error_message r) (Some (status_code r)) (Some v))).
Proof.
  intros Hs. unfold _make_request.
  rewrite bool_decide_eq_false_2 by done. split.
  - intros ->. done.
  - intros v Ht ->. apply String.eqb_neq in Ht. by rewrite Ht.
Qed.

Lemma network_failure_has_no_status (flag : bool) (msg : string) :
  _make_request flag (Failed msg)
  = Raise (GoHighLevelAPIError (PStr ("Network error: " ++ msg)) None None).
Proof. done. Qed.

(** A 500 answer whose body is plain text. *)
Definition server_error : response :=
  {| status_code := 500;
     text := "Internal Server Error";
     json := NotJson "Expecting value: line 1 column 1 (char 0)" |}.

(** C6.  On an error status with a body that is not JSON, no error
    carrying the status is raised: building the error calls
    [response.json()] again, outside the [try] that guarded the first
    call, and the decode error escapes.  Where it is a
    [RequestException] it is reported as a network error, without status
    code; elsewhere it leaves [_make_request] as it is. *)
Theorem status_lost_on_non_json_error_body :
  _make_request true (Responded server_error)
  = Raise (GoHighLevelAPIError
             (PStr "Network error: Expecting value: line 1 column 1 (char 0)") None None)
  /\ _make_request false (Responded server_error)
     = Raise (JSONDecodeError "Expecting value: line 1 column 1 (char 0)").
Proof. split; vm_compute; reflexivity. Qed.

End ClientClaims.

(** ** The linker: [find_matching_trip] *)

Module LinkerClaims.
Import Py Linker.


#[local] Ltac push_append :=
  repeat change (String.append (String ?c ?s) ?t) with (String c (String.append s t));
  repeat change (String.append EmptyString ?t) with t.








Section Spec.
Context `{PyRuntime} {T : Type} (name : T -> option string).






End Spec.



End LinkerClaims.

(** ** The field-map rebuild *)

Module RebuildClaims.
Import Py BuildFieldMaps.










End RebuildClaims.

(** ** The bulk pull of trips *)

Module TripPullClaims.
Import Py GhlSync.

(** Runs the monadic steps that are known. *)
#[local] Ltac run :=
  unfold mbind, M_bind, mret, M_ret, read, update, store_trip, finish, call, raise;
  cbn.

Section Pull.
Context `{PyRuntime} `{SyncEnv}.
















End Pull.
End TripPullClaims.

(** ** A CRM to run the synchroniser against *)

Module Scenario.
Import Py GhlSync.

Definition transport_error : pyexn :=
  GoHighLevelAPIError (PStr "Network error: connection timed out") None None.

Definition bare_trip (opp_data : opportunity) : Trip :=
  {| trip_name := None; trip_ghl_opportunity_id := opp_id opp_data;
     trip_start_date := None; trip_end_date := None;
     trip_max_passengers := None; trip_attrs := ∅ |}.

(** One pipeline with one stage, one custom field in one group, no
    opportunity; the contact list cannot be fetched. *)
Definition contacts_down : SyncEnv := {|
  api_get_pipelines :=
    Ok [ {| pd_id := "IlWdPtOpcczLpgsde2KF";
            pd_json := {[ KStr "name" := PStr "TripBooking" ]};
            pd_stages := [ {| sd_id := "stage_1";
                              sd_json := {[ KStr "name" := PStr "New" ]} |} ] |} ];
  api_get_custom_fields :=
    Ok [ {| fd_id := Some "fld_1"; fd_groupId := Some "grp_1";
            fd_json := {[ KStr "fieldKey" := PStr "opportunity.lodging" ]} |} ];
  api_get_contacts := fun _ _ => Raise transport_error;
  api_search_opportunities := fun _ _ _ => Ok {| or_opportunities := []; or_total := 0 |};
  vendor_service_init := Ok tt;
  api_vendor_options := Ok [];
  db_accepts := fun _ => true;
  today := mkdate 2026 11 4;
  utcnow := 0;
  Trip_from_ghl_opportunity := fun opp_data => Ok (bare_trip opp_data);
  Trip_update_from_ghl := fun trip _ => (trip, None);
  Passenger_from_ghl_opportunity := fun _ => Raise (PyException "no passenger");
  Passenger_update_from_ghl := fun passenger _ => (passenger, None);
|}.


Definition fresh_session : session := {| committed := empty_db; pending := empty_db |}.

End Scenario.

Module TripPullWitness.
Import Py GhlSync TripPullClaims Scenario.



End TripPullWitness.

(** ** The full sync *)

Module FullSyncClaims.
Import Py GhlSync Scenario.

#[local] Ltac run :=
  unfold mbind, M_bind, mret, M_ret, read, update, update_log, finish, call, raise,
    out_of_fuel;
  cbn.

Section FullSync.
Context `{PyRuntime} `{SyncEnv}.


Lemma commit_or_rollback_returns s :
  fst (commit_or_rollback s) = Returned tt.
Proof.
  unfold commit_or_rollback, try_except, commit, rollback.
  by destruct (db_accepts (pending s)).
Qed.





(** The pipelines stage touches the keyed tables only. *)
Definition keeps (db db' : Db) : Prop :=
  sync_logs db' = sync_logs db /\ trips db' = trips db
  /\ passengers db' = passengers db /\ trip_vendors db' = trip_vendors db.

Lemma keeps_trans db1 db2 db3 : keeps db1 db2 -> keeps db2 db3 -> keeps db1 db3.
Proof. unfold keeps. intros (? & ? & ? & ?) (? & ? & ? & ?). repeat split; congruence. Qed.

Lemma fold_keeps {A} (f : Db -> A -> Db) (l : list A) db :
  (forall d x, keeps d (f d x)) -> keeps db (fold_left f l db).
Proof.
  intros Hf. revert db. induction l as [| x l IH]; intros db; [done |].
  cbn [fold_left]. eapply keeps_trans; [apply Hf | apply IH].
Qed.

Lemma upsert_pipelines_keeps pipelines_data db :
  keeps db (fold_left upsert_pipeline pipelines_data db).
Proof.
  apply fold_keeps. intros d pd. unfold upsert_pipeline.
  eapply keeps_trans; [| apply fold_keeps; intros d' sd; by unfold upsert_stage].
  done.
Qed.


Lemma alter_last {A} (f : A -> A) (l : list A) (x : A) :
  alter f (length l) (l ++ [x]) = l ++ [f x].
Proof.
  replace (length l) with (length l + 0)%nat by lia.
  by rewrite alter_app_r.
Qed.



End FullSync.
End FullSyncClaims.

Module FullSyncRuns.
Import Py GhlSync Scenario FullSyncClaims.



End FullSyncRuns.

(** ** The scenarios of the specification, run on the host *)

Module Scenarios.
Import Py FieldMapping Linker.

(** An ISO timestamp in a date column is decoded to its calendar date. *)
Example arrival_date_from_timestamp :
  map_to_list
    (map_trip_custom_fields
       {[ KStr "opportunity.arrivaldate" := PStr "2025-06-01T00:00:00Z" ]})
  = [(KStr "arrival_date", PDate (mkdate 2025 6 1))].
Proof. vm_compute. reflexivity. Qed.

(** A date that cannot be parsed leaves the column out. *)
Example garbage_date_is_skipped :
  map_to_list
    (map_trip_custom_fields {[ KStr "opportunity.arrivaldate" := PStr "next spring" ]})
  = [].
Proof. vm_compute. reflexivity. Qed.

(** A numeric string with a decimal point is truncated in an integer
    column; a string without a true-token is [False] in the boolean one. *)
Example integer_and_boolean_columns :
  map_to_list
    (map_trip_custom_fields
       {[ KStr "opportunity.maxpassengers" := PStr "12.7";
          KStr "opportunity.ischild" := PStr "No" ]})
  = [(KStr "max_passengers", PInt 12); (KStr "is_child", PBool false)].
Proof. vm_compute. reflexivity. Qed.

(** The pushed payload of a trip that arrives on 2025-06-01. *)
Example arrival_date_is_pushed_as_iso_date :
  map_to_list
    (TwoWaySync.push_trip_custom_fields
       {[ KStr "arrival_date" := PDate (mkdate 2025 6 1) ]})
  = [(KStr "opportunity.arrivaldate", PStr "2025-06-01")].
Proof. vm_compute. reflexivity. Qed.

(** Exact match before partial match, partial match, and the guard. *)
Example linker_scenarios :
  find_matching_trip Some (PStr "Paris") ["Paris Spring"; "Paris"]%string = Some "Paris"%string
  /\ find_matching_trip Some (PStr "Tuscany") ["Tuscany Food Tour"; "Provence"]%string
     = Some "Tuscany Food Tour"%string
  /\ find_matching_trip Some (PStr "EU") ["EU Adventure"; "EU"]%string = None.
Proof. repeat split; vm_compute; reflexivity. Qed.

End Scenarios.

(** * Further properties of the code *)

(** ** Decoding: the types of the decoded values *)

Module TypedDecoding.
Import Py FieldMapping CodecFacts.

Section Typed.
Context `{PyRuntime}.

(** The values a column of a given kind may hold. *)
Definition has_kind (k : kind) (v : pyval) : Prop :=
  match k, v with
  | Date, PDate _ => True
  | Integer, (PInt _ | PNone) => True
  | Decimal, (PFloat _ | PNone) => True
  | Boolean, PBool _ => True
  | Text, (PStr _ | PNone) => True
  | _, _ => False
  end.

Lemma convert_has_kind k value v : convert k value = Some v -> has_kind k v.
Proof.
  destruct k; cbn [convert].
  - unfold convert_date. destruct value; try done;
      intros (d & _ & ->)%fmap_Some; done.
  - unfold convert_integer. destruct (truthy value); [| by intros [= <-]].
    destruct (py_float value) as [x |]; [| done]. cbn.
    destruct (int_of_float x); [| done]. by intros [= <-].
  - unfold convert_decimal. destruct (truthy value); [| by intros [= <-]].
    by intros (x & _ & ->)%fmap_Some.
  - unfold convert_boolean. destruct value; try done; by intros [= <-].
  - unfold convert_string. intros [= <-]. by destruct (truthy value).
Qed.

Lemma decoded_entry convert_column field_map (custom_fields : pydict) key v :
  fold_left (map_step convert_column custom_fields) field_map ∅ !! key = Some v ->
  exists field_key column value,
    (field_key, column) ∈ field_map /\ key = KStr column
    /\ custom_fields !! KStr field_key = Some value /\ is_None value = false
    /\ convert_column column value = Some v.
Proof.
  intros [Hk | (k & c & Hin & -> & Hv)]%fold_map_step_keys.
  { by rewrite lookup_empty in Hk. }
  unfold column_value, dict_get in Hv.
  destruct (custom_fields !! KStr k) as [value |] eqn:Hvalue; [| done].
  cbn in Hv. destruct (is_None value) eqn:Hn; [done |].
  exists k, c, value. repeat split; assumption.
Qed.

(** X1.  Whatever the CRM sends, every entry that [map_trip_custom_fields]
    returns is for a column of [TRIP_FIELD_MAP] and has the type of the
    branch that converts the column: a date in a date column, an integer
    or [None] in an integer column, a float or [None] in a decimal column,
    a boolean in the boolean column, a string or [None] in a string
    column. *)
Theorem trip_decoding_is_typed (custom_fields : pydict) key v :
  map_trip_custom_fields custom_fields !! key = Some v ->
  exists field_key column,
    (field_key, column) ∈ TRIP_FIELD_MAP /\ key = KStr column
    /\ has_kind (trip_column_kind column) v.
Proof.
  unfold map_trip_custom_fields. intros Hl.
  apply (decoded_entry convert_trip_column TRIP_FIELD_MAP) in Hl
    as (k & c & value & Hin & -> & _ & _ & Hv).
  exists k, c. split; [exact Hin |]. split; [reflexivity |].
  exact (convert_has_kind _ _ _ Hv).
Qed.

Lemma passenger_kinds :
  Forall (fun c => passenger_column_kind c = Text
                   \/ (passenger_column_kind c = Date
                       /\ c ∈ ["passport_expire"; "form_submitted_date"]%string))
         PASSENGER_FIELD_MAP.*2.
Proof.
  unfold PASSENGER_FIELD_MAP. cbn [fmap list_fmap snd].
  repeat (apply Forall_cons; split;
          [first [left; vm_compute; reflexivity
                 | right; split; [vm_compute; reflexivity | set_solver]] |]).
  apply Forall_nil. done.
Qed.

(** X2.  Every entry that [map_passenger_custom_fields] returns is for a
    column of [PASSENGER_FIELD_MAP] and is a date, in one of the two date
    columns [passport_expire] and [form_submitted_date], or a string or
    [None], in a string column.  It is never a boolean: no mapped column
    reaches the boolean branch of the function (nor does [date_of_birth]
    reach the date branch). *)
Theorem passenger_decoding_is_typed (custom_fields : pydict) key v :
  map_passenger_custom_fields custom_fields !! key = Some v ->
  exists field_key column,
    (field_key, column) ∈ PASSENGER_FIELD_MAP /\ key = KStr column
    /\ match v with
       | PDate _ => column ∈ ["passport_expire"; "form_submitted_date"]%string
       | PStr _ | PNone => passenger_column_kind column = Text
       | _ => False
       end.
Proof.
  unfold map_passenger_custom_fields. intros Hl.
  apply (decoded_entry convert_passenger_column PASSENGER_FIELD_MAP) in Hl
    as (k & c & value & Hin & -> & _ & _ & Hv).
  exists k, c. split; [exact Hin |]. split; [reflexivity |].
  apply convert_has_kind in Hv.
  pose proof passenger_kinds as Hall. rewrite Forall_forall in Hall.
  destruct (Hall c) as [Ht | [Hd Hc]].
  { by apply (list_elem_of_fmap_2' snd PASSENGER_FIELD_MAP (k, c)). }
  - rewrite Ht in Hv |- *. by destruct v.
  - rewrite Hd in Hv. by destruct v.
Qed.

End Typed.

Lemma trip_decoding_is_typed_witness :
  exists field_key column,
    (field_key, column) ∈ TRIP_FIELD_MAP /\ KStr "max_passengers" = KStr column
    /\ has_kind (trip_column_kind column) (PInt 12).
Proof.
  apply (trip_decoding_is_typed (H := Host.host)
           {[ KStr "opportunity.maxpassengers" := PStr "12.7" ]}).
  vm_compute. reflexivity.
Defined.

Lemma passenger_decoding_is_typed_witness :
  exists field_key column,
    (field_key, column) ∈ PASSENGER_FIELD_MAP /\ KStr "passport_expire" = KStr column
    /\ column ∈ ["passport_expire"; "form_submitted_date"]%string.
Proof.
  apply (passenger_decoding_is_typed (H := Host.host)
           {[ KStr "opportunity.passportexpire" := PStr "2030-01-31" ]}
           (KStr "passport_expire") (PDate (mkdate 2030 1 31))).
  vm_compute. reflexivity.
Defined.

End TypedDecoding.

(** ** Decoding: [parse_ghl_custom_fields] *)

Module ParseFacts.
Import Py FieldMapping.

(** The entries that [parse_ghl_custom_fields] stores under [key]: dicts
    whose ['id'] is truthy and is that key. *)
Definition entry_for (key : pykey) (field : pyval) : bool :=
  match field with
  | PDict d => truthy (dict_get d "id") && bool_decide (key_of (dict_get d "id") = Some key)
  | _ => false
  end.

Definition field_value (field : pyval) : pyval :=
  match field with
  | PDict d => dict_get d "fieldValue"
  | _ => PNone
  end.

Lemma find_snoc {A} (f : A -> bool) (l : list A) (x : A) :
  find f (l ++ [x])
  = match find f l with
    | Some y => Some y
    | None => if f x then Some x else None
    end.
Proof.
  induction l as [| y l IH]; cbn; [done |].
  by destruct (f y).
Qed.

(** The entries that cannot be stored: a truthy ['id'] that is a list or a
    dict. *)
Definition unhashable_entry (field : pyval) : bool :=
  match field with
  | PDict d => truthy (dict_get d "id") && bool_decide (key_of (dict_get d "id") = None)
  | _ => false
  end.

Lemma parse_loop_lookup l (acc : pydict) :
  match parse_loop acc l with
  | Ok custom_fields =>
      Forall (fun field => unhashable_entry field = false) l
      /\ forall key,
           custom_fields !! key
           = match find (entry_for key) (rev l) with
             | Some field => Some (field_value field)
             | None => acc !! key
             end
  | Raise e =>
      e = TypeError "unhashable type"
      /\ Exists (fun field => unhashable_entry field = true) l
  end.
Proof.
  revert acc. induction l as [| field l IH]; intros acc.
  { cbn. split; [constructor | done]. }
  cbn [parse_loop rev].
  assert (forall acc',
    (unhashable_entry field = false) ->
    (forall key, acc' !! key
       = if entry_for key field then Some (field_value field) else acc !! key) ->
    match parse_loop acc' l with
    | Ok custom_fields =>
        Forall (fun field => unhashable_entry field = false) (field :: l)
        /\ forall key,
             custom_fields !! key
             = match find (entry_for key) (rev l ++ [field]) with
               | Some field => Some (field_value field)
               | None => acc !! key
               end
    | Raise e =>
        e = TypeError "unhashable type"
        /\ Exists (fun field => unhashable_entry field = true) (field :: l)
    end) as Hrest.
  { intros acc' Hfield Hacc'. specialize (IH acc').
    destruct (parse_loop acc' l) as [cf | e].
    - destruct IH as [Hall Hcf]. split; [by constructor |].
      intros key. rewrite Hcf, find_snoc.
      destruct (find (entry_for key) (rev l)); [done |].
      rewrite Hacc'. by destruct (entry_for key field).
    - destruct IH as [-> Hex]. split; [done | by apply Exists_cons_tl]. }
  unfold parse_step.
  destruct field as [| | | | | | | d]; try (apply Hrest; done).
  cbn [entry_for unhashable_entry field_value] in *.
  destruct (truthy (dict_get d "id")) eqn:Ht; cbn [andb] in *; [| apply Hrest; done].
  unfold dict_setitem.
  destruct (key_of (dict_get d "id")) as [k |] eqn:Hk.
  - apply Hrest; [done |].
    intros key. rewrite lookup_insert. case_decide as Hkey.
    + subst k. by rewrite bool_decide_eq_true_2.
    + rewrite bool_decide_eq_false_2; [done | congruence].
  - split; [done |]. apply Exists_cons_hd. cbn [unhashable_entry].
    rewrite Ht, Hk. done.
Qed.

(** X3.  [parse_ghl_custom_fields] on a list either stores every entry, and
    then the value found under a key is the ['fieldValue'] of the last
    dict entry whose truthy ['id'] is that key ([None] when the entry has
    no ['fieldValue']), entries that are not dicts or have a falsy id
    being skipped; or it raises [TypeError], which happens exactly when
    some entry has a truthy id that cannot be hashed.  Anything that is
    not a list gives the empty dict. *)
Theorem parse_last_entry_wins (custom_fields_list : pyval) :
  match custom_fields_list, parse_ghl_custom_fields custom_fields_list with
  | PList l, Ok custom_fields =>
      Forall (fun field => unhashable_entry field = false) l
      /\ forall key,
           custom_fields !! key = field_value <$> find (entry_for key) (rev l)
  | PList l, Raise e =>
      e = TypeError "unhashable type"
      /\ Exists (fun field => unhashable_entry field = true) l
  | _, r => r = Ok ∅
  end.
Proof.
  destruct custom_fields_list as [| | | | | | l |]; try done.
  unfold parse_ghl_custom_fields.
  pose proof (parse_loop_lookup l ∅) as Hl.
  destruct (parse_loop ∅ l) as [cf | e]; [| done].
  destruct Hl as [Hall Hcf]. split; [done |].
  intros key. rewrite Hcf. by destruct (find _ _).
Qed.

(** Two entries with one id: the later value is the one kept. *)
Example later_entry_overrides :
  match parse_ghl_custom_fields
          (PList [ PDict {[ KStr "id" := PStr "fld_1"; KStr "fieldValue" := PStr "first" ]};
                   PInt 7;
                   PDict {[ KStr "id" := PStr "fld_1"; KStr "fieldValue" := PStr "second" ]} ])
  with
  | Ok custom_fields => custom_fields !! KStr "fld_1" = Some (PStr "second")
  | Raise _ => False
  end.
Proof. vm_compute. reflexivity. Qed.

End ParseFacts.

(** ** Encoding: the two encoders of a trip *)

Module PushFacts.
Import Py FieldMapping CodecFacts.

Section Push.
Context `{PyRuntime}.

(** Every entry of the payload built by [push_trip_to_ghl] comes from a
    column of the reversed map. *)
Lemma push_fold_keys (trip : pydict) (rev : gmap string string) key v :
  map_fold (TwoWaySync.push_step trip) ∅ rev !! key = Some v ->
  exists column field_key, key = KStr field_key /\ rev !! column = Some field_key.
Proof.
  revert key v.
  apply (map_fold_weak_ind (fun acc (m : gmap string string) => forall key v,
    acc !! key = Some v ->
    exists column field_key, key = KStr field_key /\ m !! column = Some field_key)).
  { intros key v. by rewrite lookup_empty. }
  intros i x m acc Hi IH key v. unfold TwoWaySync.push_step.
  assert (acc !! key = Some v ->
    exists column field_key, key = KStr field_key /\ <[i:=x]> m !! column = Some field_key)
    as Hold.
  { intros (c & fk & -> & Hc)%IH. exists c, fk. split; [done |].
    rewrite lookup_insert_ne; [done |]. intros ->. congruence. }
  destruct (is_None _); [done |].
  rewrite lookup_insert. case_decide as Hk; [| done].
  intros _. exists i, x. split; [done |]. by rewrite lookup_insert_eq.
Qed.

(** X4.  The custom-field payload that [push_trip_to_ghl] builds inline
    for a trip is the one that [create_ghl_custom_fields_dict] returns for
    the attribute values of the trip and [TRIP_FIELD_MAP]: the two
    encoders agree on every trip. *)
Theorem push_trip_payload_is_create_payload (trip : pydict) :
  TwoWaySync.push_trip_custom_fields trip
  = create_ghl_custom_fields_dict trip TRIP_FIELD_MAP.
Proof.
  apply map_eq. intros key.
  assert (forall field_key column,
    reverse_map TRIP_FIELD_MAP !! column = Some field_key ->
    TwoWaySync.push_trip_custom_fields trip !! KStr field_key
    = create_ghl_custom_fields_dict trip TRIP_FIELD_MAP !! KStr field_key) as Hmapped.
  { intros fk c Hrev. pose proof (reverse_map_elem _ _ _ Hrev) as Hin.
    rewrite (push_lookup trip c fk Hin).
    rewrite (create_lookup trip TRIP_FIELD_MAP c fk trip_keys_distinct Hrev).
    - unfold pushed_value, dict_get. by destruct (trip !! KStr c).
    - exact (EncodeClaims.trip_keys_nonempty fk c Hin). }
  destruct (TwoWaySync.push_trip_custom_fields trip !! key) as [v |] eqn:Hpush.
  - unfold TwoWaySync.push_trip_custom_fields in Hpush.
    pose proof (push_fold_keys _ _ _ _ Hpush) as (c & fk & -> & Hrev).
    rewrite <- (Hmapped fk c Hrev). exact (eq_sym Hpush).
  - destruct (create_ghl_custom_fields_dict trip TRIP_FIELD_MAP !! key) as [v |] eqn:Hcreate;
      [| reflexivity].
    pose proof (create_keys _ _ _ _ Hcreate) as (c & fk & x & -> & Hrev & _).
    rewrite (Hmapped fk c Hrev) in Hpush. congruence.
Qed.

End Push.
End PushFacts.

(** ** The pull of the custom-field definitions *)

Module CustomFieldFacts.
Import Py GhlSync Scenario.

#[local] Set Warnings "-clear-no-such-hyp".

(** Counting the elements of a list that are not in a set, without
    repetition. *)
Lemma size_new_cons (g : string) (l : list string) (S : gset string) :
  size ((list_to_set (g :: l) : gset string) ∖ S)
  = ((if bool_decide (g ∈ S) then 0 else 1)
     + size ((list_to_set l : gset string) ∖ ({[g]} ∪ S)))%nat.
Proof.
  cbn [list_to_set]. case_bool_decide as Hg.
  - cbn. f_equal. set_solver.
  - assert (({[g]} ∪ list_to_set l) ∖ S
            = {[g]} ∪ (list_to_set l : gset string) ∖ ({[g]} ∪ S)) as ->.
    { apply set_eq. intros x. destruct (decide (x = g)); set_solver. }
    rewrite size_union by set_solver. by rewrite size_singleton.
Qed.

Section Counts.
Context `{PyRuntime} `{SyncEnv}.

(** The group ids and the field ids that count: those that are truthy. *)
Definition group_ids (fields_data : list field_data) : list string :=
  omap (fun fd => truthy_id (fd_groupId fd)) fields_data.
Definition field_ids (fields_data : list field_data) : list string :=
  omap (fun fd => truthy_id (fd_id fd)) fields_data.

Lemma upsert_field_counts acc fd :
  fa_groups_seen (upsert_field acc fd)
  = match truthy_id (fd_groupId fd) with
    | Some g => {[g]} ∪ fa_groups_seen acc
    | None => fa_groups_seen acc
    end
  /\ fa_group_count (upsert_field acc fd)
     = fa_group_count acc
       + match truthy_id (fd_groupId fd) with
         | Some g => if bool_decide (g ∈ fa_groups_seen acc) then 0 else 1
         | None => 0
         end
  /\ fa_field_count (upsert_field acc fd)
     = fa_field_count acc + match truthy_id (fd_id fd) with Some _ => 1 | None => 0 end.
Proof.
  unfold upsert_field.
  destruct (truthy_id (fd_groupId fd)) as [g |].
  - case_bool_decide as Hg.
    + destruct (truthy_id (fd_id fd)); cbn; repeat split; try lia.
      all: apply set_eq; intros x; rewrite elem_of_union, elem_of_singleton;
        split; [by right | intros [-> | ?]; done].
    + destruct (truthy_id (fd_id fd)); cbn; repeat split; lia.
  - destruct (truthy_id (fd_id fd)); cbn; repeat split; lia.
Qed.

Lemma fold_upsert_field_counts fields_data acc :
  fa_groups_seen (fold_left upsert_field fields_data acc)
  = list_to_set (group_ids fields_data) ∪ fa_groups_seen acc
  /\ fa_group_count (fold_left upsert_field fields_data acc)
     = fa_group_count acc
       + Z.of_nat (size ((list_to_set (group_ids fields_data) : gset string)
                         ∖ fa_groups_seen acc))
  /\ fa_field_count (fold_left upsert_field fields_data acc)
     = fa_field_count acc + Z.of_nat (length (field_ids fields_data)).
Proof.
  revert acc. induction fields_data as [| fd rest IH]; intros acc; cbn [fold_left].
  { cbn. rewrite union_empty_l_L, difference_disjoint_L by apply disjoint_empty_l.
    rewrite size_empty. repeat split; lia. }
  destruct (IH (upsert_field acc fd)) as (Hs & Hg & Hf).
  destruct (upsert_field_counts acc fd) as (Hs1 & Hg1 & Hf1).
  rewrite Hs, Hg, Hf, Hs1, Hg1, Hf1.
  unfold group_ids, field_ids. cbn [omap list_omap].
  destruct (truthy_id (fd_groupId fd)) as [g |]; cbn [option_list app].
  - fold (group_ids rest). rewrite size_new_cons. cbn [list_to_set].
    split; [by rewrite (assoc_L (∪)), (comm_L (∪) _ {[g]}) |].
    split; [case_bool_decide; lia |].
    destruct (truthy_id (fd_id fd)); cbn [length]; lia.
  - fold (group_ids rest). split; [done |]. split; [lia |].
    destruct (truthy_id (fd_id fd)); cbn [length]; lia.
Qed.

(** X5.  When the CRM lists the custom fields and the database accepts
    the commit, [sync_custom_fields] returns the number of distinct truthy
    group ids as the group count (a group is written once, however many
    fields it has) and the number of fields that have a truthy id as the
    field count, and commits what it wrote. *)
Theorem sync_custom_fields_counts (fields_data : list field_data) (s : session) :
  api_get_custom_fields = Ok fields_data ->
  let acc := fold_left upsert_field fields_data
    {| fa_db := pending s; fa_groups_seen := ∅; fa_group_count := 0; fa_field_count := 0 |} in
  db_accepts (fa_db acc) = true ->
  sync_custom_fields s
  = (Returned (Z.of_nat (size (list_to_set (group_ids fields_data) : gset string)),
               Z.of_nat (length (field_ids fields_data))),
     {| committed := fa_db acc; pending := fa_db acc |}).
Proof.
  intros Hapi acc Hacc. unfold sync_custom_fields. rewrite Hapi.
  unfold mbind, M_bind, mret, M_ret, read, update, call, commit. cbn.
  fold acc. rewrite Hacc.
  destruct (fold_upsert_field_counts fields_data
    {| fa_db := pending s; fa_groups_seen := ∅; fa_group_count := 0; fa_field_count := 0 |})
    as (_ & Hg & Hf).
  fold acc in Hg, Hf. rewrite Hg, Hf. cbn [fa_group_count fa_field_count fa_groups_seen].
  rewrite difference_disjoint_L by apply disjoint_empty_r. done.
Qed.

End Counts.

(** Three fields, two of them in one group, one without an id. *)
Definition grouped_fields : SyncEnv := {|
  api_get_pipelines := Ok [];
  api_get_custom_fields :=
    Ok [ {| fd_id := Some "fld_1"; fd_groupId := Some "grp_1"; fd_json := ∅ |};
         {| fd_id := Some "fld_2"; fd_groupId := Some "grp_1"; fd_json := ∅ |};
         {| fd_id := None; fd_groupId := Some "grp_2"; fd_json := ∅ |} ]%string;
  api_get_contacts := fun _ _ => Raise transport_error;
  api_search_opportunities := fun _ _ _ => Ok {| or_opportunities := []; or_total := 0 |};
  vendor_service_init := Ok tt;
  api_vendor_options := Ok [];
  db_accepts := fun _ => true;
  today := mkdate 2026 11 4;
  utcnow := 0;
  Trip_from_ghl_opportunity := fun opp_data => Ok (bare_trip opp_data);
  Trip_update_from_ghl := fun trip _ => (trip, None);
  Passenger_from_ghl_opportunity := fun _ => Raise (PyException "no passenger");
  Passenger_update_from_ghl := fun passenger _ => (passenger, None);
|}.

Lemma sync_custom_fields_counts_witness :
  fst (@sync_custom_fields grouped_fields fresh_session) = Returned (2, 2).
Proof.
  erewrite (@sync_custom_fields_counts grouped_fields _ fresh_session); [| reflexivity..].
  vm_compute. reflexivity.
Defined.

End CustomFieldFacts.

(** ** The bulk pull of passengers *)

Module PassengerPullFacts.
Import Py GhlSync Scenario.

Section Passengers.
Context `{PyRuntime} `{SyncEnv}.

(** The opportunity is skipped by the loop: it lacks an id or a contact
    id, or its contact is not in the local [contacts] table. *)
Definition skipped (db : Db) (opp_data : opportunity) : Prop :=
  match truthy_id (opp_id opp_data), truthy_id (opp_contactId opp_data) with
  | Some _, Some contact_id => query_get "contacts" contact_id db = None
  | _, _ => True
  end.

(** What the passenger loop leaves alone. *)
Definition same_but_passengers (db db' : Db) : Prop :=
  keyed db' = keyed db /\ trips db' = trips db
  /\ trip_vendors db' = trip_vendors db /\ sync_logs db' = sync_logs db.

Lemma upsert_passenger_frame opp_data s :
  committed (snd (upsert_passenger opp_data s)) = committed s
  /\ same_but_passengers (pending s) (pending (snd (upsert_passenger opp_data s))).
Proof.
  unfold upsert_passenger, same_but_passengers.
  destruct (truthy_id (opp_id opp_data)) as [id |]; [| done].
  destruct (truthy_id (opp_contactId opp_data)) as [cid |]; [| done].
  unfold mbind, M_bind, mret, M_ret, read, update, finish, call, raise. cbn.
  destruct (query_get "contacts" cid (pending s)); [| done].
  destruct (passengers (pending s) !! id) as [p |].
  - destruct (Passenger_update_from_ghl p opp_data) as [p' [e |]]; done.
  - destruct (Passenger_from_ghl_opportunity opp_data); done.
Qed.

(** X6.  In the pull of passengers, (1) a page whose opportunities all
    lack an id or a contact id, or name a contact that is not in the local
    [contacts] table, counts nothing and leaves the session as it was;
    and (2) whatever the page holds, the loop over it commits nothing and
    writes to the [passengers] table only: contacts, trips, vendors and
    the sync log are as before. *)
Theorem passengers_without_local_contact_are_skipped
    (opportunities_data : list opportunity) (count : Z) (s : session) :
  (Forall (skipped (pending s)) opportunities_data ->
   for_counting upsert_passenger opportunities_data count s = ((count, None), s))
  /\ committed (snd (for_counting upsert_passenger opportunities_data count s)) = committed s
  /\ same_but_passengers (pending s)
       (pending (snd (for_counting upsert_passenger opportunities_data count s))).
Proof.
  split; [| revert count s; induction opportunities_data as [| opp rest IH]; intros count s].
  - revert count. induction opportunities_data as [| opp rest IH]; intros count Hall; [done |].
    apply Forall_cons in Hall as [Hopp Hall]. cbn [for_counting].
    assert (upsert_passenger opp s = (Returned false, s)) as ->.
    { unfold upsert_passenger, skipped in *.
      destruct (truthy_id (opp_id opp)) as [id |]; [| done].
      destruct (truthy_id (opp_contactId opp)) as [cid |]; [| done].
      unfold mbind, M_bind, mret, M_ret, read. cbn. by rewrite Hopp. }
    by apply IH.
  - done.
  - cbn [for_counting].
    destruct (upsert_passenger_frame opp s) as (Hc & Hk & Ht & Hv & Hl).
    destruct (upsert_passenger opp s) as [[counted | e |] s1]; cbn in *; try done.
    destruct (IH (if counted then count + 1 else count) s1) as (Hc' & Hk' & Ht' & Hv' & Hl').
    unfold same_but_passengers. repeat split; congruence.
Qed.

End Passengers.

(** A passenger opportunity whose contact was never pulled. *)
Definition orphan_passenger : opportunity :=
  {| opp_id := Some "opp_9"; opp_contactId := Some "contact_9"; opp_json := ∅ |}.

Lemma passengers_without_local_contact_are_skipped_witness :
  @for_counting opportunity (@upsert_passenger contacts_down) [orphan_passenger] 0 fresh_session
  = ((0, None), fresh_session).
Proof.
  apply (proj1 (@passengers_without_local_contact_are_skipped
                  contacts_down [orphan_passenger] 0 fresh_session)).
  apply Forall_cons. split; [| apply Forall_nil; exact I].
  vm_compute. reflexivity.
Defined.

End PassengerPullFacts.

(** ** The import of vendors *)

Module VendorFacts.
Import Py GhlSync.



End VendorFacts.

(** ** The CRM client: the outcomes of [_make_request] *)

Module ClientFacts.
Import Py GhlApi.

(** X8.  (1) On a response with status 200, 201, 202 or 204,
    [_make_request] returns, whatever the body: the decoded body, the
    text wrapped with [success] when the body is not JSON, and
    [{"success": True}] when the body is empty.  (2) It returns only on
    such a response.  (3) Where the decode error of [response.json()] is a
    [RequestException], every exception that leaves [_make_request] is a
    [GoHighLevelAPIError]; it carries the status code exactly when a
    response arrived whose body is empty or is JSON. *)
Theorem make_request_outcomes (flag : bool) (t : transport) :
  (forall r, t = Responded r -> status_code r ∈ [200; 201; 202; 204] ->
     _make_request flag t
     = Ok (if String.eqb (text r) "" then PDict success_sentinel
           else match json r with
                | JsonValue v => v
                | NotJson _ => PDict (<[KStr "content" := PStr (text r)]> success_sentinel)
                end))
  /\ (forall v, _make_request flag t = Ok v ->
        exists r, t = Responded r /\ status_code r ∈ [200; 201; 202; 204])
  /\ (forall e, _make_request true t = Raise e ->
        exists message status response_data,
          e = GoHighLevelAPIError message status response_data
          /\ (is_Some status <->
              exists r, t = Responded r /\ status = Some (status_code r)
                /\ (text r = ""%string \/ exists v, json r = JsonValue v))).
Proof.
  split; [| split].
  - intros r -> Hs. unfold _make_request. rewrite bool_decide_eq_true_2 by done.
    destruct (String.eqb (text r) ""); cbn [negb]; [done |]. by destruct (json r).
  - intros v. unfold _make_request. destruct t as [r | msg]; [| done].
    case_bool_decide as Hs; [intros _; exists r; split; [reflexivity | exact Hs] |].
    destruct (negb _); [| done]. destruct (json r); [done | by destruct flag].
  - intros e. unfold _make_request. destruct t as [r | msg].
    + case_bool_decide as Hs.
      { destruct (negb _); [| done]. by destruct (json r). }
      destruct (String.eqb_spec (text r) "") as [Ht | Ht]; cbn [negb].
      * intros [= <-]. do 3 eexists. split; [done |]. split; [| by eauto].
        intros _. exists r. eauto.
      * destruct (json r) as [v | msg] eqn:Hj.
        -- intros [= <-]. do 3 eexists. split; [done |]. split; [| by eauto].
           intros _. exists r. eauto.
        -- intros [= <-]. do 3 eexists. split; [done |]. split; [by intros [? ?] |].
           intros (r' & [= <-] & _ & [? | [v ?]]); congruence.
    + intros [= <-]. do 3 eexists. split; [done |]. split; [by intros [? ?] |].
      by intros (r' & ? & _).
Qed.

Lemma make_request_outcomes_witness :
  _make_request true (Responded {| status_code := 204; text := ""; json := NotJson "" |})
  = Ok (PDict success_sentinel).
Proof.
  apply (proj1 (make_request_outcomes true
           (Responded {| status_code := 204; text := ""; json := NotJson "" |}))
         {| status_code := 204; text := ""; json := NotJson "" |} eq_refl).
  apply (bool_decide_unpack _). by vm_compute.
Defined.

End ClientFacts.

(** ** The static tables *)

Module StaticTables.
Import Py FieldMapping BuildFieldMaps.

(** The data-type names of [FIELD_KEY_TO_TABLE], by the branch of the
    decoders that handles such a column. *)
Definition data_type_of (k : kind) : string :=
  match k with
  | Date => "date"
  | Integer => "integer"
  | Decimal => "decimal"
  | Boolean => "boolean"
  | Text => "string"
  end.

Definition types_agree (entry : string * (string * string * string)) : bool :=
  let '(_, (table, column, data_type)) := entry in
  if String.eqb table "trips" then String.eqb (data_type_of (trip_column_kind column)) data_type
  else if String.eqb table "passengers"
       then String.eqb (data_type_of (passenger_column_kind column)) data_type
  else false.

(** X9.  The static table of [build_field_maps.py] and the decoders of
    [field_mapping.py] agree on the type of every column: each entry of
    [FIELD_KEY_TO_TABLE] names the table [trips] or [passengers], and its
    data type is the one of the branch by which [map_trip_custom_fields],
    respectively [map_passenger_custom_fields], converts that column. *)
Theorem static_types_agree field_key table column data_type :
  table_lookup field_key = Some (table, column, data_type) ->
  (table = "trips"%string /\ data_type_of (trip_column_kind column) = data_type)
  \/ (table = "passengers"%string
      /\ data_type_of (passenger_column_kind column) = data_type).
Proof.
  unfold table_lookup. intros (e & Hfind & He)%fmap_Some.
  apply find_some in Hfind as [Hin _].
  assert (Forall (fun e => types_agree e = true) FIELD_KEY_TO_TABLE) as Hall.
  { apply (bool_decide_unpack _). by vm_compute. }
  rewrite Forall_forall in Hall. apply list_elem_of_In in Hin. specialize (Hall e Hin).
  destruct e as [k [[tb c] ty]]. cbn in He. injection He as Ht Hc Hty. subst tb c ty.
  unfold types_agree in Hall.
  destruct (String.eqb_spec table "trips") as [-> | _].
  - left. split; [done |]. by apply String.eqb_eq.
  - destruct (String.eqb_spec table "passengers") as [-> | _]; [| done].
    right. split; [done |]. by apply String.eqb_eq.
Qed.

Lemma static_types_agree_witness :
  ("passengers" = "trips" /\ data_type_of (trip_column_kind "passport_expire") = "date")%string
  \/ ("passengers" = "passengers"
      /\ data_type_of (passenger_column_kind "passport_expire") = "date")%string.
Proof.
  apply (static_types_agree "opportunity.passport_expire").
  vm_compute. reflexivity.
Defined.

End StaticTables.

(** ** The bulk pull of contacts *)

Module ContactPullFacts.
Import Py GhlSync Scenario.

Section Pull.
Context `{PyRuntime} `{SyncEnv}.




End Pull.



End ContactPullFacts.

(** ** The full sync: a run that returns *)

Module FullSyncSuccess.
Import Py GhlSync Scenario FullSyncClaims.

#[local] Ltac run :=
  unfold mbind, M_bind, mret, M_ret, read, update, update_log, finish, call, raise,
    out_of_fuel;
  cbn.

Section Success.
Context `{PyRuntime} `{SyncEnv}.

(** The sync log of the session, pending and committed. *)
Definition logs_are (L : list SyncLog) (s : session) : Prop :=
  sync_logs (pending s) = L /\ sync_logs (committed s) = L.

(** A computation that leaves the sync log alone. *)
Definition keeps_logs {A} (m : M A) : Prop :=
  forall L s, logs_are L s -> logs_are L (snd (m s)).

Lemma commit_keeps_logs : keeps_logs commit.
Proof.
  intros L s [Hp Hc]. unfold commit. by destruct (db_accepts (pending s)).
Qed.

Lemma rollback_keeps_logs : keeps_logs rollback.
Proof. intros L s [Hp Hc]. by unfold rollback. Qed.

Lemma commit_or_rollback_keeps_logs : keeps_logs commit_or_rollback.
Proof.
  intros L s [Hp Hc]. unfold commit_or_rollback, try_except, commit, rollback.
  by destruct (db_accepts (pending s)).
Qed.

Lemma update_keeps_logs (f : Db -> Db) :
  (forall db, sync_logs (f db) = sync_logs db) -> keeps_logs (update f).
Proof. intros Hf L s [Hp Hc]. unfold update. split; cbn; [by rewrite Hf | done]. Qed.

Lemma bind_keeps_logs {A B} (m : M A) (k : A -> M B) :
  keeps_logs m -> (forall a, keeps_logs (k a)) -> keeps_logs (m ≫= k).
Proof.
  intros Hm Hk L s Hs. unfold mbind, M_bind. specialize (Hm L s Hs).
  destruct (m s) as [[a | e |] s1]; cbn in *; [by apply Hk | done | done].
Qed.

Lemma ret_keeps_logs {A} (a : A) : keeps_logs (mret a).
Proof. by intros L s Hs. Qed.

Lemma raise_keeps_logs {A} (e : pyexn) : keeps_logs (@raise A e).
Proof. by intros L s Hs. Qed.

Lemma call_keeps_logs {A} (r : result A) : keeps_logs (call r).
Proof. destruct r; [apply ret_keeps_logs | apply raise_keeps_logs]. Qed.

Lemma try_keeps_logs {A} (m : M A) (h : pyexn -> M A) :
  keeps_logs m -> (forall e, keeps_logs (h e)) -> keeps_logs (try_except m h).
Proof.
  intros Hm Hh L s Hs. unfold try_except. specialize (Hm L s Hs).
  destruct (m s) as [[a | e |] s1]; cbn in *; [done | by apply Hh | done].
Qed.

Lemma fold_sync_logs {A} (f : Db -> A -> Db) (l : list A) db :
  (forall d x, sync_logs (f d x) = sync_logs d) ->
  sync_logs (fold_left f l db) = sync_logs db.
Proof.
  intros Hf. revert db. induction l as [| x l IH]; intros db; [done |].
  cbn [fold_left]. by rewrite IH, Hf.
Qed.

Lemma sync_pipelines_keeps_logs : keeps_logs sync_pipelines.
Proof.
  unfold sync_pipelines.
  apply bind_keeps_logs; [apply call_keeps_logs |]. intros pds.
  apply bind_keeps_logs.
  { apply update_keeps_logs. intros db. apply upsert_pipelines_keeps. }
  intros _. apply bind_keeps_logs; [apply commit_keeps_logs |].
  intros _. apply ret_keeps_logs.
Qed.

Lemma upsert_field_sync_logs acc fd :
  sync_logs (fa_db (upsert_field acc fd)) = sync_logs (fa_db acc).
Proof.
  unfold upsert_field.
  destruct (truthy_id (fd_groupId fd)) as [g |]; [case_bool_decide |];
    destruct (truthy_id (fd_id fd)); done.
Qed.

Lemma sync_custom_fields_keeps_logs : keeps_logs sync_custom_fields.
Proof.
  unfold sync_custom_fields.
  apply bind_keeps_logs; [apply call_keeps_logs |]. intros fds.
  intros L s [Hp Hc]. run.
  assert (forall acc, sync_logs (fa_db (fold_left upsert_field fds acc))
                      = sync_logs (fa_db acc)) as Hfold.
  { induction fds as [| fd fds IH]; intros acc; [done |].
    cbn [fold_left]. by rewrite IH, upsert_field_sync_logs. }
  unfold commit. cbn [pending committed].
  destruct (db_accepts _); split; cbn; rewrite ?Hfold; done.
Qed.

Lemma upsert_contact_sync_logs acc c :
  sync_logs (upsert_contact acc c).1 = sync_logs acc.1.
Proof.
  unfold upsert_contact. destruct acc as [db n].
  by destruct (truthy_id (cd_id c)).
Qed.

Lemma sync_contacts_loop_keeps_logs fuel limit contact_count start_after_id start_after :
  keeps_logs (sync_contacts_loop fuel limit contact_count start_after_id start_after).
Proof.
  revert contact_count start_after_id start_after.
  induction fuel as [| fuel IH]; intros contact_count start_after_id start_after L s Hs;
    [done |].
  cbn [sync_contacts_loop].
  destruct (api_get_contacts _ _) as [response | e']; [| done].
  destruct (cr_contacts response) as [| c rest]; [done |].
  run.
  assert (forall l acc, sync_logs (fold_left upsert_contact l acc).1 = sync_logs acc.1)
    as Hfold.
  { induction l as [| x l IHl]; intros acc; [done |].
    cbn [fold_left]. by rewrite IHl, upsert_contact_sync_logs. }
  specialize (Hfold rest (upsert_contact (pending s, contact_count) c)).
  rewrite upsert_contact_sync_logs in Hfold. cbn [fst] in Hfold.
  destruct (fold_left upsert_contact rest _) as [db' count']. cbn [fst] in Hfold.
  run.
  assert (logs_are L {| committed := committed s; pending := db' |}) as Hs1.
  { destruct Hs as [Hp Hc]. split; cbn; congruence. }
  pose proof (commit_or_rollback_keeps_logs L _ Hs1) as Hs2.
  pose proof (commit_or_rollback_returns
    {| committed := committed s; pending := db' |}) as Hret.
  destruct (commit_or_rollback _) as [[[] | |] s1]; cbn in Hret, Hs2; try done.
  destruct (_ || _); [done |].
  destruct (_ <=? _); [done |]. by apply IH.
Qed.

Lemma store_trip_keeps_logs i trip : keeps_logs (store_trip i trip).
Proof. apply update_keeps_logs. done. Qed.

Lemma finish_keeps_logs r : keeps_logs (finish r).
Proof. destruct r; [apply raise_keeps_logs | apply ret_keeps_logs]. Qed.

Lemma read_keeps_logs : keeps_logs read.
Proof. by intros L s Hs. Qed.

Lemma upsert_trip_keeps_logs opp_data : keeps_logs (upsert_trip opp_data).
Proof.
  unfold upsert_trip.
  destruct (truthy_id (opp_id opp_data)) as [id |]; [| apply ret_keeps_logs].
  apply bind_keeps_logs; [apply read_keeps_logs |]. intros db.
  destruct (find_trip id db) as [[i trip] |].
  - destruct (Trip_update_from_ghl trip opp_data) as [trip1 r1].
    apply bind_keeps_logs; [apply store_trip_keeps_logs |]. intros _.
    apply bind_keeps_logs; [apply finish_keeps_logs |]. intros _.
    destruct (ensure_required_defaults trip1) as [trip2 r2].
    apply bind_keeps_logs; [apply store_trip_keeps_logs |]. intros _.
    apply bind_keeps_logs; [apply finish_keeps_logs |]. intros _.
    apply ret_keeps_logs.
  - apply bind_keeps_logs; [apply call_keeps_logs |]. intros trip.
    destruct (ensure_required_defaults trip) as [trip2 r2].
    apply bind_keeps_logs; [apply finish_keeps_logs |]. intros _.
    apply bind_keeps_logs; [by apply update_keeps_logs |]. intros _.
    apply ret_keeps_logs.
Qed.

Lemma upsert_passenger_keeps_logs opp_data : keeps_logs (upsert_passenger opp_data).
Proof.
  unfold upsert_passenger.
  destruct (truthy_id (opp_id opp_data)) as [id |]; [| apply ret_keeps_logs].
  destruct (truthy_id (opp_contactId opp_data)) as [cid |]; [| apply ret_keeps_logs].
  apply bind_keeps_logs; [apply read_keeps_logs |]. intros db.
  destruct (query_get "contacts" cid db); [| apply ret_keeps_logs].
  destruct (passengers db !! id) as [p |].
  - destruct (Passenger_update_from_ghl p opp_data) as [p' r].
    apply bind_keeps_logs; [by apply update_keeps_logs |]. intros _.
    apply bind_keeps_logs; [apply finish_keeps_logs |]. intros _.
    apply ret_keeps_logs.
  - apply bind_keeps_logs; [apply call_keeps_logs |]. intros p.
    apply bind_keeps_logs; [by apply update_keeps_logs |]. intros _.
    apply ret_keeps_logs.
Qed.

Lemma for_counting_keeps_logs {A} (body : A -> M bool) (l : list A) count L s :
  (forall x, keeps_logs (body x)) -> logs_are L s ->
  logs_are L (snd (for_counting body l count s)).
Proof.
  intros Hbody. revert count s. induction l as [| x l IH]; intros count s Hs; [done |].
  cbn [for_counting]. specialize (Hbody x L s Hs).
  destruct (body x s) as [[counted | e |] s1]; cbn in *; [by apply IH | done | done].
Qed.

Lemma sync_trips_loop_keeps_logs fuel limit page trip_count :
  keeps_logs (sync_trips_loop fuel limit page trip_count).
Proof.
  revert page trip_count.
  induction fuel as [| fuel IH]; intros page trip_count L s Hs; [done |].
  cbn [sync_trips_loop].
  destruct (api_search_opportunities _ _ _) as [response | e']; [| done].
  destruct (or_opportunities response) as [| o rest]; [done |].
  unfold sync_trips_page.
  pose proof (for_counting_keeps_logs upsert_trip (o :: rest) trip_count L s
                upsert_trip_keeps_logs Hs) as Hs1.
  destruct (for_counting upsert_trip (o :: rest) trip_count s) as [[count' [e |]] s1];
    cbn in *; [done |].
  pose proof (commit_or_rollback_keeps_logs L s1 Hs1) as Hs2.
  destruct (_ || _); [done | by apply IH].
Qed.

Lemma sync_passengers_loop_keeps_logs fuel limit page passenger_count :
  keeps_logs (sync_passengers_loop fuel limit page passenger_count).
Proof.
  revert page passenger_count.
  induction fuel as [| fuel IH]; intros page passenger_count L s Hs; [done |].
  cbn [sync_passengers_loop].
  destruct (api_search_opportunities _ _ _) as [response | e']; [| done].
  destruct (or_opportunities response) as [| o rest]; [done |].
  pose proof (for_counting_keeps_logs upsert_passenger (o :: rest) passenger_count L s
                upsert_passenger_keeps_logs Hs) as Hs1.
  destruct (for_counting upsert_passenger (o :: rest) passenger_count s)
    as [[count' [e |]] s1]; cbn in *; [done |].
  pose proof (commit_or_rollback_keeps_logs L s1 Hs1) as Hs2.
  destruct (_ <? _); [done | by apply IH].
Qed.

Lemma import_vendor_sync_logs acc o :
  sync_logs (import_vendor acc o).1 = sync_logs acc.1.
Proof.
  unfold import_vendor. destruct acc as [db n].
  destruct (_ || _); [done |]. by case_bool_decide.
Qed.

Lemma sync_vendors_keeps_logs : keeps_logs sync_vendors_from_ghl.
Proof.
  unfold sync_vendors_from_ghl. apply try_keeps_logs.
  - apply bind_keeps_logs; [apply call_keeps_logs |]. intros options.
    destruct options as [| o rest]; [apply ret_keeps_logs |].
    intros L s [Hp Hc]. run.
    assert (forall l acc, sync_logs (fold_left import_vendor l acc).1 = sync_logs acc.1)
      as Hfold.
    { induction l as [| x l IHl]; intros acc; [done |].
      cbn [fold_left]. by rewrite IHl, import_vendor_sync_logs. }
    specialize (Hfold rest (import_vendor (pending s, 0) o)).
    rewrite import_vendor_sync_logs in Hfold. cbn [fst] in Hfold.
    destruct (fold_left import_vendor rest _) as [db' n']. cbn [fst] in Hfold.
    run. unfold commit. cbn [pending committed].
    destruct (db_accepts db'); split; cbn; congruence.
  - intros e. apply bind_keeps_logs; [apply rollback_keeps_logs |]. intros _.
    apply raise_keeps_logs.
Qed.

(** The row of a run that returned, with the number of records it
    counted. *)
Definition success_log (n : Z) : SyncLog :=
  {| sync_type := "full"; status := "success"; records_synced := n;
     errors := []; started_at := utcnow; completed_at := Some utcnow |}.

(** The stages of the run between the creation of the log row and its
    completion; [log] is the position of the row. *)
Definition stages (fuel : nat) (log : nat) : M results :=
  '(pipelines, stages) ← sync_pipelines;
  '(groups, fields) ← sync_custom_fields;
  contacts ← sync_contacts fuel 100;
  trips ← sync_trip_opportunities fuel 100;
  vendors ← try_except (call vendor_service_init;; sync_vendors_from_ghl)
                       (fun _ => mret 0);
  passengers ← sync_passenger_opportunities fuel 100;
  let results :=
    {| r_pipelines := pipelines; r_stages := stages; r_groups := groups;
       r_fields := fields; r_contacts := contacts; r_trips := trips;
       r_passengers := passengers; r_vendors := vendors |} in
  update_log log (log_success (results_sum results));;
  commit;;
  mret results.

Lemma stages_returned fuel log L s r s' :
  logs_are (L ++ [new_sync_log]) s -> log = length L ->
  stages fuel log s = (Returned r, s') ->
  sync_logs (committed s') = L ++ [success_log (results_sum r)]
  /\ pending s' = committed s'.
Proof.
  intros Hs -> Hrun. unfold stages in Hrun.
  unfold mbind at 1, M_bind at 1 in Hrun.
  pose proof (sync_pipelines_keeps_logs _ s Hs) as Hs1.
  destruct (sync_pipelines s) as [[[pipelines stgs] | e |] s1]; cbn in Hs1; try done.
  unfold mbind at 1, M_bind at 1 in Hrun.
  pose proof (sync_custom_fields_keeps_logs _ s1 Hs1) as Hs2.
  destruct (sync_custom_fields s1) as [[[groups fields] | e |] s2]; cbn in Hs2; try done.
  unfold mbind at 1, M_bind at 1 in Hrun.
  pose proof (sync_contacts_loop_keeps_logs fuel 100 0 PNone PNone _ s2 Hs2) as Hs3.
  unfold sync_contacts in Hrun.
  destruct (sync_contacts_loop fuel 100 0 PNone PNone s2) as [[contacts | e |] s3];
    cbn in Hs3; try done.
  unfold mbind at 1, M_bind at 1 in Hrun.
  pose proof (sync_trips_loop_keeps_logs fuel 100 1 0 _ s3 Hs3) as Hs4.
  unfold sync_trip_opportunities in Hrun.
  destruct (sync_trips_loop fuel 100 1 0 s3) as [[trips | e |] s4]; cbn in Hs4; try done.
  unfold mbind at 1, M_bind at 1 in Hrun.
  assert (keeps_logs (try_except (call vendor_service_init;; sync_vendors_from_ghl)
                        (fun _ => mret 0))) as Hvendors.
  { apply try_keeps_logs; [| intros e; apply ret_keeps_logs].
    apply bind_keeps_logs; [apply call_keeps_logs | intros _; apply sync_vendors_keeps_logs]. }
  pose proof (Hvendors _ s4 Hs4) as Hs5.
  destruct (try_except _ _ s4) as [[vendors | e |] s5]; cbn in Hs5; try done.
  unfold mbind at 1, M_bind at 1 in Hrun.
  pose proof (sync_passengers_loop_keeps_logs fuel 100 1 0 _ s5 Hs5) as Hs6.
  unfold sync_passenger_opportunities in Hrun.
  destruct (sync_passengers_loop fuel 100 1 0 s5) as [[passengers | e |] s6];
    cbn in Hs6; try done.
  destruct Hs6 as [Hp6 Hc6].
  unfold update_log, update, commit, mbind, M_bind, mret, M_ret in Hrun.
  cbn [pending committed] in Hrun.
  destruct (db_accepts _); [| done].
  injection Hrun as <- <-. cbn [pending committed set_sync_logs sync_logs].
  split; [| done]. rewrite Hp6. by rewrite alter_last.
Qed.

Lemma perform_full_sync_stages fuel :
  perform_full_sync fuel
  = (db ← read;
     let log := length (sync_logs db) in
     update (set_sync_logs (fun l => l ++ [new_sync_log]));;
     commit;;
     try_except (stages fuel log)
       (fun e => update_log log (log_failed e);; commit;; raise e)).
Proof. reflexivity. Qed.

(** X11.  A run of [perform_full_sync] that returns has recorded itself
    as a success: the row it appended to the sync log is committed with
    status ['success'], no errors, and [records_synced] equal to the sum
    of the eight counts it returns; the rows that were in the log before
    are unchanged, and nothing is left uncommitted. *)
Theorem full_sync_success_is_logged (fuel : nat) (s : session) (r : results)
    (s' : session) :
  perform_full_sync fuel s = (Returned r, s') ->
  sync_logs (committed s') = sync_logs (pending s) ++ [success_log (results_sum r)]
  /\ pending s' = committed s'.
Proof.
  rewrite perform_full_sync_stages. intros Hrun.
  unfold read, update, commit in Hrun.
  unfold mbind at 1 2 3, M_bind at 1 2 3 in Hrun.
  cbn [pending committed fst snd] in Hrun.
  destruct (db_accepts _); [| done].
  unfold try_except in Hrun.
  match type of Hrun with
  | context [stages fuel ?log ?s0] =>
      pose proof (stages_returned fuel log (sync_logs (pending s)) s0) as Hstages;
      destruct (stages fuel log s0) as [[r0 | e |] s0'] eqn:Hst
  end.
  - injection Hrun as <- <-. apply (Hstages r0 s0'); [| done | done].
    split; done.
  - exfalso. revert Hrun. unfold update_log, update, commit, raise, mbind, M_bind.
    cbn. by destruct (db_accepts _).
  - done.
Qed.

End Success.

Lemma full_sync_success_is_logged_witness :
  sync_logs (committed (snd (@perform_full_sync Host.host contacts_down 3 fresh_session)))
  = [ {| sync_type := "full"; status := "success"; records_synced := 4;
         errors := []; started_at := 0; completed_at := Some 0 |} ].
Proof.
  assert (fst (@perform_full_sync Host.host contacts_down 3 fresh_session)
          = Returned {| r_pipelines := 1; r_stages := 1; r_groups := 1; r_fields := 1;
                        r_contacts := 0; r_trips := 0; r_passengers := 0;
                        r_vendors := 0 |}) as Hfst.
  { vm_compute. reflexivity. }
  destruct (@perform_full_sync Host.host contacts_down 3 fresh_session) as [o s'] eqn:Hrun.
  cbn [fst snd] in *. subst o.
  exact (proj1 (@full_sync_success_is_logged Host.host contacts_down 3 fresh_session
                  _ s' Hrun)).
Defined.

End FullSyncSuccess.

(** ** [fetch_all_paginated] *)

Module PaginationFacts.
Import Py GhlSync RawSync.

Section Slices.
Context {A : Type} (fetch_items : Z -> Z -> result (list A)) (data : list A).

(** The endpoint serves the list [data] in slices. *)
Definition serves_slices : Prop :=
  forall limit offset, 0 <= limit -> 0 <= offset ->
    fetch_items limit offset
    = Ok (take (Z.to_nat limit) (drop (Z.to_nat offset) data)).

Lemma fetch_loop_slices fuel (k : nat) :
  serves_slices ->
  (length (drop k data) < 100 * fuel)%nat ->
  fetch_loop fetch_items fuel (take k data) (Z.of_nat k) = Returned data.
Proof.
  intros Hserve. revert k. induction fuel as [| fuel IH]; intros k Hfuel; [lia |].
  cbn [fetch_loop]. rewrite Hserve by lia. rewrite Nat2Z.id.
  change (Z.to_nat 100) with 100%nat.
  destruct (take 100 (drop k data)) as [| x items] eqn:Hitems.
  - assert (drop k data = []) as Hdrop.
    { destruct (drop k data); [done | discriminate]. }
    rewrite <- (take_drop k data) at 2. by rewrite Hdrop, app_nil_r.
  - rewrite <- Hitems.
    assert (length (take 100 (drop k data)) = (length (drop k data) `min` 100)%nat) as Hlen
      by (rewrite length_take; lia).
    destruct (Z.ltb_spec (Z.of_nat (length (take 100 (drop k data)))) 100) as [Hshort | Hfull].
    + rewrite (take_ge (drop k data)) by lia. by rewrite take_drop.
    + replace (Z.of_nat k + Z.of_nat (length (take 100 (drop k data))))
        with (Z.of_nat (k + 100)) by lia.
      replace (take k data ++ take 100 (drop k data)) with (take (k + 100) data).
      * apply IH. rewrite <- drop_drop. rewrite length_drop. lia.
      * rewrite <- (take_drop k data) at 1.
        rewrite take_app_add'; [done |]. rewrite length_take.
        rewrite length_drop in Hlen. lia.
Qed.

(** X12.  When the endpoint serves a list in slices of the requested
    size at the requested offset, [fetch_all_paginated] returns the whole
    list, in order and without repetition, after at most one request more
    than the list has full pages of 100. *)
Theorem fetch_all_paginated_collects (fuel : nat) :
  serves_slices ->
  (length data < 100 * fuel)%nat ->
  fetch_all_paginated fetch_items fuel = Returned data.
Proof.
  intros Hserve Hfuel. unfold fetch_all_paginated.
  apply (fetch_loop_slices fuel 0 Hserve). by rewrite drop_0.
Qed.

End Slices.

(** A server with 250 records. *)
Definition records : list Z := seqZ 0 250.

Definition serve (limit offset : Z) : result (list Z) :=
  Ok (take (Z.to_nat limit) (drop (Z.to_nat offset) records)).

Lemma fetch_all_paginated_collects_witness :
  fetch_all_paginated serve 3 = Returned records.
Proof.
  apply fetch_all_paginated_collects.
  - intros limit offset _ _. reflexivity.
  - vm_compute. lia.
Defined.

End PaginationFacts.

(** ** [verify_sync] *)

Module VendorCheckFacts.
Import Py VendorSync.

#[local] Set Warnings "-clear-no-such-hyp".

(** X13.  [verify_sync] reports [in_sync] exactly when the database and
    the dropdown hold the same names, repetitions and order aside; the
    names it lists as being on one side only are exactly those, each
    once; and its counts add up: each total is the number of common names
    plus the number of names on that side only. *)
Theorem verify_sync_report (db_names ghl_options : list string) :
  let status := verify_sync db_names ghl_options in
  (in_sync status = true <-> forall name, name ∈ db_names <-> name ∈ ghl_options)
  /\ (forall name, name ∈ only_in_db status <-> name ∈ db_names /\ name ∉ ghl_options)
  /\ (forall name, name ∈ only_in_ghl status <-> name ∈ ghl_options /\ name ∉ db_names)
  /\ NoDup (only_in_db status) /\ NoDup (only_in_ghl status)
  /\ total_db status = in_both status + Z.of_nat (length (only_in_db status))
  /\ total_ghl status = in_both status + Z.of_nat (length (only_in_ghl status)).
Proof.
  cbn zeta. unfold verify_sync. cbn [in_sync only_in_db only_in_ghl total_db total_ghl in_both].
  set (D := list_to_set db_names : gset string).
  set (G := list_to_set ghl_options : gset string).
  assert (forall name, name ∈ D <-> name ∈ db_names) as HD
    by (intros; subst D; apply elem_of_list_to_set).
  assert (forall name, name ∈ G <-> name ∈ ghl_options) as HG
    by (intros; subst G; apply elem_of_list_to_set).
  split; [| split; [| split; [| split; [| split; [| split]]]]].
  - rewrite andb_true_iff, !bool_decide_eq_true, !size_empty_iff.
    split.
    + intros [Hd Hg] name. rewrite <- HD, <- HG.
      destruct (decide (name ∈ D)), (decide (name ∈ G)); set_solver.
    + intros Hsame. split; apply set_equiv; intros name;
        specialize (Hsame name); rewrite <- HD, <- HG in Hsame; set_solver.
  - intros name. rewrite elem_of_elements, elem_of_difference, HD, HG. done.
  - intros name. rewrite elem_of_elements, elem_of_difference, HD, HG. done.
  - apply NoDup_elements.
  - apply NoDup_elements.
  - change (length (elements (D ∖ G))) with (size (D ∖ G)). rewrite <- Nat2Z.inj_add. f_equal.
    rewrite <- size_union by set_solver. f_equal.
    apply set_eq. intros name. destruct (decide (name ∈ G)); set_solver.
  - change (length (elements (G ∖ D))) with (size (G ∖ D)). rewrite <- Nat2Z.inj_add. f_equal.
    rewrite <- size_union by set_solver. f_equal.
    apply set_eq. intros name. destruct (decide (name ∈ D)); set_solver.
Qed.

End VendorCheckFacts.

(** ** [format_phone_e164] *)

Module PhoneFacts.
Import Py Phone LinkerClaims.






End PhoneFacts.

(** ** The two linkers *)

Module RawLinkerFacts.
Import Py Linker OrderedDict RawLinker.




Section Facts.
Context `{PyRuntime} {T : Type} (name : T -> option string).








End Facts.

(** A blank trip name is linked to the first named trip by this linker. *)
Example blank_name_is_linked :
  lookup_trip (build_lookup_tables Some ["Havana Week"; "Trinidad"]%string) "  "
  = Some "Havana Week"%string.
Proof. vm_compute. reflexivity. Qed.


End RawLinkerFacts.

(** ** The push of a trip *)

Module TripPushFacts.
Import Py FieldMapping CodecFacts TwoWayPush.

Section Facts.
Context `{PyRuntime} `{Crm}.

(** A request that makes a new opportunity, or looks for a stage to make
    one in. *)
Definition creating (r : request) : bool :=
  match r with
  | GetPipelines | CreateOpportunity _ => true
  | _ => false
  end.

Lemma upserts_do_not_create opportunity_id items :
  Forall (fun r => creating r = false) (upsert_custom_fields opportunity_id items).
Proof.
  unfold upsert_custom_fields. apply Forall_fmap, Forall_forall. by intros [k v] _.
Qed.

Lemma update_existing_spec opportunity_id opp_data items obj :
  let '(r, obj', requests) := update_existing opportunity_id opp_data items obj in
  obj' = obj
  /\ r = crm_update_opportunity opportunity_id opp_data
  /\ head requests = Some (UpdateOpportunity opportunity_id opp_data)
  /\ Forall (fun r => creating r = false) requests.
Proof.
  unfold update_existing.
  destruct (crm_update_opportunity opportunity_id opp_data) as [response | e].
  - repeat split. apply Forall_cons. split; [done | apply upserts_do_not_create].
  - repeat split. by apply Forall_cons.
Qed.

Definition is_create (r : request) : bool :=
  match r with
  | CreateOpportunity _ => true
  | _ => false
  end.

(** What [auto_sync_on_trip_create] and a later [auto_sync_on_trip_update]
    do to a trip. *)
Definition created_once (trip : pydict) : Prop :=
  let '(r, trip1, requests) := auto_sync_on_trip_create trip in
  (length (List.filter is_create requests) <= 1)%nat
  /\ (r = Ok PNone ->
      exists response opp_data,
        requests = [GetPipelines; CreateOpportunity opp_data]
        /\ crm_create_opportunity opp_data = Ok (PDict response)
        /\ dict_get trip1 "ghl_opportunity_id" = dict_get response "id"
        /\ (truthy (dict_get response "id") = true ->
            (let '(r2, trip2, requests2) := auto_sync_on_trip_update trip1 in
             trip2 = trip1
             /\ head requests2
                = Some (UpdateOpportunity (dict_get response "id")
                          (trip_opportunity_data trip1))
             /\ Forall (fun q => creating q = false) requests2)
            /\ auto_sync_on_trip_create trip1 = (Ok PNone, trip1, []))
        /\ (truthy (dict_get response "id") = false ->
            auto_sync_on_trip_update trip1 = (Ok PNone, trip1, []))).

(** X16.  For a trip that is not yet linked to an opportunity,
    [auto_sync_on_trip_create] creates one opportunity at most.  When it
    returns, it has asked for the pipelines and created an opportunity,
    the CRM has answered the creation with a dict, and the trip is left
    with the ['id'] of the answer as its [ghl_opportunity_id].  If that
    id is truthy, a later [auto_sync_on_trip_update] leaves the trip as it
    is, starts with an update of the opportunity of that id and makes no
    request that creates, and a second [auto_sync_on_trip_create] makes
    no request at all.  If the answer has no id, the trip stays unlinked:
    [auto_sync_on_trip_update] makes no request. *)
Theorem trip_is_created_once (trip : pydict) :
  truthy (dict_get trip "ghl_opportunity_id") = false -> created_once trip.
Proof.
  intros Hid. unfold created_once, auto_sync_on_trip_create. rewrite Hid. cbn [negb].
  unfold push_trip_to_ghl. rewrite Hid. cbn [andb].
  unfold create_new.
  destruct crm_get_pipelines as [pipelines | e]; cbn [returning_None];
    [| split; [cbn; lia | done]].
  destruct (default_stage _ pipelines) as [stage_id |]; cbn [returning_None];
    [| split; [cbn; lia | done]].
  match goal with
  | |- context [crm_create_opportunity ?d] => set (opp_data := d)
  end.
  destruct (crm_create_opportunity opp_data) as [response | e] eqn:Hcreate;
    cbn [returning_None]; [| split; [cbn; lia | done]].
  destruct response as [| | | | | | | response]; cbn [returning_None];
    try (split; [cbn; lia | done]).
  destruct session_commit as [[] | e]; cbn [returning_None]; [| split; [cbn; lia | done]].
  split; [cbn; lia |]. intros _. exists response, opp_data.
  set (trip1 := <[KStr "updated_at" := PInt crm_utcnow]>
                  (<[KStr "ghl_opportunity_id" := dict_get response "id"]> trip)).
  assert (dict_get trip1 "ghl_opportunity_id" = dict_get response "id") as Hid1.
  { unfold trip1, dict_get. rewrite lookup_insert_ne by done. by rewrite lookup_insert_eq. }
  split; [done |]. split; [done |]. split; [done |]. split.
  - intros Htruthy. split.
    + unfold auto_sync_on_trip_update, push_trip_to_ghl. rewrite Hid1, Htruthy. cbn [andb negb].
      pose proof (update_existing_spec (dict_get response "id") (trip_opportunity_data trip1)
                    (push_items TRIP_FIELD_MAP trip1) trip1) as Hupd.
      destruct (update_existing _ _ _ _) as [[r2 trip2] requests2]. cbn [returning_None].
      destruct Hupd as (-> & _ & Hhead & Hall). done.
    + unfold auto_sync_on_trip_create. by rewrite Hid1, Htruthy.
  - intros Hfalsy. unfold auto_sync_on_trip_update. by rewrite Hid1, Hfalsy.
Qed.

End Facts.

(** A CRM that has the TripBooking pipeline with one stage, and answers a
    creation with the id ["opp_7"]. *)
Definition one_stage_crm : Crm := {|
  crm_location_id := PStr "loc_1";
  crm_update_opportunity := fun _ _ => Ok (PDict ∅);
  crm_upsert_opportunity_custom_field := fun _ _ _ => Raise (PyException "rejected");
  crm_get_pipelines :=
    Ok [ {| GhlSync.pd_id := "IlWdPtOpcczLpgsde2KF"; GhlSync.pd_json := ∅;
            GhlSync.pd_stages := [ {| GhlSync.sd_id := "stage_1"; GhlSync.sd_json := ∅ |} ] |} ];
  crm_create_opportunity := fun _ => Ok (PDict {[ KStr "id" := PStr "opp_7" ]});
  session_commit := Ok tt;
  crm_utcnow := 0;
|}.

Lemma trip_is_created_once_witness :
  @created_once Host.host one_stage_crm {[ KStr "name" := PStr "Havana Week" ]}.
Proof.
  apply trip_is_created_once. vm_compute. reflexivity.
Defined.

End TripPushFacts.

(** ** The push of a contact *)

Module ContactPushFacts.
Import Py Contacts.

(** Every item is a string. *)
Definition all_strings (items : list pyval) : Prop :=
  Forall (fun v => exists s, v = PStr s) items.

Lemma join_commas_strings items :
  all_strings items <-> is_Some (join_commas items).
Proof.
  induction items as [| v rest IH]; cbn [join_commas].
  - split; [by eauto | constructor].
  - destruct v as [| | | | s | | |];
      try (split; [intros [[s' ?] _]%Forall_cons; done | by intros [? ?]]).
    destruct rest as [| v' rest'].
    + split; [by eauto |]. intros _. apply Forall_cons. split; [by eexists | constructor].
    + split.
      * intros [_ Hrest]%Forall_cons. apply IH in Hrest as [r Hr].
        rewrite Hr. by eauto.
      * intros Hsome. apply Forall_cons. split; [by eexists |]. apply IH.
        destruct (join_commas (v' :: rest')); [by eauto | by destruct Hsome].
Qed.

(** The argument list before its [None] values are dropped. *)
Definition contact_arguments (contact : pydict) : list (string * pyval) :=
  let contact_data :=
    [("firstName", dict_get contact "firstname");
     ("lastName", dict_get contact "lastname");
     ("email", dict_get contact "email");
     ("phone", dict_get contact "phone");
     ("address1", dict_get contact "address");
     ("city", dict_get contact "city");
     ("state", dict_get contact "state");
     ("postalCode", dict_get contact "postal_code");
     ("country", TwoWayPush.py_or (dict_get contact "country") (PStr "United States"));
     ("companyName", dict_get contact "company_name");
     ("website", dict_get contact "website")]%string in
  if truthy (dict_get contact "tags")
  then contact_data
       ++ [("tags"%string,
            match dict_get contact "tags" with
            | PList items => PList items
            | _ => PList []
            end)]
  else contact_data.

Lemma contact_data_filter contact :
  contact_data contact
  = List.filter (fun item => negb (is_None (snd item))) (contact_arguments contact).
Proof. unfold contact_data, contact_arguments. by destruct (truthy _). Qed.

Lemma contact_arguments_keys contact :
  NoDup (contact_arguments contact).*1
  /\ Forall (fun k => ghl_key_of k = k /\ k <> "locationId"%string)
            (contact_arguments contact).*1.
Proof.
  unfold contact_arguments. destruct (truthy _); cbn [fmap list_fmap fst app]; split;
    try (apply (bool_decide_unpack _); by vm_compute).
  all: repeat (apply Forall_cons; split; [split; [vm_compute; reflexivity | discriminate] |]);
    apply Forall_nil; exact I.
Qed.

Lemma elem_of_filter_list {A} (f : A -> bool) (l : list A) x :
  x ∈ List.filter f l <-> x ∈ l /\ f x = true.
Proof. rewrite !list_elem_of_In. apply filter_In. Qed.

Lemma NoDup_fmap_filter {A B} (g : A -> B) (f : A -> bool) (l : list A) :
  NoDup (g <$> l) -> NoDup (g <$> List.filter f l).
Proof.
  induction l as [| x l IH]; cbn [List.filter fmap list_fmap]; [done |].
  intros [Hx Hl]%NoDup_cons. destruct (f x); cbn [fmap list_fmap]; [| by apply IH].
  apply NoDup_cons. split; [| by apply IH].
  intros (y & Hy & Hin)%list_elem_of_fmap. apply Hx.
  apply list_elem_of_fmap. exists y. split; [done |].
  by apply elem_of_filter_list in Hin as [Hin _].
Qed.

(** Dropping the [None] values changes nothing for [create_contact],
    which skips them. *)
Lemma create_contact_loop_filter kwargs data :
  create_contact_loop data (List.filter (fun item => negb (is_None (snd item))) kwargs)
  = create_contact_loop data kwargs.
Proof.
  revert data. induction kwargs as [| [k v] rest IH]; intros data; [done |].
  cbn [List.filter snd create_contact_loop].
  destruct (is_None v) eqn:Hv; cbn [negb create_contact_loop].
  - unfold create_contact_step. rewrite Hv. apply IH.
  - destruct (create_contact_step data (k, v)); [apply IH | done].
Qed.

Lemma create_contact_loop_app l1 l2 data :
  create_contact_loop data (l1 ++ l2)
  = match create_contact_loop data l1 with
    | Ok data1 => create_contact_loop data1 l2
    | Raise e => Raise e
    end.
Proof.
  revert data. induction l1 as [| item l1 IH]; intros data; [done |].
  cbn [app create_contact_loop]. by destruct (create_contact_step data item).
Qed.

(** An argument other than the tags is stored as it is. *)
Lemma create_contact_step_plain data k v :
  k <> "tags"%string ->
  create_contact_step data (k, v)
  = Ok (if is_None v then data else <[KStr (ghl_key_of k) := v]> data).
Proof.
  intros Hk. unfold create_contact_step. destruct (is_None v); [done |].
  apply String.eqb_neq in Hk. destruct v; try done. by rewrite Hk.
Qed.

Lemma create_contact_loop_plain kwargs data :
  Forall (fun k => k <> "tags"%string) kwargs.*1 ->
  exists data', create_contact_loop data kwargs = Ok data'.
Proof.
  revert data. induction kwargs as [| [k v] rest IH]; intros data; cbn [create_contact_loop].
  { by eauto. }
  rewrite fmap_cons. intros [Hk Hrest]%Forall_cons. cbn [fst] in Hk.
  rewrite (create_contact_step_plain _ _ _ Hk). by apply IH.
Qed.

Lemma create_contact_loop_lookup kwargs (data data' : pydict) key :
  create_contact_loop data kwargs = Ok data' ->
  Forall (fun k => ghl_key_of k <> key) kwargs.*1 ->
  data' !! KStr key = data !! KStr key.
Proof.
  revert data. induction kwargs as [| [k v] rest IH]; intros data; cbn [create_contact_loop].
  { by intros [= <-]. }
  destruct (create_contact_step data (k, v)) as [data1 |] eqn:Hstep; [| done].
  rewrite fmap_cons. intros Hloop [Hk Hkeys]%Forall_cons. cbn [fst] in Hk.
  rewrite (IH data1 Hloop Hkeys).
  unfold create_contact_step in Hstep.
  destruct (is_None v); [by injection Hstep as <- |].
  assert (forall x, <[KStr (ghl_key_of k) := x]> data !! KStr key = data !! KStr key) as Hne.
  { intros x. rewrite lookup_insert_ne; [done | congruence]. }
  destruct v; try (injection Hstep as <-; apply Hne).
  destruct (String.eqb k "tags"); [| injection Hstep as <-; apply Hne].
  destruct (join_commas l); [injection Hstep as <-; apply Hne | done].
Qed.

Lemma create_contact_loop_written kwargs (data data' : pydict) k v :
  create_contact_loop data kwargs = Ok data' ->
  NoDup (ghl_key_of <$> kwargs.*1) ->
  (k, v) ∈ kwargs -> is_None v = false -> k <> "tags"%string ->
  data' !! KStr (ghl_key_of k) = Some v.
Proof.
  revert data. induction kwargs as [| [k0 v0] rest IH]; intros data; cbn [create_contact_loop].
  { intros _ _ Hin. by apply elem_of_nil in Hin. }
  destruct (create_contact_step data (k0, v0)) as [data1 |] eqn:Hstep; [| done].
  rewrite !fmap_cons. cbn [fst]. intros Hloop [Hk0 Hnd]%NoDup_cons Hin Hv Hk.
  apply elem_of_cons in Hin as [[= <- <-] | Hin]; [| by apply (IH data1)].
  rewrite (create_contact_loop_lookup rest data1 data' (ghl_key_of k) Hloop).
  - rewrite (create_contact_step_plain _ _ _ Hk), Hv in Hstep. injection Hstep as <-.
    by rewrite lookup_insert_eq.
  - apply Forall_forall. intros k' Hk' Heq. apply Hk0. rewrite <- Heq.
    apply list_elem_of_fmap. by exists k'.
Qed.

Lemma fold_insert_lookup (kwargs : list (string * pyval)) (d : pydict) k :
  (forall v, (k, v) ∈ kwargs -> NoDup kwargs.*1 ->
     fold_left (fun d '(k, v) => <[KStr k := v]> d) kwargs d !! KStr k = Some v)
  /\ (k ∉ kwargs.*1 ->
      fold_left (fun d '(k, v) => <[KStr k := v]> d) kwargs d !! KStr k = d !! KStr k).
Proof.
  revert d. induction kwargs as [| [k0 v0] rest IH]; intros d; cbn [fold_left].
  { split; [intros v Hin; by apply elem_of_nil in Hin | done]. }
  rewrite fmap_cons. cbn [fst]. split.
  - intros v Hin [Hk0 Hnd]%NoDup_cons.
    apply elem_of_cons in Hin as [[= <- <-] | Hin].
    + rewrite (proj2 (IH _) Hk0). by rewrite lookup_insert_eq.
    + by apply (proj1 (IH _)).
  - intros [Hne Hk]%not_elem_of_cons. rewrite (proj2 (IH _) Hk).
    rewrite lookup_insert_ne; [done | congruence].
Qed.

(** X17.  What [push_contact_to_ghl] sends for a contact.  (1) No
    argument is [None], and the country is always among them: the one of
    the contact, or ['United States'] when the contact has none.  (2) For
    a contact without an id that has tags, a creation is posted when the
    tags are strings: its body has the location id of the client and the
    country, and carries the tags as one string, joined by commas; a tag
    that is not a string makes the creation raise [TypeError].  (3) For a
    contact with an id an update is put; its body has the country and no
    location id, and carries the tags as the list they are. *)
Theorem pushed_contact_body (location_id : pyval) (contact : pydict) :
  let country := TwoWayPush.py_or (dict_get contact "country") (PStr "United States") in
  (forall key value, (key, value) ∈ contact_data contact -> is_None value = false)
  /\ (("country"%string, country) ∈ contact_data contact /\ truthy country = true)
  /\ (forall tag tags,
        truthy (dict_get contact "id") = false ->
        dict_get contact "tags" = PList (tag :: tags) ->
        match join_commas (tag :: tags) with
        | Some joined =>
            exists data,
              contact_request_of location_id contact = Ok (PostContact data)
              /\ data !! KStr "locationId" = Some location_id
              /\ data !! KStr "country" = Some country
              /\ data !! KStr "tags" = Some (PStr joined)
        | None =>
            exists msg, contact_request_of location_id contact = Raise (TypeError msg)
        end)
  /\ (truthy (dict_get contact "id") = true ->
      exists data,
        contact_request_of location_id contact = Ok (PutContact (dict_get contact "id") data)
        /\ data !! KStr "country" = Some country
        /\ data !! KStr "locationId" = None
        /\ forall tag tags, dict_get contact "tags" = PList (tag :: tags) ->
             data !! KStr "tags" = Some (PList (tag :: tags))).
Proof.
  intros country.
  assert (truthy country = true) as Hcountry.
  { subst country. unfold TwoWayPush.py_or.
    destruct (truthy (dict_get contact "country")) eqn:Hc; [done |]. done. }
  assert (is_None country = false) as Hcountry' by (by destruct country).
  assert (("country"%string, country) ∈ contact_arguments contact) as Hin.
  { unfold contact_arguments. destruct (truthy (dict_get contact "tags"));
      [apply elem_of_app; left |]; do 8 (apply elem_of_cons; right); apply elem_of_cons; by left. }
  destruct (contact_arguments_keys contact) as [Hnd Hkeys].
  split; [| split; [| split]].
  - intros key value. rewrite contact_data_filter.
    intros [_ Hv]%elem_of_filter_list. by apply negb_true_iff in Hv.
  - split; [| done]. rewrite contact_data_filter. apply elem_of_filter_list.
    split; [done |]. cbn [snd]. by rewrite Hcountry'.
  - intros tag tags Hid Htags. unfold contact_request_of. rewrite Hid.
    unfold create_contact_data. rewrite contact_data_filter, create_contact_loop_filter.
    unfold contact_arguments in *. rewrite Htags in *. cbn [truthy] in *.
    rewrite create_contact_loop_app.
    match goal with
    | |- context [create_contact_loop ?d ?l ] =>
        match l with
        | (_ :: _ :: _) => set (base := l) in *; set (data0 := d)
        end
    end.
    rewrite fmap_app in Hnd, Hkeys. apply NoDup_app in Hnd as (Hnd & _ & _).
    apply Forall_app in Hkeys as [Hkeys _].
    destruct (create_contact_loop_plain base data0) as [data1 Hdata1].
    { subst base. cbn [fmap list_fmap fst].
      repeat (apply Forall_cons; split; [discriminate |]). apply Forall_nil. exact I. }
    rewrite Hdata1. cbn [create_contact_loop create_contact_step is_None].
    change (ghl_key_of "tags") with "tags"%string. cbn [String.eqb Ascii.eqb Bool.eqb].
    assert (data1 !! KStr "locationId" = Some location_id) as Hloc.
    { rewrite (create_contact_loop_lookup base data0 data1 "locationId" Hdata1).
      - subst data0. by rewrite lookup_singleton_eq.
      - eapply Forall_impl; [exact Hkeys |]. intros k [-> Hk]. exact Hk. }
    assert (data1 !! KStr "country" = Some country) as Hc.
    { apply (create_contact_loop_written base data0 data1 "country" country Hdata1).
      - replace (ghl_key_of <$> base.*1) with base.*1; [done |].
        clear -Hkeys. induction Hkeys as [| k l [Hk _] _ IH]; [done |].
        rewrite fmap_cons, Hk. by f_equal.
      - apply elem_of_app in Hin as [Hin | Hin]; [done |].
        apply list_elem_of_singleton in Hin. discriminate.
      - done.
      - discriminate. }
    destruct (join_commas (tag :: tags)) as [joined |]; [| by eexists].
    eexists. split; [done |].
    rewrite !lookup_insert_ne by done. rewrite lookup_insert_eq. done.
  - intros Hid. unfold contact_request_of. rewrite Hid. eexists. split; [done |].
    unfold update_contact_data. rewrite contact_data_filter.
    set (kwargs := List.filter _ _).
    assert (NoDup kwargs.*1) as Hnd' by (by apply NoDup_fmap_filter).
    split; [| split].
    + apply (proj1 (fold_insert_lookup kwargs ∅ "country")); [| done].
      apply elem_of_filter_list. split; [done |]. cbn [snd]. by rewrite Hcountry'.
    + rewrite (proj2 (fold_insert_lookup kwargs ∅ "locationId")); [done |].
      intros ([k v] & Hk & Hkv)%list_elem_of_fmap. cbn in Hk. subst k.
      apply elem_of_filter_list in Hkv as [Hkv _].
      rewrite Forall_forall in Hkeys.
      destruct (Hkeys "locationId"%string) as [_ Hne]; [| done].
      apply list_elem_of_fmap. by exists ("locationId"%string, v).
    + intros tag tags Htags.
      apply (proj1 (fold_insert_lookup kwargs ∅ "tags")); [| done].
      apply elem_of_filter_list. split; [| done].
      unfold contact_arguments. rewrite Htags. cbn [truthy].
      apply elem_of_app. right. by apply list_elem_of_singleton.
Qed.

Lemma pushed_contact_body_witness :
  exists data,
    contact_request_of (PStr "loc_1")
      {[ KStr "firstname" := PStr "Ada";
         KStr "tags" := PList [PStr "vip"; PStr "2026"] ]}
    = Ok (PostContact data)
    /\ data !! KStr "locationId" = Some (PStr "loc_1")
    /\ data !! KStr "country" = Some (PStr "United States")
    /\ data !! KStr "tags" = Some (PStr "vip,2026").
Proof.
  exact (proj1 (proj2 (proj2 (pushed_contact_body (PStr "loc_1")
           {[ KStr "firstname" := PStr "Ada";
              KStr "tags" := PList [PStr "vip"; PStr "2026"] ]})))
         (PStr "vip") [PStr "2026"] eq_refl eq_refl).
Defined.

End ContactPushFacts.

(** ** The push of a passenger *)

Module PassengerPushFacts.
Import Py FieldMapping OrderedDict TwoWayPush PassengerPush TripPushFacts.

Section Facts.
Context `{PyRuntime} `{Crm}.

(** X18.  [push_passenger_to_ghl] (1) raises, without a request to the
    CRM and without touching the passenger, when the passenger has no
    contact id or its contact is missing.  (2) The assignment that adds
    the trip name to the payload is redundant when the trip name is a
    string or [None]: the payload is the one that the loop over the field
    map built.  (3) For a passenger with a contact and an id, and without
    [force_create], the passenger is left as it is, the first request is
    an update of the opportunity whose id is the id of the passenger, and
    no request creates an opportunity. *)
Theorem passenger_push (passenger : pydict) (contact : option pydict)
    (force_create : bool) :
  (truthy (dict_get passenger "contact_id") = false \/ contact = None ->
   exists msg,
     push_passenger_to_ghl passenger contact force_create
     = (Raise (PyException msg), passenger, []))
  /\ (dict_get passenger "trip_name" = PNone
      \/ (exists s, dict_get passenger "trip_name" = PStr s) ->
      passenger_items passenger = push_items PASSENGER_FIELD_MAP passenger)
  /\ (forall c,
        truthy (dict_get passenger "contact_id") = true -> contact = Some c ->
        truthy (dict_get passenger "id") = true -> force_create = false ->
        let '(r, passenger', requests) :=
          push_passenger_to_ghl passenger contact force_create in
        passenger' = passenger
        /\ head requests
           = Some (UpdateOpportunity (dict_get passenger "id")
                     (passenger_opportunity_data passenger c))
        /\ Forall (fun q => creating q = false) requests).
Proof.
  split; [| split].
  - unfold push_passenger_to_ghl.
    destruct (truthy (dict_get passenger "contact_id")); cbn [negb]; [| by eauto].
    intros [? | ->]; [done | by eauto].
  - unfold passenger_items. intros [Hnone | [s Hs]]; [by rewrite Hnone |].
    rewrite Hs. cbn [truthy]. destruct (String.eqb s ""); cbn [negb]; [done |].
    assert (PASSENGER_FIELD_MAP
            = ("opportunity.tripname", "trip_name")%string :: tail PASSENGER_FIELD_MAP)
      as -> by reflexivity.
    generalize (tail PASSENGER_FIELD_MAP). intros rest.
    unfold push_items. cbn [omap list_omap]. rewrite Hs.
    cbn [is_None encode_value od_set]. by rewrite String.eqb_refl.
  - intros c Hcid -> Hid ->. unfold push_passenger_to_ghl.
    rewrite Hcid, Hid. cbn [negb andb].
    pose proof (update_existing_spec (dict_get passenger "id")
                  (passenger_opportunity_data passenger c)
                  (passenger_items passenger) passenger) as Hupd.
    destruct (update_existing _ _ _ _) as [[r p'] requests].
    destruct Hupd as (-> & _ & Hhead & Hall). done.
Qed.

End Facts.

Lemma passenger_push_witness :
  exists msg,
    @push_passenger_to_ghl Host.host one_stage_crm
      {[ KStr "id" := PStr "opp_3" ]} None false
    = (Raise (PyException msg), {[ KStr "id" := PStr "opp_3" ]}, []).
Proof.
  apply (proj1 (@passenger_push Host.host one_stage_crm
                  {[ KStr "id" := PStr "opp_3" ]} None false)).
  by right.
Defined.

End PassengerPushFacts.
